(** * MkDocs configuration options: a shallow embedding

    This development embeds the option classes of
    [mkdocs/config/config_options.py] and states the behaviour of their
    validation lifecycle ([pre_validation], [validate] / [run_validation],
    [post_validation]).

    A document is a tree of values where the options read it, assign at
    its top level or, for [Deprecated], assign into the mapping a key path
    leads to.  Where the source takes entries out of objects of the raw
    document in place ([popitem] in [MarkdownExtensions] and [Plugins]),
    the lists, tuples and mappings of the document are kept in a store and
    referred to by address, so that an object reached on two ways is one
    object. *)

From Stdlib Require Import String Ascii List ZArith Bool Lia Arith.
From Stdlib Require DecimalString DecimalNat FinFun.
Import ListNotations.

Set Warnings "-register-all".

Local Open Scope string_scope.
Local Open Scope list_scope.

(* ===================================================================== *)
(** * Python values *)
(* ===================================================================== *)

(** The values a parsed configuration document is built from, as a tree:
    every list, tuple and mapping is written out where it occurs.  A
    [dict] keeps its entries in insertion order, as Python does.  A tree
    says nothing of an object that is reached on two ways; where an
    option changes objects of the raw document in place, the document is
    described with its objects in a store instead (module [Shared]
    below). *)
Inductive pyvalue : Type :=
| VNone
| VBool (b : bool)
| VInt (n : Z)
| VStr (s : string)
| VList (items : list pyvalue)
| VTuple (items : list pyvalue)
| VDict (entries : list (string * pyvalue)).

(** The entries of a mapping.  Keys are strings: the input document is a
    string-keyed mapping of nested scalars, sequences and mappings. *)
Definition dict := list (string * pyvalue).

Inductive pytype : Type :=
| NoneType | bool_t | int_t | str_t | list_t | tuple_t | dict_t.

Definition pytype_eqb (a b : pytype) : bool :=
  match a, b with
  | NoneType, NoneType | bool_t, bool_t | int_t, int_t | str_t, str_t
  | list_t, list_t | tuple_t, tuple_t | dict_t, dict_t => true
  | _, _ => false
  end.

(** [type(v)] *)
Definition type_of (v : pyvalue) : pytype :=
  match v with
  | VNone => NoneType
  | VBool _ => bool_t
  | VInt _ => int_t
  | VStr _ => str_t
  | VList _ => list_t
  | VTuple _ => tuple_t
  | VDict _ => dict_t
  end.

(** [issubclass(a, b)]: [bool] is a subclass of [int]. *)
Definition issubclass (a b : pytype) : bool :=
  pytype_eqb a b ||
  match a, b with bool_t, int_t => true | _, _ => false end.

(** [isinstance(v, t)] where [t] is a type or a tuple of types. *)
Definition isinstance (v : pyvalue) (ts : list pytype) : bool :=
  existsb (issubclass (type_of v)) ts.

(** [t.__name__] *)
Definition type_name (t : pytype) : string :=
  match t with
  | NoneType => "NoneType"
  | bool_t => "bool"
  | int_t => "int"
  | str_t => "str"
  | list_t => "list"
  | tuple_t => "tuple"
  | dict_t => "dict"
  end.

(** [str(t)] for a class object. *)
Definition type_str (t : pytype) : string :=
  "<class '" ++ type_name t ++ "'>".

Definition is_None (v : pyvalue) : bool :=
  match v with VNone => true | _ => false end.

(** Truthiness, [bool(v)]. *)
Definition truthy (v : pyvalue) : bool :=
  match v with
  | VNone => false
  | VBool b => b
  | VInt n => negb (n =? 0)%Z
  | VStr s => negb (String.eqb s "")
  | VList l | VTuple l => match l with [] => false | _ => true end
  | VDict d => match d with [] => false | _ => true end
  end.

(** A [str] is held as its UTF-8 encoding, one [ascii] per byte.  Its
    characters are counted by the bytes that start one, those that are not
    continuation bytes ([10xxxxxx]). *)
Definition is_continuation (a : ascii) : bool :=
  match a with
  | Ascii _ _ _ _ _ _ b6 b7 => b7 && negb b6
  end.

Fixpoint code_points (s : string) : nat :=
  match s with
  | EmptyString => 0
  | String a s' =>
      if is_continuation a then code_points s' else S (code_points s')
  end.

(** [len(v)]; [None] stands for the [TypeError] of an unsized object.  The
    length of a [str] is its number of characters (code points). *)
Definition py_len (v : pyvalue) : option nat :=
  match v with
  | VStr s => Some (code_points s)
  | VList l | VTuple l => Some (List.length l)
  | VDict d => Some (List.length d)
  | _ => None
  end.

(** Decimal rendering of a natural number, [str(n)]. *)
Definition str_of_nat (n : nat) : string :=
  DecimalString.NilZero.string_of_uint (Nat.to_uint n).

Section ValueEquality.

(** The integer a [bool] or [int] compares as. *)
Definition as_int (v : pyvalue) : option Z :=
  match v with
  | VBool b => Some (if b then 1%Z else 0%Z)
  | VInt n => Some n
  | _ => None
  end.

(** [a == b].  Numbers compare by value ([True == 1]); sequences compare
    element by element; mappings compare as sets of entries. *)
Fixpoint py_eq (a b : pyvalue) {struct a} : bool :=
  let fix eq_items (xs ys : list pyvalue) {struct xs} : bool :=
    match xs, ys with
    | [], [] => true
    | x :: xs', y :: ys' => py_eq x y && eq_items xs' ys'
    | _, _ => false
    end in
  let fix entries_in (xs : dict) (ys : dict) {struct xs} : bool :=
    match xs with
    | [] => true
    | (k, v) :: xs' =>
        (let fix find (ys : dict) : bool :=
           match ys with
           | [] => false
           | (k', v') :: ys' => if String.eqb k k' then py_eq v v' else find ys'
           end in find ys) && entries_in xs' ys
    end in
  match a, b with
  | VNone, VNone => true
  | VBool x, (VBool _ | VInt _) =>
      match as_int b with Some n => ((if x then 1 else 0) =? n)%Z | None => false end
  | VInt x, (VBool _ | VInt _) =>
      match as_int b with Some n => (x =? n)%Z | None => false end
  | VStr x, VStr y => String.eqb x y
  | VList xs, VList ys => eq_items xs ys
  | VTuple xs, VTuple ys => eq_items xs ys
  | VDict xs, VDict ys =>
      Nat.eqb (List.length xs) (List.length ys) && entries_in xs ys
  | _, _ => false
  end.

(** Whether a value can be hashed (used as a mapping key). *)
Fixpoint hashable (v : pyvalue) : bool :=
  match v with
  | VList _ | VDict _ => false
  | VTuple l => forallb hashable l
  | _ => true
  end.

End ValueEquality.

(* ===================================================================== *)
(** * Messages and exceptions *)
(* ===================================================================== *)

(** An f-string is kept as its pieces: literal text, [{v}] and [{v!r}]. *)
Inductive fragment : Type :=
| Lit (s : string)
| Str_ (v : pyvalue)
| Repr (v : pyvalue).

Definition message := list fragment.

Inductive exn : Type :=
| ValidationError (msg : message)
| ValueError (msg : message)
| KeyError (key : pyvalue)
| TypeError
| AttributeError
| IndexError
| RuntimeError.

Inductive result (A : Type) : Type :=
| Return (a : A)
| Raise (e : exn).
Arguments Return {A} a.
Arguments Raise {A} e.

(** Code that reads and writes a state [S] and may raise: the state
    survives an exception, as an object mutated before a [raise] does. *)
Definition Py (S A : Type) : Type := S -> S * result A.

Definition ret {S A} (a : A) : Py S A := fun s => (s, Return a).
Definition raise {S A} (e : exn) : Py S A := fun s => (s, Raise e).
Definition bind {S A B} (m : Py S A) (k : A -> Py S B) : Py S B :=
  fun s => match m s with
           | (s', Return a) => k a s'
           | (s', Raise e) => (s', Raise e)
           end.
Definition get {S} : Py S S := fun s => (s, Return s).
Definition put {S} (s : S) : Py S unit := fun _ => (s, Return tt).
Definition modify {S} (f : S -> S) : Py S unit := fun s => (f s, Return tt).
Definition lift {S A} (r : result A) : Py S A := fun s => (s, r).

Declare Scope py_scope.
Delimit Scope py_scope with py.
Notation "'let*' x ':=' m 'in' k" := (bind m (fun x => k))
  (at level 10, x pattern, m at level 100, k at level 200) : py_scope.
Notation "m ';;' k" := (bind m (fun _ => k))
  (at level 100, k at level 200, right associativity) : py_scope.
Local Open Scope py_scope.

Section Loops.
Context {S A B : Type}.

Section ForEach.
Variable body : A -> Py S unit.
(** [for x in xs: body(x)] *)
Fixpoint for_each (xs : list A) : Py S unit :=
  match xs with
  | [] => ret tt
  | x :: xs' => body x ;; for_each xs'
  end.
End ForEach.

Section MapPy.
Variable f : A -> Py S B.
(** [[f(x) for x in xs]] *)
Fixpoint map_py (xs : list A) : Py S (list B) :=
  match xs with
  | [] => ret []
  | x :: xs' => let* y := f x in let* ys := map_py xs' in ret (y :: ys)
  end.
End MapPy.
End Loops.

(* ===================================================================== *)
(** * OptionallyRequired *)
(* ===================================================================== *)

Module OptionallyRequired.

(** [self.default] and [self.required = bool(required)]. *)
Record t : Type := { default : pyvalue; required : bool }.

Section Validate.
Context {St : Type}.
(** The subclass's coercion logic. *)
Variable run_validation : pyvalue -> Py St pyvalue.

Definition validate (self : t) (value : pyvalue) : Py St pyvalue :=
  if is_None value then
    if negb (is_None (default self)) then
      run_validation (default self)
    else if negb (required self) then
      ret VNone
    else
      raise (ValidationError [Lit "Required configuration not provided."])
  else
    run_validation value.
End Validate.

End OptionallyRequired.

(* ===================================================================== *)
(** * Type *)
(* ===================================================================== *)

Module Type_.

(** [type_] is a class or a tuple of classes. *)
Inductive type_arg : Type :=
| Class (c : pytype)
| Classes (cs : list pytype).

Definition classes (a : type_arg) : list pytype :=
  match a with Class c => [c] | Classes cs => cs end.

(** [str(self._type)] *)
Definition type_arg_str (a : type_arg) : string :=
  match a with
  | Class c => type_str c
  | Classes [c] => "(" ++ type_str c ++ ",)"
  | Classes cs => "(" ++ String.concat ", " (map type_str cs) ++ ")"
  end.

Record t : Type := {
  base : OptionallyRequired.t;
  _type : type_arg;
  length : option nat
}.

Definition run_validation (self : t) (value : pyvalue) : result pyvalue :=
  if negb (isinstance value (classes (_type self))) then
    Raise (ValidationError
      [Lit "Expected type: "; Lit (type_arg_str (_type self));
       Lit " but received: "; Lit (type_str (type_of value))])
  else
    match length self with
    | None => Return value
    | Some n =>
        match py_len value with
        | None => Raise TypeError
        | Some k =>
            if negb (Nat.eqb k n) then
              Raise (ValidationError
                [Lit "Expected type: "; Lit (type_arg_str (_type self));
                 Lit " with length "; Lit (str_of_nat n);
                 Lit " but received: "; Repr value;
                 Lit " with length "; Lit (str_of_nat k)])
            else Return value
        end
    end.

Definition validate {St} (self : t) : pyvalue -> Py St pyvalue :=
  OptionallyRequired.validate (fun v => lift (run_validation self v)) (base self).

End Type_.

(* ===================================================================== *)
(** * Strings *)
(* ===================================================================== *)

(** [s.startswith(p)] *)
Definition startswith (s p : string) : bool := String.prefix p s.

(** [sub in s] for two strings. *)
Fixpoint is_substring (sub s : string) : bool :=
  String.prefix sub s ||
  match s with
  | EmptyString => false
  | String _ s' => is_substring sub s'
  end.

(** [s.endswith(c)] for a one-character [c]. *)
Fixpoint endswith_char (s : string) (c : ascii) : bool :=
  match s with
  | EmptyString => false
  | String a EmptyString => Ascii.eqb a c
  | String _ s' => endswith_char s' c
  end.

(** [s.rstrip(c)] for a one-character [c]. *)
Fixpoint rstrip (c : ascii) (s : string) : string :=
  match s with
  | EmptyString => EmptyString
  | String a s' =>
      match rstrip c s' with
      | EmptyString => if Ascii.eqb a c then EmptyString else String a EmptyString
      | r => String a r
      end
  end.

(** [s.split(c)]: never empty. *)
Fixpoint split (c : ascii) (s : string) : list string :=
  match s with
  | EmptyString => [EmptyString]
  | String a s' =>
      if Ascii.eqb a c then EmptyString :: split c s'
      else match split c s' with
           | x :: xs => String a x :: xs
           | [] => [String a EmptyString]
           end
  end.

(** [c * n] *)
Fixpoint repeat_char (c : ascii) (n : nat) : string :=
  match n with O => EmptyString | S n' => String c (repeat_char c n') end.

Definition nonempty (s : string) : bool :=
  match s with EmptyString => false | _ => true end.

(* ===================================================================== *)
(** * Mappings *)
(* ===================================================================== *)

(** The value stored under [k], if any. *)
Fixpoint dict_lookup (k : string) (d : dict) : option pyvalue :=
  match d with
  | [] => None
  | (k', v) :: d' => if String.eqb k k' then Some v else dict_lookup k d'
  end.

(** [d[k] = v]: an existing entry keeps its position, a new one goes last. *)
Fixpoint dict_set (k : string) (v : pyvalue) (d : dict) : dict :=
  match d with
  | [] => [(k, v)]
  | (k', v') :: d' =>
      if String.eqb k k' then (k', v) :: d' else (k', v') :: dict_set k v d'
  end.

(** [del d[k]]: the entry under [k] goes (a mapping holds at most one). *)
Definition dict_remove (k : string) (d : dict) : dict :=
  filter (fun kv => negb (String.eqb k (fst kv))) d.

(** [dict(pairs)]: later pairs overwrite earlier ones. *)
Definition dict_of_pairs (pairs : list (string * pyvalue)) : dict :=
  fold_left (fun d kv => dict_set (fst kv) (snd kv) d) pairs [].

(** [d.get(k)] *)
Definition dict_get (d : dict) (k : string) : pyvalue :=
  match dict_lookup k d with Some v => v | None => VNone end.

(** [d[k]] *)
Definition dict_getitem (d : dict) (k : string) : result pyvalue :=
  match dict_lookup k d with
  | Some v => Return v
  | None => Raise (KeyError (VStr k))
  end.

(** [x in coll] *)
Definition py_in (x coll : pyvalue) : result bool :=
  match coll with
  | VList l | VTuple l => Return (existsb (py_eq x) l)
  | VDict d =>
      if hashable x then
        Return (existsb (fun kv => py_eq x (VStr (fst kv))) d)
      else Raise TypeError
  | VStr s =>
      match x with
      | VStr sub => Return (is_substring sub s)
      | _ => Raise TypeError
      end
  | _ => Raise TypeError
  end.

(* ===================================================================== *)
(** * Config and the option interface *)
(* ===================================================================== *)

(** Modelled from the spec: [Config] is declared in [mkdocs/config/base.py],
    which is not among the sources.  Per the data model it owns the raw
    document, a mutable mapping from string keys to arbitrary values, and an
    optional source-location identifier. *)
Record Config : Type := {
  data : dict;
  config_file_path : option string
}.

Definition set_data (c : Config) (d : dict) : Config :=
  {| data := d; config_file_path := config_file_path c |}.

(** [config.config_file_path], under a name no other record shadows. *)
Definition source_location (c : Config) : option string := config_file_path c.

(** [Config(())]: an empty document without a source location. *)
Definition empty_Config : Config := {| data := []; config_file_path := None |}.

(** [config.get(k)] *)
Definition config_get (c : Config) (k : string) : pyvalue := dict_get (data c) k.

(** [config[k]] *)
Definition config_getitem (c : Config) (k : string) : result pyvalue :=
  dict_getitem (data c) k.

(** [config[k] = v] *)
Definition config_setitem (c : Config) (k : string) (v : pyvalue) : Config :=
  set_data c (dict_set k v (data c)).

(** The three operations every option offers.  [St] is the option's own
    mutable state (its warning buffer included); the hooks also see the
    [Config] they are called with. *)
Module ConfigOption.
Record t (St : Type) : Type := {
  pre_validation : string -> Py (St * Config) unit;
  run_validation : pyvalue -> Py St pyvalue;
  post_validation : string -> Py (St * Config) unit
}.
Arguments pre_validation {St} _ _ _.
Arguments run_validation {St} _ _ _.
Arguments post_validation {St} _ _ _.
End ConfigOption.

(** Runs a computation on one component of a pair of states. *)
Definition on_fst {S C A} (m : Py S A) : Py (S * C) A :=
  fun sc => let '(s', r) := m (fst sc) in ((s', snd sc), r).

Definition on_snd {S C A} (m : Py C A) : Py (S * C) A :=
  fun sc => let '(c', r) := m (snd sc) in ((fst sc, c'), r).

Module BaseConfigOption.
(** Modelled from the spec: the base class lives in
    [mkdocs/config/base.py], which is not among the sources.  Its hooks do
    nothing and its [run_validation] hands the value back. *)
Definition pre_validation {St} (key_name : string) : Py (St * Config) unit :=
  ret tt.
Definition run_validation {St} (value : pyvalue) : Py St pyvalue := ret value.
Definition post_validation {St} (key_name : string) : Py (St * Config) unit :=
  ret tt.
End BaseConfigOption.

(** [Type(...)] as an option: the hooks are the inherited ones. *)
Definition Type_option {St} (self : Type_.t) : ConfigOption.t St := {|
  ConfigOption.pre_validation := BaseConfigOption.pre_validation;
  ConfigOption.run_validation := fun v => lift (Type_.run_validation self v);
  ConfigOption.post_validation := BaseConfigOption.post_validation
|}.

(* ===================================================================== *)
(** * Iterating over a Config *)
(* ===================================================================== *)

Section ConfigIteration.
Context {St : Type}.
Variable body : string -> Py (St * Config) unit.

(** The iterator refuses to go on once the mapping has changed size. *)
Definition check_size (size : nat) : Py (St * Config) unit :=
  fun sc =>
    if Nat.eqb (List.length (data (snd sc))) size then (sc, Return tt)
    else (sc, Raise RuntimeError).

(** One [next()] per step: the entry at position [pos] of the current
    mapping, until the entries run out.  This is the iterator as long as
    the body leaves the keys of the mapping as they are (it may assign to
    them) or changes their number, which stops the loop; a body that
    takes keys out and puts as many in is not described by it. *)
Fixpoint iterate (size steps pos : nat) : Py (St * Config) unit :=
  check_size size ;;
  match steps with
  | O => ret tt
  | S steps' =>
      let* sc := get in
      match nth_error (data (snd sc)) pos with
      | None => ret tt
      | Some (key_name, _) =>
          body key_name ;; iterate size steps' (S pos)
      end
  end.

(** [for key_name in config: body(key_name)] *)
Definition for_key_in_config : Py (St * Config) unit :=
  let* sc := get in
  let size := List.length (data (snd sc)) in
  iterate size size 0.
End ConfigIteration.

(* ===================================================================== *)
(** * ListOfItems *)
(* ===================================================================== *)

Module ListOfItems.

(** [required] is the class attribute ([None] unless a subclass sets it);
    [_config] and [_key_name] are unset until [pre_validation] ran.  Of
    the stored config only its source location is read back. *)
Record t : Type := {
  default : pyvalue;
  required : option bool;
  _config : option Config;
  _key_name : option string
}.

Definition pre_validation (self : t) (config : Config) (key_name : string) : t :=
  {| default := default self; required := required self;
     _config := Some config; _key_name := Some key_name |}.

(** [f'{parent_key_name}[{i}]'] *)
Definition fake_key (parent_key_name : string) (i : nat) : string :=
  parent_key_name ++ "[" ++ str_of_nat i ++ "]".

Section RunValidation.
Context {St : Type}.
Variable option_type : ConfigOption.t St.

Definition getitem (k : string) : Py (St * Config) pyvalue :=
  fun sc => (sc, config_getitem (snd sc) k).

Definition setitem (k : string) (v : pyvalue) : Py (St * Config) unit :=
  fun sc => ((fst sc, config_setitem (snd sc) k v), Return tt).

(** [fake_config[key_name] =
      self.option_type.run_validation(fake_config[key_name])]:
    specifically not running [validate]. *)
Definition run_item (key_name : string) : Py (St * Config) unit :=
  let* raw := getitem key_name in
  let* v := on_fst (ConfigOption.run_validation option_type raw) in
  setitem key_name v.

(** The three passes over the synthetic document and the final
    collection of the items. *)
Definition lifecycle (fake_keys : list string) : Py (St * Config) (list pyvalue) :=
  for_key_in_config (ConfigOption.pre_validation option_type) ;;
  for_key_in_config run_item ;;
  for_key_in_config (ConfigOption.post_validation option_type) ;;
  map_py getitem fake_keys.

Definition run_validation (self : t) (value : pyvalue) : Py St pyvalue :=
  let* value :=
    (if is_None value then
       if match required self with Some b => b | None => false end
          || is_None (default self)
       then raise (ValidationError [Lit "Required configuration not provided."])
       else ret (default self)
     else ret value) in
  match value with
  | VList items =>
      if negb (truthy value) then ret value
      else
        let fake_config :=
          match _config self with
          | Some c => {| data := []; config_file_path := config_file_path c |}
          | None => empty_Config
          end in
        let parent_key_name :=
          match _key_name self with Some k => k | None => "" end in
        let fake_keys :=
          map (fake_key parent_key_name) (seq 0 (List.length items)) in
        let fake_config :=
          set_data fake_config (dict_of_pairs (combine fake_keys items)) in
        fun st =>
          let '((st', _), r) := lifecycle fake_keys (st, fake_config) in
          (st', match r with
                | Return vs => Return (VList vs)
                | Raise e => Raise e
                end)
  | _ =>
      raise (ValidationError
        [Lit "Expected a list of items, but a ";
         Lit (type_str (type_of value)); Lit " was given."])
  end.
End RunValidation.

End ListOfItems.

(* ===================================================================== *)
(** * Choice *)
(* ===================================================================== *)

Module Choice.

Record t : Type := {
  base : OptionallyRequired.t;
  choices : pyvalue
}.

(** [Choice(choices, default, required=...)] *)
Definition __init__ (choices default : pyvalue) (required : bool) : result t :=
  let length := match py_len choices with Some n => n | None => 0 end in
  if Nat.eqb length 0 || isinstance choices [str_t] then
    Raise (ValueError [Lit "Expected iterable of choices, got "; Str_ choices])
  else
    let accept :=
      Return {| base := {| OptionallyRequired.default := default;
                           OptionallyRequired.required := required |};
                choices := choices |} in
    if is_None default then accept
    else
      match py_in default choices with
      | Raise e => Raise e
      | Return false =>
          Raise (ValueError [Repr default; Lit " is not one of "; Repr choices])
      | Return true => accept
      end.

Definition run_validation (self : t) (value : pyvalue) : result pyvalue :=
  match py_in value (choices self) with
  | Raise e => Raise e
  | Return false =>
      Raise (ValidationError
        [Lit "Expected one of: "; Str_ (choices self);
         Lit " but received: "; Repr value])
  | Return true => Return value
  end.

Definition validate {St} (self : t) : pyvalue -> Py St pyvalue :=
  OptionallyRequired.validate (fun v => lift (run_validation self v)) (base self).

End Choice.

(* ===================================================================== *)
(** * Deprecated *)
(* ===================================================================== *)

Module Deprecated.

(** [message] is a format string: [pre_validation] hands it to
    [str.format]. *)
Record t : Type := {
  moved_to : option string;
  message : string;
  removed : bool
}.

(** [Deprecated(moved_to, message, removed)].  The default message is put
    together as a string, [moved_to] spliced in as it is. *)
Definition __init__ (moved_to : option string) (message : option string)
    (removed : bool) : t :=
  let message :=
    let given :=
      match message with
      | Some m => nonempty m
      | None => false
      end in
    if negb given then
      let message :=
        if removed then
          "The configuration option '{}' was removed from MkDocs."
        else
          ("The configuration option '{}' has been deprecated and " ++
           "will be removed in a future release of MkDocs.")%string in
      match moved_to with
      | Some p =>
          if nonempty p then (message ++ " Use '" ++ p ++ "' instead.")%string
          else message
      | None => message
      end
    else match message with Some m => m | None => "" end in
  {| moved_to := moved_to; message := message; removed := removed |}.

(** The warning buffer is shared with the wrapped option. *)
Record state (St : Type) : Type := {
  warnings : list string;
  option_state : St
}.
Arguments warnings {St} _.
Arguments option_state {St} _.

Definition append_warning {St C} (w : string) : Py (state St * C) unit :=
  modify (fun sc =>
    ({| warnings := warnings (fst sc) ++ [w];
        option_state := option_state (fst sc) |}, snd sc)).

(** A mapping inside the document is referred to by the keys that lead to
    it; the empty path is the document itself. *)
Fixpoint dict_at (root : dict) (target : list string) : option dict :=
  match target with
  | [] => Some root
  | k :: ks =>
      match dict_lookup k root with
      | Some (VDict d) => dict_at d ks
      | _ => None
      end
  end.

(** Rewrites, in place, the mapping a path refers to. *)
Fixpoint update_at (root : dict) (target : list string) (f : dict -> dict) : dict :=
  match target with
  | [] => f root
  | k :: ks =>
      match dict_lookup k root with
      | Some (VDict d) => dict_set k (VDict (update_at d ks f)) root
      | _ => root
      end
  end.

(** [target.get(key)] *)
Definition target_get (target : list string) (key : string) : Py dict pyvalue :=
  fun root =>
    match dict_at root target with
    | Some d => (root, Return (dict_get d key))
    | None => (root, Raise AttributeError)
    end.

(** [target[key]] *)
Definition target_getitem (target : list string) (key : string) : Py dict pyvalue :=
  fun root =>
    match dict_at root target with
    | Some d => (root, dict_getitem d key)
    | None => (root, Raise TypeError)
    end.

(** [target[key] = v] *)
Definition target_setitem (target : list string) (key : string) (v : pyvalue)
  : Py dict unit :=
  fun root =>
    match dict_at root target with
    | Some _ => (update_at root target (dict_set key v), Return tt)
    | None => (root, Raise TypeError)
    end.

(** The loop over [parent_keys]; [None] is the early [return]. *)
Fixpoint walk (parent_keys : list string) (target : list string)
  : Py dict (option (list string)) :=
  match parent_keys with
  | [] => ret (Some target)
  | key :: rest =>
      let* cur := target_get target key in
      (if is_None cur then target_setitem target key (VDict []) else ret tt) ;;
      let* next := target_getitem target key in
      if negb (isinstance next [dict_t]) then
        (* We can't move it for the user *)
        ret None
      else walk rest (target ++ [key])
  end.

(** [config.pop(key_name)] *)
Definition pop (key_name : string) : Py dict pyvalue :=
  fun root =>
    match dict_lookup key_name root with
    | Some v => (dict_remove key_name root, Return v)
    | None => (root, Raise (KeyError (VStr key_name)))
    end.

(** [target[target_key] = config.pop(key_name)].  When [target] lies
    inside the popped value it has left the document with the pop, and
    the assignment is no longer visible in it. *)
Definition move (target : list string) (target_key key_name : string)
  : Py dict unit :=
  let* v := pop key_name in
  match target with
  | k :: _ =>
      if String.eqb k key_name then ret tt
      else target_setitem target target_key v
  | [] => target_setitem target target_key v
  end.

Definition on_data {S A} (m : Py dict A) : Py (S * Config) A :=
  fun sc =>
    let '(d, r) := m (data (snd sc)) in
    ((fst sc, set_data (snd sc) d), r).

Section PreValidation.
Context {St : Type}.
(** [message.format(key_name)]: Python's [str.format] with one positional
    argument. *)
Variable str_format : string -> string -> result string.
(** [self.option], the wrapped option, and its [validate]. *)
Variable option : ConfigOption.t (state St).
Variable option_validate : pyvalue -> Py (state St) pyvalue.

Definition pre_validation (self : t) (key_name : string)
  : Py (state St * Config) unit :=
  ConfigOption.pre_validation option key_name ;;
  let* sc := get in
  if negb (is_None (config_get (snd sc) key_name)) then
    let* text := lift (str_format (message self) key_name) in
    if removed self then raise (ValidationError [Lit text])
    else
      append_warning text ;;
      match moved_to self with
      | None => ret tt
      | Some moved_to =>
          let keys := split "." moved_to in
          let parent_keys := removelast keys in
          let target_key := last keys "" in
          let* target := on_data (walk parent_keys []) in
          match target with
          | None => ret tt
          | Some target => on_data (move target target_key key_name)
          end
      end
  else ret tt.

Definition validate (value : pyvalue) : Py (state St) pyvalue :=
  option_validate value.

Definition post_validation (key_name : string) : Py (state St * Config) unit :=
  ConfigOption.post_validation option key_name.
End PreValidation.

(** [BaseConfigOption()], the wrapped option when none is given. *)
Definition plain_option {St} : ConfigOption.t St := {|
  ConfigOption.pre_validation := BaseConfigOption.pre_validation;
  ConfigOption.run_validation := BaseConfigOption.run_validation;
  ConfigOption.post_validation := BaseConfigOption.post_validation
|}.

End Deprecated.

(* ===================================================================== *)
(** * os.path on POSIX *)
(* ===================================================================== *)

Module posixpath.

(** [os.sep] *)
Definition sep : ascii := "/"%char.
Definition sep_str : string := String sep EmptyString.

(** [os.path.isabs(s)] *)
Definition isabs (s : string) : bool := startswith s sep_str.

(** [os.path.join(a, b)] *)
Definition join (a b : string) : string :=
  if startswith b sep_str then b
  else if negb (nonempty a) || endswith_char a sep then a ++ b
  else a ++ sep_str ++ b.

(** [p[:p.rfind('/') + 1]]: everything up to and including the last
    separator. *)
Fixpoint head_of (p : string) : string :=
  match p with
  | EmptyString => EmptyString
  | String a p' =>
      match head_of p' with
      | EmptyString => if Ascii.eqb a sep then sep_str else EmptyString
      | h => String a h
      end
  end.

Fixpoint all_sep (s : string) : bool :=
  match s with
  | EmptyString => true
  | String a s' => Ascii.eqb a sep && all_sep s'
  end.

(** [os.path.dirname(p)] *)
Definition dirname (p : string) : string :=
  let head := head_of p in
  if nonempty head && negb (all_sep head) then rstrip sep head else head.

(** One round of the loop of [normpath]; [new_comps] is kept with its
    last component first. *)
Definition normpath_step (initial_slashes : nat) (new_comps : list string)
    (comp : string) : list string :=
  if String.eqb comp "" || String.eqb comp "." then new_comps
  else if negb (String.eqb comp "..")
          || (Nat.eqb initial_slashes 0 && match new_comps with [] => true | _ => false end)
          || match new_comps with c :: _ => String.eqb c ".." | [] => false end
  then comp :: new_comps
  else match new_comps with
       | _ :: popped => popped
       | [] => new_comps
       end.

(** POSIX allows one or two initial slashes, but treats three or more
    as single slash. *)
Definition initial_slashes (path : string) : nat :=
  if startswith path "/" then
    if startswith path "//" && negb (startswith path "///") then 2 else 1
  else 0.

(** [os.path.normpath(path)] *)
Definition normpath (path : string) : string :=
  if negb (nonempty path) then "."
  else
    let initial_slashes := initial_slashes path in
    let comps := split sep path in
    let new_comps := fold_left (normpath_step initial_slashes) comps [] in
    let path := String.concat "/" (List.rev new_comps) in
    let path := (repeat_char sep initial_slashes ++ path)%string in
    if nonempty path then path else ".".

(** [os.path.abspath(path)], with [cwd] what [os.getcwd()] answers. *)
Definition abspath (cwd path : string) : string :=
  normpath (if negb (isabs path) then join cwd path else path).

End posixpath.

(* ===================================================================== *)
(** * FilesystemObject, Dir, SiteDir *)
(* ===================================================================== *)

Module FilesystemObject.

(** [existence_test] and [name] are the class attributes that [Dir] and
    [File] override. *)
Record t : Type := {
  base : Type_.t;
  exists_ : bool;
  config_dir : option string;
  existence_test : string -> bool;
  name : string
}.

Definition set_config_dir (self : t) (d : option string) : t :=
  {| base := base self; exists_ := exists_ self; config_dir := d;
     existence_test := existence_test self; name := name self |}.

(** [FilesystemObject(exists, default=..., required=...)]:
    the type is fixed to [str]. *)
Definition __init__ (existence_test : string -> bool) (name : string)
    (exists_ : bool) (default : pyvalue) (required : bool) : t :=
  {| base := {| Type_.base := {| OptionallyRequired.default := default;
                                 OptionallyRequired.required := required |};
                Type_._type := Type_.Class str_t;
                Type_.length := None |};
     exists_ := exists_; config_dir := None;
     existence_test := existence_test; name := name |}.

Definition pre_validation (self : t) (config : Config) (key_name : string) : t :=
  set_config_dir self
    match config_file_path config with
    | Some p => if nonempty p then Some (posixpath.dirname p) else None
    | None => None
    end.

Section RunValidation.
(** The working directory of the process. *)
Variable cwd : string.

Definition run_validation (self : t) (value : pyvalue) : result pyvalue :=
  match Type_.run_validation (base self) value with
  | Raise e => Raise e
  | Return (VStr value) =>
      let value :=
        match config_dir self with
        | Some d =>
            if nonempty d && negb (posixpath.isabs value)
            then posixpath.join d value else value
        | None => value
        end in
      if exists_ self && negb (existence_test self value) then
        Raise (ValidationError
          [Lit "The path '"; Lit value; Lit "' isn't an existing ";
           Lit (name self); Lit "."])
      else Return (VStr (posixpath.abspath cwd value))
  | Return _ => Raise TypeError
  end.

Definition validate {St} (self : t) : pyvalue -> Py St pyvalue :=
  OptionallyRequired.validate (fun v => lift (run_validation self v))
    (Type_.base (base self)).
End RunValidation.

End FilesystemObject.

Module SiteDir.

Section PostValidation.
Context {St : Type}.
(** [super().post_validation], inherited from the base class. *)
Definition super_post_validation : string -> Py (St * Config) unit :=
  BaseConfigOption.post_validation.

(** The directory [inner] lies within [outer] (or is [outer]). *)
Definition within (inner outer : string) : bool :=
  startswith (inner ++ posixpath.sep_str)%string
             (rstrip posixpath.sep outer ++ posixpath.sep_str)%string.

Definition docs_in_site_message (site_dir docs_dir : string) : string :=
  "The 'docs_dir' should not be within the 'site_dir' as this " ++
  "can mean the source files are overwritten by the output or " ++
  "it will be deleted if --clean is passed to mkdocs build. " ++
  "(site_dir: '" ++ site_dir ++ "', docs_dir: '" ++ docs_dir ++ "')".

Definition site_in_docs_message (site_dir docs_dir : string) : string :=
  "The 'site_dir' should not be within the 'docs_dir' as this " ++
  "leads to the build directory being copied into itself and " ++
  "duplicate nested files in the 'site_dir'. " ++
  "(site_dir: '" ++ site_dir ++ "', docs_dir: '" ++ docs_dir ++ "')".

Definition post_validation (key_name : string) : Py (St * Config) unit :=
  super_post_validation key_name ;;
  let* sc := get in
  let* docs_dir := lift (config_getitem (snd sc) "docs_dir") in
  let* site_dir := lift (config_getitem (snd sc) "site_dir") in
  match docs_dir, site_dir with
  | VStr docs_dir, VStr site_dir =>
      if within docs_dir site_dir then
        raise (ValidationError [Lit (docs_in_site_message site_dir docs_dir)])
      else if within site_dir docs_dir then
        raise (ValidationError [Lit (site_in_docs_message site_dir docs_dir)])
      else ret tt
  | VStr _, _ => raise AttributeError
  | _, _ => raise TypeError
  end.
End PostValidation.

End SiteDir.

(* ===================================================================== *)
(** * Nav *)
(* ===================================================================== *)

Module Nav.

(** [cls._repr_item(value)] *)
Definition _repr_item (value : pyvalue) : message :=
  match value with
  | VDict ((_ :: _) as entries) =>
      [Lit "dict with keys "; Str_ (VTuple (map (fun kv => VStr (fst kv)) entries))]
  | VStr _ | VNone => [Repr value]
  | _ => [Lit "a "; Lit (type_name (type_of value)); Lit ": "; Repr value]
  end.

Definition expected_list (value : pyvalue) : message :=
  Lit "Expected nav to be a list, got " :: _repr_item value.

(** The state is the option's warning buffer. *)
Fixpoint run_validation (top : bool) (value : pyvalue) {struct value}
  : Py (list message) pyvalue :=
  match value with
  | VList items =>
      for_each _validate_nav_item items ;;
      if top && negb (truthy value) then ret VNone else ret value
  | VDict entries =>
      if truthy value && negb top then
        (* TODO: this should be an error. *)
        modify (fun warnings => warnings ++ [expected_list value]) ;;
        for_each (fun kv => let '(_, subitem) := kv in
                            run_validation false subitem ;; ret tt) entries ;;
        ret value
      else raise (ValidationError (expected_list value))
  | VStr _ =>
      if negb top then ret value
      else raise (ValidationError (expected_list value))
  | _ => raise (ValidationError (expected_list value))
  end
with _validate_nav_item (value : pyvalue) {struct value}
  : Py (list message) unit :=
  match value with
  | VStr _ => ret tt
  | VDict entries =>
      if negb (Nat.eqb (List.length entries) 1) then
        raise (ValidationError
          (Lit "Expected nav item to be a dict of size 1, got " :: _repr_item value))
      else
        for_each (fun kv => let '(_, subnav) := kv in
                            run_validation false subnav ;; ret tt) entries
  | _ =>
      raise (ValidationError
        (Lit "Expected nav item to be a string or dict, got " :: _repr_item value))
  end.

Definition validate (self : OptionallyRequired.t) : pyvalue -> Py (list message) pyvalue :=
  OptionallyRequired.validate (run_validation true) self.

End Nav.

(* ===================================================================== *)
(** * Documents with shared objects *)
(* ===================================================================== *)

(** [pyvalue] describes a document as a tree.  [MarkdownExtensions] and
    [Plugins] change objects of the raw document in place (with
    [popitem]), and an object the document reaches twice, as a YAML alias
    gives, shows such a change wherever it is reached.  For them the
    lists, tuples and mappings of the document live in a store, and a
    value refers to them by address. *)
Module Shared.

Definition addr := nat.

Inductive value : Type :=
| SNone
| SBool (b : bool)
| SInt (n : Z)
| SStr (s : string)
| SRef (a : addr).

Inductive object : Type :=
| OList (items : list value)
| OTuple (items : list value)
| ODict (entries : list (string * value)).

Definition store := list object.

Definition lookup (objects : store) (a : addr) : option object :=
  nth_error objects a.

(** The store with the object at [a] replaced. *)
Fixpoint update (objects : store) (a : addr) (o : object) : store :=
  match objects, a with
  | [], _ => []
  | _ :: rest, O => o :: rest
  | x :: rest, S a' => x :: update rest a' o
  end.

(** [bool(v)] *)
Definition truthy (objects : store) (v : value) : bool :=
  match v with
  | SNone => false
  | SBool b => b
  | SInt n => negb (n =? 0)%Z
  | SStr s => negb (String.eqb s "")
  | SRef a =>
      match lookup objects a with
      | Some (OList l) | Some (OTuple l) => match l with [] => false | _ => true end
      | Some (ODict d) => match d with [] => false | _ => true end
      | None => false
      end
  end.

(** [isinstance(v, dict)] *)
Definition is_dict (objects : store) (v : value) : bool :=
  match v with
  | SRef a => match lookup objects a with Some (ODict _) => true | _ => false end
  | _ => false
  end.

(** [d[k] = v]: an existing entry keeps its position, a new one goes last. *)
Fixpoint entries_set (k : string) (v : value) (d : list (string * value))
  : list (string * value) :=
  match d with
  | [] => [(k, v)]
  | (k', v') :: d' =>
      if String.eqb k k' then (k', v) :: d' else (k', v') :: entries_set k v d'
  end.

(** [d.popitem()]: the last entry and the entries left; [None] stands for
    the [KeyError] of an empty mapping. *)
Definition popitem (d : list (string * value))
  : option ((string * value) * list (string * value)) :=
  match List.rev d with
  | [] => None
  | kv :: r => Some (kv, List.rev r)
  end.

Definition popitem_empty : exn := KeyError (VStr "popitem(): dictionary is empty").

(** The tree a value unfolds to, as far as [fuel] levels of objects. *)
Fixpoint read (fuel : nat) (objects : store) (v : value) : pyvalue :=
  match v with
  | SNone => VNone
  | SBool b => VBool b
  | SInt n => VInt n
  | SStr s => VStr s
  | SRef a =>
      match fuel with
      | O => VNone
      | S fuel' =>
          match lookup objects a with
          | Some (OList l) => VList (map (read fuel' objects) l)
          | Some (OTuple l) => VTuple (map (read fuel' objects) l)
          | Some (ODict d) =>
              VDict (map (fun kv => (fst kv, read fuel' objects (snd kv))) d)
          | None => VNone
          end
      end
  end.

(** What code that only reads a value sees of it: its unfolding, whole
    unless the objects refer to each other in a circle. *)
Definition snapshot (objects : store) (v : value) : pyvalue :=
  read (S (List.length objects)) objects v.


End Shared.

(* ===================================================================== *)
(** * MarkdownExtensions *)
(* ===================================================================== *)

Definition newline : string := String (Ascii.ascii_of_nat 10) EmptyString.
Definition dquote : string := String (Ascii.ascii_of_nat 34) EmptyString.

Module MarkdownExtensions.

Record t : Type := {
  base : OptionallyRequired.t;
  builtins : list string;
  configkey : string
}.

(** [self.configdata]: by extension name its configuration, the very
    object of the document. *)
Definition state := list (string * Shared.value).

Definition invalid_configuration : exn :=
  ValidationError [Lit "Invalid Markdown Extensions configuration"].

(** [validate_ext_cfg] reads the objects of the document and writes to
    [self.configdata] only. *)
Definition validate_ext_cfg (objects : Shared.store) (ext cfg : Shared.value)
  : Py state unit :=
  match ext with
  | Shared.SStr name =>
      if negb (Shared.truthy objects cfg) then ret tt
      else if negb (Shared.is_dict objects cfg) then
        raise (ValidationError
          [Lit "Invalid config options for Markdown Extension '";
           Str_ (VStr name); Lit "'."])
      else modify (Shared.entries_set name cfg)
  | _ =>
      raise (ValidationError
        [Lit "'"; Str_ (Shared.snapshot objects ext);
         Lit "' is not a valid Markdown Extension name."])
  end.

(** The body of [for ext, cfg in value.items()]; the second component of
    the state is the local list [extensions]. *)
Definition dict_body (objects : Shared.store) (entry : string * Shared.value)
  : Py (state * list string) unit :=
  let '(ext, cfg) := entry in
  on_fst (validate_ext_cfg objects (Shared.SStr ext) cfg) ;;
  modify (fun s => (fst s, snd s ++ [ext])).

(** The body of [for item in value]; the state is [self.configdata], the
    local list [extensions] and the objects of the document, among them
    the item at hand, whose entry [popitem] takes out. *)
Definition item_body (item : Shared.value)
  : Py ((state * list string) * Shared.store) unit :=
  fun s =>
    let '((configdata, extensions), objects) := s in
    match item with
    | Shared.SRef a =>
        match Shared.lookup objects a with
        | Some (Shared.ODict entries) =>
            if Nat.ltb 1 (List.length entries) then (s, Raise invalid_configuration)
            else
              match Shared.popitem entries with
              | None => (s, Raise Shared.popitem_empty)
              | Some ((ext, cfg), entries') =>
                  let objects := Shared.update objects a (Shared.ODict entries') in
                  match validate_ext_cfg objects (Shared.SStr ext) cfg configdata with
                  | (configdata', Raise e) =>
                      (((configdata', extensions), objects), Raise e)
                  | (configdata', Return _) =>
                      (((configdata', extensions ++ [ext]), objects), Return tt)
                  end
              end
        | _ => (s, Raise invalid_configuration)
        end
    | Shared.SStr name => (((configdata, extensions ++ [name]), objects), Return tt)
    | _ => (s, Raise invalid_configuration)
    end.

Section RunValidation.
(** [utils.reduce_list] *)
Variable reduce_list : list string -> list string.
(** A [markdown.Markdown] instance, a fresh one, and
    [md.registerExtensions((ext,), configs)], which may read the
    configurations, is taken not to write to them, and answers the
    description of the exception it raised, if any. *)
Variable Markdown : Type.
Variable new_Markdown : Markdown.
Variable registerExtensions :
  Markdown -> string -> state -> Shared.store -> Markdown * option string.

Fixpoint register_all (md : Markdown) (extensions : list string)
    (configdata : state) (objects : Shared.store) : result unit :=
  match extensions with
  | [] => Return tt
  | ext :: rest =>
      match registerExtensions md ext configdata objects with
      | (_, Some what) =>
          Raise (ValidationError
            [Lit "Failed to load extension '"; Lit ext; Lit "'.";
             Lit newline; Lit what])
      | (md', None) => register_all md' rest configdata objects
      end
  end.

(** Confirm that Markdown considers extensions to be valid. *)
Definition finish (self : t) (extensions : list string) (configdata : state)
    (objects : Shared.store) : result (list string) :=
  let extensions := reduce_list (builtins self ++ extensions) in
  match register_all new_Markdown extensions configdata objects with
  | Raise e => Raise e
  | Return _ => Return extensions
  end.

(** The second component of the state holds the objects of the
    document. *)
Definition run_validation (self : t) (value : Shared.value)
  : Py (state * Shared.store) (list string) :=
  fun s =>
    let objects := snd s in
    let configdata : state := [] in
    match value with
    | Shared.SRef a =>
        match Shared.lookup objects a with
        | Some (Shared.ODict entries) =>
            match for_each (dict_body objects) entries (configdata, []) with
            | ((configdata, _), Raise e) => ((configdata, objects), Raise e)
            | ((configdata, extensions), Return _) =>
                ((configdata, objects), finish self extensions configdata objects)
            end
        | Some (Shared.OList items) | Some (Shared.OTuple items) =>
            match for_each item_body items ((configdata, []), objects) with
            | (((configdata, _), objects), Raise e) => ((configdata, objects), Raise e)
            | (((configdata, extensions), objects), Return _) =>
                ((configdata, objects), finish self extensions configdata objects)
            end
        | None => ((configdata, objects), Raise invalid_configuration)
        end
    | _ => ((configdata, objects), Raise invalid_configuration)
    end.
End RunValidation.

End MarkdownExtensions.

(* ===================================================================== *)
(** * Plugins *)
(* ===================================================================== *)

Module Plugins.

Section Plugins.
(** What the [mkdocs.plugins] module and the installed plugins offer:
    plugin instances, the classes entry points load, and
    [PluginCollection]. *)
Variable Plugin : Type.
Variable PluginClass : Type.
Variable PluginCollection : Type.
(** [plugins.PluginCollection()] *)
Variable new_PluginCollection : PluginCollection.
(** [collection[name] = plugin] *)
Variable collection_setitem : PluginCollection -> string -> Plugin -> PluginCollection.
(** [plugins.get_plugins()], each entry point already loaded. *)
Variable installed_plugins : list (string * PluginClass).
Variable is_BasePlugin_subclass : PluginClass -> bool.
(** [f'{Plugin.__module__}.{Plugin.__name__}'] *)
Variable qualified_name : PluginClass -> string.
Variable BasePlugin_qualified_name : string.
(** [Plugin()] *)
Variable instantiate : PluginClass -> Plugin.
(** [hasattr(plugin, 'on_startup') or hasattr(plugin, 'on_shutdown')] *)
Variable has_startup_or_shutdown : Plugin -> bool.
(** [plugin.load_config(config, config_file_path)]: the plugin
    afterwards, its errors and its warnings; it is taken to read [config]
    only. *)
Variable load_config :
  Plugin -> dict -> option string -> Plugin * (list (string * string) * list string).

Record state : Type := {
  warnings : list string;
  config_file_path : option string;
  plugin_cache : list (string * Plugin);
  plugins : PluginCollection
}.

Definition set_plugin_cache (st : state) (c : list (string * Plugin)) : state :=
  {| warnings := warnings st; config_file_path := config_file_path st;
     plugin_cache := c; plugins := plugins st |}.
Definition set_plugins (st : state) (p : PluginCollection) : state :=
  {| warnings := warnings st; config_file_path := config_file_path st;
     plugin_cache := plugin_cache st; plugins := p |}.
Definition extend_warnings (st : state) (w : list string) : state :=
  {| warnings := warnings st ++ w; config_file_path := config_file_path st;
     plugin_cache := plugin_cache st; plugins := plugins st |}.

Fixpoint lookup {V} (k : string) (l : list (string * V)) : option V :=
  match l with
  | [] => None
  | (k', v) :: l' => if String.eqb k k' then Some v else lookup k l'
  end.

Fixpoint store {V} (k : string) (v : V) (l : list (string * V)) : list (string * V) :=
  match l with
  | [] => [(k, v)]
  | (k', v') :: l' =>
      if String.eqb k k' then (k', v) :: l' else (k', v') :: store k v l'
  end.

Definition pre_validation (config : Config) (key_name : string) : Py state unit :=
  modify (fun st =>
    {| warnings := warnings st;
       config_file_path := source_location config;
       plugin_cache := plugin_cache st; plugins := plugins st |}).

Definition error_line (name : string) (e : string * string) : string :=
  ("Plugin '" ++ name ++ "' value: '" ++ fst e ++ "'. Error: " ++ snd e)%string.

Definition load_plugin (name config : pyvalue) : Py state Plugin :=
  match name with
  | VStr name_ =>
      match lookup name_ installed_plugins with
      | None =>
          raise (ValidationError
            [Lit ("The " ++ dquote ++ name_ ++ dquote ++ " plugin is not installed")%string])
      | Some Plugin_ =>
          (* Users may define a null (None) config *)
          let config := if truthy config then config else VDict [] in
          match config with
          | VDict config =>
              let* st := get in
              let* plugin :=
                match lookup name_ (plugin_cache st) with
                | Some plugin => ret plugin
                | None =>
                    if negb (is_BasePlugin_subclass Plugin_) then
                      raise (ValidationError
                        [Lit (qualified_name Plugin_);
                         Lit " must be a subclass of ";
                         Lit BasePlugin_qualified_name])
                    else
                      let plugin := instantiate Plugin_ in
                      (if has_startup_or_shutdown plugin then
                         modify (fun st =>
                           set_plugin_cache st (store name_ plugin (plugin_cache st)))
                       else ret tt) ;;
                      ret plugin
                end in
              let '(plugin, (errors, warnings_)) :=
                load_config plugin config (config_file_path st) in
              (* a cached plugin is the very object just configured *)
              modify (fun st =>
                match lookup name_ (plugin_cache st) with
                | Some _ => set_plugin_cache st (store name_ plugin (plugin_cache st))
                | None => st
                end) ;;
              modify (fun st => extend_warnings st warnings_) ;;
              let errors_message :=
                String.concat newline (map (error_line name_) errors) in
              if nonempty errors_message then
                raise (ValidationError [Lit errors_message])
              else ret plugin
          | _ =>
              raise (ValidationError
                [Lit "Invalid config options for the '"; Lit name_;
                 Lit "' plugin."])
          end
      end
  | _ =>
      raise (ValidationError
        [Lit "'"; Str_ name; Lit "' is not a valid plugin name."])
  end.

(** [self.plugins[name] = self.load_plugin(name, cfg)] *)
Definition load_into_plugins (name cfg : pyvalue) : Py state unit :=
  let* plugin := load_plugin name cfg in
  match name with
  | VStr name_ =>
      modify (fun st => set_plugins st (collection_setitem (plugins st) name_ plugin))
  | _ => raise TypeError
  end.

(** The body of [for item in value]; the second component of the state
    holds the objects of the document, among them the item at hand, whose
    entry [popitem] takes out.  [load_plugin] only reads the
    configuration. *)
Definition item_body (item : Shared.value) : Py (state * Shared.store) unit :=
  fun s =>
    let '(st, objects) := s in
    let not_a_dict :=
      let '(st', r) :=
        load_into_plugins (Shared.snapshot objects item) (VDict []) st in
      ((st', objects), r) in
    match item with
    | Shared.SRef a =>
        match Shared.lookup objects a with
        | Some (Shared.ODict entries) =>
            if Nat.ltb 1 (List.length entries) then
              (s, Raise (ValidationError [Lit "Invalid Plugins configuration"]))
            else
              match Shared.popitem entries with
              | None => (s, Raise Shared.popitem_empty)
              | Some ((name, cfg), entries') =>
                  let objects := Shared.update objects a (Shared.ODict entries') in
                  let '(st', r) :=
                    load_into_plugins (VStr name) (Shared.snapshot objects cfg) st in
                  ((st', objects), r)
              end
        | _ => not_a_dict
        end
    | _ => not_a_dict
    end.

(** The second component of the state holds the objects of the
    document. *)
Definition run_validation (value : Shared.value)
  : Py (state * Shared.store) PluginCollection :=
  fun s =>
    let '(st, objects) := s in
    let invalid :=
      (s, Raise (ValidationError
            [Lit "Invalid Plugins configuration. Expected a list or dict."])) in
    match value with
    | Shared.SRef a =>
        match Shared.lookup objects a with
        | Some (Shared.ODict entries) =>
            let st := set_plugins st new_PluginCollection in
            match for_each
                    (fun e => load_into_plugins (VStr (fst e))
                                (Shared.snapshot objects (snd e)))
                    entries st with
            | (st', Raise e) => ((st', objects), Raise e)
            | (st', Return _) => ((st', objects), Return (plugins st'))
            end
        | Some (Shared.OList items) | Some (Shared.OTuple items) =>
            let st := set_plugins st new_PluginCollection in
            match for_each item_body items (st, objects) with
            | ((st', objects'), Raise e) => ((st', objects'), Raise e)
            | ((st', objects'), Return _) => ((st', objects'), Return (plugins st'))
            end
        | None => invalid
        end
    | _ => invalid
    end.
End Plugins.

End Plugins.
(* ===================================================================== *)
(** * FilesystemObject as an option, DocsDir *)
(* ===================================================================== *)

(** The option's own state is the option object: [pre_validation] stores
    [config_dir] in it and [run_validation] reads it back. *)
Definition FilesystemObject_option (cwd : string)
  : ConfigOption.t FilesystemObject.t := {|
  ConfigOption.pre_validation := fun key_name sc =>
    ((FilesystemObject.pre_validation (fst sc) (snd sc) key_name, snd sc), Return tt);
  ConfigOption.run_validation := fun value self =>
    (self, FilesystemObject.run_validation cwd self value);
  ConfigOption.post_validation := BaseConfigOption.post_validation
|}.

Module DocsDir.

Definition parent_directory_message (key_name : string) : string :=
  ("The '" ++ key_name ++ "' should not be the parent directory of the" ++
   " config file. Use a child directory instead so that the" ++
   " '" ++ key_name ++ "' is a sibling of the config file.")%string.

Definition post_validation {St} (key_name : string) : Py (St * Config) unit :=
  let* sc := get in
  match config_file_path (snd sc) with
  | None => ret tt
  | Some config_file =>
      (* Validate that the dir is not the parent dir of the config file. *)
      let* docs_dir := lift (config_getitem (snd sc) key_name) in
      if py_eq (VStr (posixpath.dirname config_file)) docs_dir then
        raise (ValidationError [Lit (parent_directory_message key_name)])
      else ret tt
  end.

End DocsDir.

(* ===================================================================== *)
(** * Theme *)
(* ===================================================================== *)

Module Theme.

Record t : Type := { default : pyvalue }.

Section RunValidation.
(** [utils.get_theme_names()]: whether a name is among the installed
    themes, and their names joined by [', ']. *)
Variable is_installed : pyvalue -> result bool.
Variable installed_names : string.

Definition run_validation (self : t) (value : pyvalue) : result pyvalue :=
  let value :=
    if is_None value && negb (is_None (default self))
    then VDict [("name", default self)] else value in
  let value :=
    if isinstance value [str_t] then VDict [("name", value)] else value in
  match value with
  | VDict entries =>
      match dict_lookup "name" entries with
      | Some name =>
          if is_None name then Return value
          else
            match is_installed name with
            | Raise e => Raise e
            | Return true => Return value
            | Return false =>
                Raise (ValidationError
                  [Lit "Unrecognised theme name: '"; Str_ name; Lit "'. ";
                   Lit "The available installed themes are: ";
                   Lit installed_names])
            end
      | None => Raise (ValidationError [Lit "No theme name set."])
      end
  | _ =>
      Raise (ValidationError
        [Lit "Invalid type "; Lit (type_str (type_of value));
         Lit ". Expected a string or key/value pairs."])
  end.
End RunValidation.

End Theme.

(* ===================================================================== *)
(** * EditURI *)
(* ===================================================================== *)

Section RepositoryOptions.
Context {St : Type}.
(** [urlsplit(url).netloc.lower()] *)
Variable repo_host_of : pyvalue -> result pyvalue.
(** [edit_uri.endswith('/')] and [edit_uri += '/'], for the truthy value
    of the option. *)
Definition ensure_trailing_slash (edit_uri : pyvalue) : result pyvalue :=
  if truthy edit_uri then
    match edit_uri with
    | VStr s =>
        if negb (endswith_char s "/") then Return (VStr (s ++ "/")) else Return edit_uri
    | _ => Raise AttributeError
    end
  else Return edit_uri.

(** [EditURI(repo_url_key).post_validation] *)
Definition EditURI_post_validation (repo_url_key key_name : string)
  : Py (St * Config) unit :=
  let* sc := get in
  let config := snd sc in
  let edit_uri := config_get config key_name in
  let repo_url := config_get config repo_url_key in
  let* edit_uri :=
    (if is_None edit_uri && negb (is_None repo_url) then
       let* repo_host := lift (repo_host_of repo_url) in
       if py_eq repo_host (VStr "github.com") || py_eq repo_host (VStr "gitlab.com")
       then ret (VStr "edit/master/docs/")
       else if py_eq repo_host (VStr "bitbucket.org")
       then ret (VStr "src/default/docs/")
       else ret edit_uri
     else ret edit_uri) in
  (* ensure a well-formed edit_uri *)
  let* edit_uri := lift (ensure_trailing_slash edit_uri) in
  modify (fun sc => (fst sc, config_setitem (snd sc) key_name edit_uri)).

End RepositoryOptions.

(* ===================================================================== *)
(** * IpAddress *)
(* ===================================================================== *)

Module IpAddress.

(** [s.rsplit(c, 1)]: the text before the last [c] and the text after it,
    or [s] alone when it holds no [c]. *)
Fixpoint rsplit1 (c : ascii) (s : string) : list string :=
  match s with
  | EmptyString => [EmptyString]
  | String a s' =>
      match rsplit1 c s' with
      | [host; port] => [String a host; port]
      | _ => if Ascii.eqb a c then [EmptyString; s'] else [String a s']
      end
  end.

(** [host[1:-1]] *)
Definition strip_ends (host : string) : string :=
  match host with
  | EmptyString => EmptyString
  | String _ rest => String.substring 0 (String.length rest - 1) rest
  end.

Definition format_message : exn :=
  ValidationError [Lit "Must be a string of format 'IP:PORT'"].

Section RunValidation.
(** [str(ipaddress.ip_address(host))], or the [ValueError] it raises. *)
Variable ip_address : string -> string + message.
(** [int(port)], if it parses. *)
Variable int_of : string -> option Z.

(** The value is the named tuple [(host, port)]. *)
Definition run_validation (value : pyvalue) : result pyvalue :=
  match value with
  | VStr value =>
      match rsplit1 ":" value with
      | [host; port] =>
          let checked :=
            if negb (String.eqb host "localhost") then
              let host :=
                if startswith host "[" && endswith_char host "]"
                then strip_ends host else host in
              (* Validate and normalize IP Address *)
              match ip_address host with
              | inl host => Return host
              | inr e => Raise (ValidationError e)
              end
            else Return host in
          match checked with
          | Raise e => Raise e
          | Return host =>
              match int_of port with
              | Some n => Return (VTuple [VStr host; VInt n])
              | None =>
                  Raise (ValidationError
                    [Lit "'"; Lit port; Lit "' is not a valid port"])
              end
          end
      | _ => Raise format_message
      end
  | _ => Raise format_message
  end.
End RunValidation.

Definition production_warning (host : string) : string :=
  ("The use of the IP address '" ++ host ++ "' suggests a production environment " ++
   "or the use of a proxy to connect to the MkDocs server. However, " ++
   "the MkDocs' server is intended for local development purposes only. " ++
   "Please use a third party production-ready server instead.")%string.

(** The first component of the state is the option's warning buffer. *)
Definition post_validation (key_name : string) : Py (list string * Config) unit :=
  let* sc := get in
  let* value := lift (config_getitem (snd sc) key_name) in
  match value with
  | VTuple [VStr host; _] =>
      if String.eqb key_name "dev_addr"
         && (String.eqb host "0.0.0.0" || String.eqb host "::")
      then modify (fun sc => (fst sc ++ [production_warning host], snd sc))
      else ret tt
  | _ => raise AttributeError
  end.

End IpAddress.

(* ===================================================================== *)
(** * Vocabulary of the properties *)
(* ===================================================================== *)

(** Observing the calls of a coercion: the first component of the state
    records, in order, every raw value [run_validation] is invoked with. *)
Definition logged {St} (run_validation : pyvalue -> Py St pyvalue)
  : pyvalue -> Py (list pyvalue * St) pyvalue :=
  fun v s =>
    let '(st', r) := run_validation v (snd s) in
    ((fst s ++ [v], st'), r).

(** A hook run beside the record of calls. *)
Definition beside_log {St} (hook : string -> Py (St * Config) unit)
  : string -> Py ((list pyvalue * St) * Config) unit :=
  fun key_name s =>
    let '((st', c'), r) := hook key_name (snd (fst s), snd s) in
    (((fst (fst s), st'), c'), r).

Definition logged_option {St} (o : ConfigOption.t St)
  : ConfigOption.t (list pyvalue * St) := {|
  ConfigOption.pre_validation := beside_log (ConfigOption.pre_validation o);
  ConfigOption.run_validation := logged (ConfigOption.run_validation o);
  ConfigOption.post_validation := beside_log (ConfigOption.post_validation o)
|}.

(** [Type(int)] and a [ListOfItems] around it, fresh from their
    constructors. *)
Definition Type_int : Type_.t :=
  {| Type_.base := {| OptionallyRequired.default := VNone;
                      OptionallyRequired.required := false |};
     Type_._type := Type_.Class int_t;
     Type_.length := None |}.

Definition fresh_ListOfItems (default : pyvalue) : ListOfItems.t :=
  {| ListOfItems.default := default; ListOfItems.required := None;
     ListOfItems._config := None; ListOfItems._key_name := None |}.

Definition missing_required : exn :=
  ValidationError [Lit "Required configuration not provided."].







(** A document with the two directories of a site. *)
Definition dirs_config (docs_dir site_dir : string) : Config :=
  {| data := [("docs_dir", VStr docs_dir); ("site_dir", VStr site_dir)];
     config_file_path := None |}.

(** Whether the walk along [parent_keys] meets a level that is there, is
    not [None] and is not a mapping. *)
Fixpoint obstructed (d : dict) (parent_keys : list string) : bool :=
  match parent_keys with
  | [] => false
  | k :: ks =>
      match dict_get d k with
      | VNone => false
      | VDict d' => obstructed d' ks
      | _ => true
      end
  end.

(** The value found by following a path of keys through nested mappings. *)
Fixpoint value_at (d : dict) (keys : list string) : option pyvalue :=
  match keys with
  | [] => None
  | k :: ks =>
      match ks with
      | [] => dict_lookup k d
      | _ :: _ =>
          match dict_lookup k d with
          | Some (VDict d') => value_at d' ks
          | _ => None
          end
      end
  end.

(** A fresh [Deprecated(moved_to='new.key')] and the buffer it starts
    with. *)
Definition Deprecated_moved : Deprecated.t :=
  Deprecated.__init__ (Some "new.key") None false.

Definition no_warnings : Deprecated.state unit :=
  {| Deprecated.warnings := []; Deprecated.option_state := tt |}.


(** Whether a string holds a separator. *)
Fixpoint has_sep (s : string) : bool :=
  match s with
  | EmptyString => false
  | String a s' => Ascii.eqb a posixpath.sep || has_sep s'
  end.

(** A component of a normalized path: not empty, neither [.] nor [..], and
    free of separators. *)
Definition is_clean (c : string) : bool :=
  nonempty c && negb (String.eqb c ".") && negb (String.eqb c "..")
  && negb (has_sep c).

(** [Dir(exists=...)] fresh from its constructor, after [pre_validation]
    on a document loaded from [config_file]. *)
Definition Dir_at (existence_test : string -> bool) (exists_ : bool)
    (config_file : string) : FilesystemObject.t :=
  FilesystemObject.pre_validation
    (FilesystemObject.__init__ existence_test "directory" exists_ VNone false)
    {| data := []; config_file_path := Some config_file |} "docs_dir".

(** [Choice(['a', 'b'], default='a')] *)
Definition Choice_ab : Choice.t :=
  {| Choice.base := {| OptionallyRequired.default := VStr "a";
                       OptionallyRequired.required := false |};
     Choice.choices := VList [VStr "a"; VStr "b"] |}.

(** A navigation with nested sections. *)
Definition sample_nav : list pyvalue :=
  [VStr "index.md";
   VDict [("About", VStr "about.md")];
   VDict [("Guide", VList [VStr "guide/a.md"; VDict [("B", VStr "guide/b.md")]])]].

(** A hook that reads nothing of the Config but its source location and
    leaves the Config alone; it may change the option's own state. *)
Definition with_location {St} (hook : option string -> string -> Py St unit)
  : string -> Py (St * Config) unit :=
  fun key_name sc =>
    let '(st', r) := hook (config_file_path (snd sc)) key_name (fst sc) in
    ((st', snd sc), r).

(** The source location a [ListOfItems] hands to its items. *)
Definition items_location (self : ListOfItems.t) : option string :=
  match ListOfItems._config self with
  | Some c => config_file_path c
  | None => None
  end.

(** The keys a [ListOfItems] gives to [n] items. *)
Definition fake_keys (self : ListOfItems.t) (n : nat) : list string :=
  map (ListOfItems.fake_key
         match ListOfItems._key_name self with Some k => k | None => "" end)
      (seq 0 n).

(** Whether a string holds a given character. *)
Fixpoint contains_char (c : ascii) (s : string) : bool :=
  match s with
  | EmptyString => false
  | String a s' => Ascii.eqb a c || contains_char c s'
  end.

(** What [EditURI.post_validation] leaves under its key: nothing, or a text
    that ends with a slash. *)
Definition well_formed_edit_uri (v : pyvalue) : Prop :=
  truthy v = false \/ exists s, v = VStr s /\ endswith_char s "/" = true.

(** A navigation that needs no remark: below the top level a text or a
    list of items, an item being a text or a one-entry mapping to such a
    navigation. *)
Fixpoint plain_nav (value : pyvalue) : bool :=
  match value with
  | VStr _ => true
  | VList items => forallb plain_nav_item items
  | _ => false
  end
with plain_nav_item (value : pyvalue) : bool :=
  match value with
  | VStr _ => true
  | VDict [(_, subnav)] => plain_nav subnav
  | _ => false
  end.

(** Induction on a value through its items and entries. *)
Section NestedInduction.
Variable P : pyvalue -> Prop.
Hypothesis HNone : P VNone.
Hypothesis HBool : forall b, P (VBool b).
Hypothesis HInt : forall n, P (VInt n).
Hypothesis HStr : forall s, P (VStr s).
Hypothesis HList : forall items, Forall P items -> P (VList items).
Hypothesis HTuple : forall items, Forall P items -> P (VTuple items).
Hypothesis HDict :
  forall entries, Forall (fun kv => P (snd kv)) entries -> P (VDict entries).

Fixpoint pyvalue_nested_ind (v : pyvalue) : P v :=
  match v with
  | VNone => HNone
  | VBool b => HBool b
  | VInt n => HInt n
  | VStr s => HStr s
  | VList items =>
      HList items
        ((fix go (l : list pyvalue) : Forall P l :=
            match l with
            | [] => Forall_nil _
            | x :: l' => Forall_cons x (pyvalue_nested_ind x) (go l')
            end) items)
  | VTuple items =>
      HTuple items
        ((fix go (l : list pyvalue) : Forall P l :=
            match l with
            | [] => Forall_nil _
            | x :: l' => Forall_cons x (pyvalue_nested_ind x) (go l')
            end) items)
  | VDict entries =>
      HDict entries
        ((fix go (l : list (string * pyvalue)) : Forall (fun kv => P (snd kv)) l :=
            match l with
            | [] => Forall_nil _
            | kv :: l' =>
                Forall_cons (P := fun kv => P (snd kv)) kv
                  (pyvalue_nested_ind (snd kv)) (go l')
            end) entries)
  end.
End NestedInduction.

(** A [Plugins] option before any plugin is loaded, plugins being stood
    for by their names and the collection by the list of its names. *)
Definition fresh_Plugins (warnings : list string) : Plugins.state string (list string) :=
  Plugins.Build_state string (list string) warnings None [] [].

(** The items a left-to-right pass of [f] is called with: every item up
    to and including the first one on which [f] raises. *)
Fixpoint calls_of {St} (f : pyvalue -> Py St pyvalue) (items : list pyvalue) (st : St)
  : list pyvalue :=
  match items with
  | [] => []
  | x :: rest =>
      x :: match f x st with
           | (st', Return _) => calls_of f rest st'
           | (_, Raise _) => []
           end
  end.

(** A pass of a hook over keys of a document that the hook leaves as it
    is: what it does to the option's state, and whether it raises. *)
Definition hook_pass {St} (hook : string -> Py (St * Config) unit) (c : Config)
  : list string -> Py St unit :=
  for_each (fun k st => let '((st', _), r) := hook k (st, c) in (st', r)).

(** The synthetic document [ListOfItems.run_validation] builds around the
    items of a raw list. *)
Definition synthetic_document (self : ListOfItems.t) (items : list pyvalue) : Config :=
  set_data
    match ListOfItems._config self with
    | Some c => {| data := []; config_file_path := config_file_path c |}
    | None => empty_Config
    end
    (dict_of_pairs (combine (fake_keys self (List.length items)) items)).

(** [str.format] with one positional argument, for a format string whose
    replacement fields are all [{}]: text is copied, [{{] and [}}] give a
    brace, the first [{}] gives the argument and a second one has no
    argument left; a single brace is an error.  Replacement fields other
    than [{}] are outside what this covers and are refused. *)
Definition single_brace (b : string) : exn :=
  ValueError [Lit "Single '"; Lit b; Lit "' encountered in format string"].

Definition not_covered : exn :=
  ValueError [Lit "replacement field not covered"].

Fixpoint format_plain_from (used : bool) (s : string) (arg : string) : result string :=
  match s with
  | EmptyString => Return EmptyString
  | String a rest =>
      if Ascii.eqb a "{" then
        match rest with
        | String b rest' =>
            if Ascii.eqb b "{" then
              match format_plain_from used rest' arg with
              | Return t => Return (String "{" t)
              | Raise e => Raise e
              end
            else if Ascii.eqb b "}" then
              if used then Raise IndexError
              else
                match format_plain_from true rest' arg with
                | Return t => Return (arg ++ t)%string
                | Raise e => Raise e
                end
            else Raise not_covered
        | EmptyString => Raise (single_brace "{")
        end
      else if Ascii.eqb a "}" then
        match rest with
        | String b rest' =>
            if Ascii.eqb b "}" then
              match format_plain_from used rest' arg with
              | Return t => Return (String "}" t)
              | Raise e => Raise e
              end
            else Raise (single_brace "}")
        | EmptyString => Raise (single_brace "}")
        end
      else
        match format_plain_from used rest arg with
        | Return t => Return (String a t)
        | Raise e => Raise e
        end
  end.

Definition format_plain : string -> string -> result string :=
  format_plain_from false.

(** A text without braces. *)
Definition brace_free (s : string) : bool :=
  negb (contains_char "{" s) && negb (contains_char "}" s).

(** A value that holds no other object: [None], a truth value, a number
    or a text. *)
Definition scalar (v : pyvalue) : bool :=
  match v with
  | VNone | VBool _ | VInt _ | VStr _ => true
  | _ => false
  end.

(* ===================================================================== *)
(** * Properties *)
(* ===================================================================== *)

(** Unfolds one [bind] and splits on the outcome of its first part. *)
Ltac py_bind :=
  unfold bind in *;
  repeat match goal with
  | |- context [match ?m ?s with (_, _) => _ end] =>
      let s' := fresh "s" in let r := fresh "r" in let E := fresh "E" in
      destruct (m s) as [s' r] eqn:E; try destruct r
  end.

Section OptionallyRequiredFacts.
Context {St : Type}.
Variable run_validation : pyvalue -> Py St pyvalue.

Lemma is_None_true (v : pyvalue) : is_None v = true <-> v = VNone.
Proof. destruct v; simpl; split; congruence. Qed.

Lemma is_None_false (v : pyvalue) : is_None v = false <-> v <> VNone.
Proof. destruct v; simpl; split; congruence. Qed.

Lemma validate_default (self : OptionallyRequired.t) :
  OptionallyRequired.default self <> VNone ->
  OptionallyRequired.validate run_validation self VNone
  = run_validation (OptionallyRequired.default self).
Proof.
  intros H. unfold OptionallyRequired.validate. simpl.
  apply is_None_false in H. now rewrite H.
Qed.
End OptionallyRequiredFacts.

(** C1, as the code has it: on an absent ([None]) raw value, [validate]
    with a non-[None] default hands the default to the subclass's
    [run_validation] and answers what that answers; without a default it
    raises 'Required configuration not provided.' when the option is
    required and answers [None] when it is not, in both cases without
    touching [run_validation] or the state. *)
Theorem C1_validate_absent {St : Type} (run_validation : pyvalue -> Py St pyvalue)
    (self : OptionallyRequired.t) (st : St) :
  (OptionallyRequired.default self <> VNone ->
   OptionallyRequired.validate run_validation self VNone st
   = run_validation (OptionallyRequired.default self) st) /\
  (OptionallyRequired.default self = VNone ->
   OptionallyRequired.required self = true ->
   OptionallyRequired.validate run_validation self VNone st
   = (st, Raise missing_required)) /\
  (OptionallyRequired.default self = VNone ->
   OptionallyRequired.required self = false ->
   OptionallyRequired.validate run_validation self VNone st
   = (st, Return VNone)).
Proof.
  repeat split.
  - intros H. now rewrite validate_default.
  - intros Hd Hr. unfold OptionallyRequired.validate. simpl.
    now rewrite Hd, Hr.
  - intros Hd Hr. unfold OptionallyRequired.validate. simpl.
    now rewrite Hd, Hr.
Qed.

Lemma C1_validate_absent_witness :
  (OptionallyRequired.validate (logged (fun v => lift (Type_.run_validation Type_int v)))
     {| OptionallyRequired.default := VInt 7; OptionallyRequired.required := false |}
     VNone ([], tt)
   = (([VInt 7], tt), Return (VInt 7))) /\
  (OptionallyRequired.validate (logged (fun v => lift (Type_.run_validation Type_int v)))
     {| OptionallyRequired.default := VNone; OptionallyRequired.required := true |}
     VNone ([], tt)
   = (([], tt), Raise missing_required)) /\
  (OptionallyRequired.validate (logged (fun v => lift (Type_.run_validation Type_int v)))
     {| OptionallyRequired.default := VNone; OptionallyRequired.required := false |}
     VNone ([], tt)
   = (([], tt), Return VNone)).
Proof.
  split; [|split].
  - rewrite (proj1 (C1_validate_absent _
      {| OptionallyRequired.default := VInt 7; OptionallyRequired.required := false |} _)).
    + reflexivity.
    + simpl. discriminate.
  - apply (proj1 (proj2 (C1_validate_absent _
      {| OptionallyRequired.default := VNone; OptionallyRequired.required := true |} _)));
      reflexivity.
  - apply (proj2 (proj2 (C1_validate_absent _
      {| OptionallyRequired.default := VNone; OptionallyRequired.required := false |} _)));
      reflexivity.
Defined.

(** C1 as worded fails: with a default, [validate(None)] does invoke the
    coercion, so [Type(int, default='a')] raises instead of answering its
    default, and the coercion is seen to be called with ['a']. *)
Lemma C1_default_is_coerced :
  ~ (forall (run_validation : pyvalue -> Py (list pyvalue) pyvalue)
            (self : OptionallyRequired.t) (calls : list pyvalue),
        OptionallyRequired.default self <> VNone ->
        OptionallyRequired.validate run_validation self VNone calls
        = (calls, Return (OptionallyRequired.default self))).
Proof.
  intros H.
  specialize (H (fun v calls => (calls ++ [v], Type_.run_validation Type_int v))
                {| OptionallyRequired.default := VStr "a";
                   OptionallyRequired.required := false |} []).
  simpl in H. discriminate H. discriminate.
Qed.

(* --------------------------------------------------------------------- *)
(** ** Strings: appending and printing numbers *)

Lemma append_nil_r (s : string) : (s ++ "")%string = s.
Proof. induction s; simpl; congruence. Qed.

Lemma append_assoc (a b c : string) : ((a ++ b) ++ c)%string = (a ++ (b ++ c))%string.
Proof. induction a; simpl; congruence. Qed.

Lemma append_inj_l (p a b : string) : (p ++ a)%string = (p ++ b)%string -> a = b.
Proof. induction p; simpl; intros H; [assumption | injection H; auto]. Qed.

Lemma length_append (a b : string) :
  String.length (a ++ b) = String.length a + String.length b.
Proof. induction a; simpl; congruence. Qed.

Lemma append_inj_r (a b s : string) : (a ++ s)%string = (b ++ s)%string -> a = b.
Proof.
  revert b. induction a as [|x a IH]; intros [|y b] H; simpl in H.
  - reflexivity.
  - apply (f_equal String.length) in H. simpl in H. rewrite length_append in H. lia.
  - apply (f_equal String.length) in H. simpl in H. rewrite length_append in H. lia.
  - injection H as -> H. f_equal. now apply IH.
Qed.

Lemma str_of_nat_inj (n m : nat) : str_of_nat n = str_of_nat m -> n = m.
Proof.
  unfold str_of_nat. intros H.
  assert (G : forall d, DecimalString.NilEmpty.uint_of_string
                          (DecimalString.NilZero.string_of_uint d)
                        = Some (match d with Decimal.Nil => Decimal.D0 Decimal.Nil | _ => d end)).
  { intros d. destruct d; try apply DecimalString.NilEmpty.usu. reflexivity. }
  assert (K : forall d, Nat.of_uint (match d with Decimal.Nil => Decimal.D0 Decimal.Nil | _ => d end)
                        = Nat.of_uint d).
  { intros d. destruct d; reflexivity. }
  apply (f_equal DecimalString.NilEmpty.uint_of_string) in H.
  rewrite !G in H. injection H as H.
  apply (f_equal Nat.of_uint) in H. rewrite !K in H.
  now rewrite !DecimalNat.Unsigned.of_to in H.
Qed.

Lemma fake_key_inj (p : string) (i j : nat) :
  ListOfItems.fake_key p i = ListOfItems.fake_key p j -> i = j.
Proof.
  unfold ListOfItems.fake_key. intros H.
  apply append_inj_l in H. apply append_inj_l in H.
  apply append_inj_r in H. now apply str_of_nat_inj.
Qed.

Lemma fake_keys_NoDup (p : string) (start n : nat) :
  NoDup (map (ListOfItems.fake_key p) (seq start n)).
Proof.
  apply Finite.Injective_map_NoDup.
  - intros i j. apply fake_key_inj.
  - apply seq_NoDup.
Qed.

(* --------------------------------------------------------------------- *)
(** ** Mappings *)

Lemma dict_lookup_app_notin (k : string) (d1 d2 : dict) :
  ~ In k (map fst d1) -> dict_lookup k (d1 ++ d2) = dict_lookup k d2.
Proof.
  induction d1 as [|[k' v'] d1 IH]; simpl; intros H; [reflexivity|].
  destruct (String.eqb_spec k k') as [->|_].
  - exfalso. apply H. now left.
  - apply IH. intros G. apply H. now right.
Qed.

Lemma dict_set_app_notin (k : string) (v : pyvalue) (d1 d2 : dict) :
  ~ In k (map fst d1) -> dict_set k v (d1 ++ d2) = d1 ++ dict_set k v d2.
Proof.
  induction d1 as [|[k' v'] d1 IH]; simpl; intros H; [reflexivity|].
  destruct (String.eqb_spec k k') as [->|_].
  - exfalso. apply H. now left.
  - f_equal. apply IH. intros G. apply H. now right.
Qed.

Lemma dict_of_pairs_NoDup (pairs : list (string * pyvalue)) :
  NoDup (map fst pairs) -> dict_of_pairs pairs = pairs.
Proof.
  unfold dict_of_pairs.
  assert (G : forall acc,
    NoDup (map fst (acc ++ pairs)) ->
    fold_left (fun d kv => dict_set (fst kv) (snd kv) d) pairs acc = acc ++ pairs).
  { induction pairs as [|[k v] pairs IH]; intros acc H; simpl.
    - now rewrite app_nil_r.
    - replace (acc ++ (k, v) :: pairs) with ((acc ++ [(k, v)]) ++ pairs)
        by (rewrite <- app_assoc; reflexivity).
      rewrite <- IH.
      + f_equal.
        rewrite <- (app_nil_r acc) at 1.
        rewrite dict_set_app_notin; [reflexivity|].
        rewrite map_app in H. apply NoDup_remove_2 in H.
        intros G. apply H. apply in_or_app. now left.
      + rewrite <- app_assoc. exact H. }
  intros H. now apply (G []).
Qed.

(* --------------------------------------------------------------------- *)
(** ** Sequencing *)

Lemma bind_Return {S A B} (m : Py S A) (k : A -> Py S B) (s s' : S) (b : B) :
  bind m k s = (s', Return b) ->
  exists s1 a, m s = (s1, Return a) /\ k a s1 = (s', Return b).
Proof.
  unfold bind. destruct (m s) as [s1 [a|e]]; intros H.
  - now exists s1, a.
  - discriminate.
Qed.

Lemma map_py_length {S A B} (f : A -> Py S B) (xs : list A) (s s' : S) (ys : list B) :
  map_py f xs s = (s', Return ys) -> List.length ys = List.length xs.
Proof.
  revert s s' ys. induction xs as [|x xs IH]; intros s s' ys H; simpl in H.
  - injection H as _ <-. reflexivity.
  - apply bind_Return in H as (s1 & y & _ & H).
    apply bind_Return in H as (s2 & ys' & H & G).
    injection G as _ <-. simpl. f_equal. eapply IH, H.
Qed.

(* --------------------------------------------------------------------- *)
(** ** The list-item lifecycle *)

Section ListOfItemsFacts.
Context {St : Type}.
Variable o : ConfigOption.t St.

(** A hook never adds to the record of calls. *)
Lemma iterate_beside_log (h : string -> Py (St * Config) unit)
    (size steps pos : nat) (s : (list pyvalue * St) * Config) :
  fst (fst (fst (iterate (beside_log h) size steps pos s))) = fst (fst s).
Proof.
  revert pos s. induction steps as [|steps IH]; intros pos s; simpl.
  - unfold bind, check_size.
    destruct (Nat.eqb _ _); reflexivity.
  - unfold bind at 1. unfold check_size.
    destruct (Nat.eqb _ _); [|reflexivity].
    unfold bind at 1. unfold get.
    destruct (nth_error _ _) as [[k v]|]; [|reflexivity].
    unfold bind. unfold beside_log at 1.
    destruct (h k _) as [[st' c'] [[]|e]] eqn:E; simpl.
    + rewrite IH. reflexivity.
    + reflexivity.
Qed.

Lemma map_py_getitem_state (ks : list string) (s : (list pyvalue * St) * Config) :
  fst (map_py ListOfItems.getitem ks s) = s.
Proof.
  induction ks as [|k ks IH]; simpl; [reflexivity|].
  unfold bind at 1. unfold ListOfItems.getitem at 1.
  destruct (config_getitem (snd s) k) as [v|e]; [|reflexivity].
  unfold bind. destruct (map_py ListOfItems.getitem ks s) as [s' [vs|e]] eqn:E;
    simpl in *; congruence.
Qed.

Lemma map_snd_combine {A B} (l1 : list A) (l2 : list B) :
  List.length l1 = List.length l2 -> map snd (combine l1 l2) = l2.
Proof.
  revert l2. induction l1 as [|a l1 IH]; intros [|b l2] H; simpl in *;
    try congruence; try discriminate.
  f_equal. apply IH. lia.
Qed.

Lemma map_fst_combine {A B} (l1 : list A) (l2 : list B) :
  List.length l1 = List.length l2 -> map fst (combine l1 l2) = l1.
Proof.
  revert l2. induction l1 as [|a l1 IH]; intros [|b l2] H; simpl in *;
    try congruence; try discriminate.
  f_equal. apply IH. lia.
Qed.

End ListOfItemsFacts.

Lemma lifecycle_length {St} (o : ConfigOption.t St) (keys : list string)
    (s s' : St * Config) (vs : list pyvalue) :
  ListOfItems.lifecycle o keys s = (s', Return vs) ->
  List.length vs = List.length keys.
Proof.
  unfold ListOfItems.lifecycle. intros H.
  apply bind_Return in H as (s1 & [] & _ & H).
  apply bind_Return in H as (s2 & [] & _ & H).
  apply bind_Return in H as (s3 & [] & _ & H).
  eapply map_py_length, H.
Qed.

Lemma validate_calls {St} (run_validation : pyvalue -> Py St pyvalue)
    (self : OptionallyRequired.t) (value : pyvalue) (log : list pyvalue) (st : St) :
  exists calls,
    fst (fst (OptionallyRequired.validate (logged run_validation) self value (log, st)))
    = log ++ calls
    /\ Forall (fun v => v <> VNone) calls.
Proof.
  unfold OptionallyRequired.validate.
  destruct (is_None value) eqn:Hv.
  - destruct (is_None (OptionallyRequired.default self)) eqn:Hd; simpl.
    + exists []. split; [|constructor].
      destruct (OptionallyRequired.required self); simpl; now rewrite app_nil_r.
    + exists [OptionallyRequired.default self]. split.
      * unfold logged. simpl. now destruct (run_validation _ _).
      * constructor; [|constructor]. now apply is_None_false.
  - exists [value]. split.
    + unfold logged. simpl. now destruct (run_validation _ _).
    + constructor; [|constructor]. now apply is_None_false.
Qed.

(** C3, as the code has it: [ListOfItems(Type(int))] on [[1, 'a', 3]]
    fails with the type error of the second item; the first item has been
    through [run_validation] before it, the third one never gets there, and
    no normalized list is produced. *)
Theorem C3_second_item_fails :
  ListOfItems.run_validation (logged_option (Type_option Type_int))
    (fresh_ListOfItems VNone) (VList [VInt 1; VStr "a"; VInt 3]) ([], tt)
  = (([VInt 1; VStr "a"], tt),
     Raise (ValidationError
       [Lit "Expected type: "; Lit "<class 'int'>";
        Lit " but received: "; Lit "<class 'str'>"])).
Proof. vm_compute. reflexivity. Qed.

(** C3 as worded fails: the third item is never handed to
    [run_validation] once the second has failed. *)
Lemma C3_third_item_not_validated :
  ~ In (VInt 3)
      (fst (fst (ListOfItems.run_validation (logged_option (Type_option Type_int))
                   (fresh_ListOfItems VNone)
                   (VList [VInt 1; VStr "a"; VInt 3]) ([], tt)))).
Proof.
  vm_compute. intros [H|[H|[]]]; discriminate.
Qed.

(** C5, as the code has it: an empty raw list is answered at once, as it
    is, without any call on the item option; a raw value that is neither a
    list nor [None] is a validation error naming its type; [None] is
    replaced by the default, or reported as missing when the option is
    required or has no default; and a successful validation of a raw list
    answers a list of the same length. *)
Theorem C5_list_of_items {St : Type} (o : ConfigOption.t St) (self : ListOfItems.t) :
  (forall st, ListOfItems.run_validation o self (VList []) st = (st, Return (VList []))) /\
  (forall value st,
      value <> VNone -> (forall items, value <> VList items) ->
      ListOfItems.run_validation o self value st
      = (st, Raise (ValidationError
               [Lit "Expected a list of items, but a ";
                Lit (type_str (type_of value)); Lit " was given."]))) /\
  (forall st,
      ListOfItems.run_validation o self VNone st
      = if match ListOfItems.required self with Some b => b | None => false end
           || is_None (ListOfItems.default self)
        then (st, Raise missing_required)
        else ListOfItems.run_validation o self (ListOfItems.default self) st) /\
  (forall items st st' r,
      ListOfItems.run_validation o self (VList items) st = (st', Return r) ->
      exists vs, r = VList vs /\ List.length vs = List.length items).
Proof.
  split; [|split; [|split]].
  - reflexivity.
  - intros value st Hn Hl. unfold ListOfItems.run_validation, bind.
    destruct value; try reflexivity.
    + contradiction.
    + exfalso. now apply (Hl items).
  - intros st. unfold ListOfItems.run_validation, bind. cbn [is_None].
    destruct (_ || _) eqn:E; [reflexivity|].
    apply orb_false_elim in E as [_ E]. cbn [ret].
    destruct (ListOfItems.default self); try reflexivity; discriminate.
  - intros items st st' r. unfold ListOfItems.run_validation, bind.
    cbn [is_None ret].
    destruct items as [|x items].
    + cbn. intros [= _ <-]. now exists [].
    + cbn [truthy negb].
      destruct (ListOfItems.lifecycle _ _ _) as [[st1 c1] [vs|e]] eqn:E.
      * intros [= _ <-]. exists vs. split; [reflexivity|].
        apply lifecycle_length in E. rewrite E.
        now rewrite length_map, length_seq.
      * intros [=].
Qed.

Lemma C5_list_of_items_witness :
  (ListOfItems.run_validation (Type_option Type_int) (fresh_ListOfItems VNone)
     (VStr "abc") tt
   = (tt, Raise (ValidationError
            [Lit "Expected a list of items, but a ";
             Lit "<class 'str'>"; Lit " was given."]))) /\
  (exists vs, VList [VInt 1; VBool true; VInt 3] = VList vs /\
              List.length vs = List.length [VInt 1; VBool true; VInt 3]).
Proof.
  pose proof (C5_list_of_items (Type_option (St := unit) Type_int)
                (fresh_ListOfItems VNone)) as (_ & Hb & _ & Hc).
  split.
  - apply (Hb (VStr "abc") tt); [discriminate | intros items; discriminate].
  - apply (Hc [VInt 1; VBool true; VInt 3] tt tt). vm_compute. reflexivity.
Defined.

(** C5 as worded fails at [None]: a [ListOfItems] with the default [[]]
    answers [[]] for a [None] raw value instead of raising an error that
    names [NoneType]. *)
Lemma C5_None_is_not_a_type_error :
  ~ (forall (self : ListOfItems.t) (value : pyvalue),
        (forall items, value <> VList items) ->
        snd (ListOfItems.run_validation (Type_option Type_int) self value tt)
        = Raise (ValidationError
            [Lit "Expected a list of items, but a ";
             Lit (type_str (type_of value)); Lit " was given."])).
Proof.
  intros H.
  specialize (H (fresh_ListOfItems (VList [])) VNone).
  vm_compute in H. discriminate H. intros items. discriminate.
Qed.

(* --------------------------------------------------------------------- *)
(** ** Choice *)

(** C9: constructing a [Choice] fails when the collection of choices is
    empty, unsized or a single string, and fails when a non-[None] default
    is not in it; otherwise it succeeds.  [run_validation] answers the
    value unchanged when it is in the collection, and fails exactly when it
    is not, with a [ValidationError] naming the collection and the value.
    [Choice(['a', 'b'], default='a')] accepts ['b'] and rejects ['c']. *)
Theorem C9_choice :
  (forall choices default required,
      py_len choices = None \/ py_len choices = Some 0 \/ type_of choices = str_t ->
      Choice.__init__ choices default required
      = Raise (ValueError [Lit "Expected iterable of choices, got "; Str_ choices])) /\
  (forall choices default required n,
      py_len choices = Some (S n) -> type_of choices <> str_t ->
      default <> VNone -> py_in default choices = Return false ->
      Choice.__init__ choices default required
      = Raise (ValueError [Repr default; Lit " is not one of "; Repr choices])) /\
  (forall choices default required n,
      py_len choices = Some (S n) -> type_of choices <> str_t ->
      default = VNone \/ py_in default choices = Return true ->
      Choice.__init__ choices default required
      = Return {| Choice.base := {| OptionallyRequired.default := default;
                                    OptionallyRequired.required := required |};
                  Choice.choices := choices |}) /\
  (forall self value,
      py_in value (Choice.choices self) = Return true ->
      Choice.run_validation self value = Return value) /\
  (forall self value,
      py_in value (Choice.choices self) = Return false ->
      Choice.run_validation self value
      = Raise (ValidationError
          [Lit "Expected one of: "; Str_ (Choice.choices self);
           Lit " but received: "; Repr value])) /\
  (forall self value,
      (exists e, Choice.run_validation self value = Raise e)
      <-> py_in value (Choice.choices self) <> Return true) /\
  Choice.__init__ (VList [VStr "a"; VStr "b"]) (VStr "a") false = Return Choice_ab /\
  Choice.run_validation Choice_ab (VStr "b") = Return (VStr "b") /\
  Choice.run_validation Choice_ab (VStr "c")
  = Raise (ValidationError
      [Lit "Expected one of: "; Str_ (VList [VStr "a"; VStr "b"]);
       Lit " but received: "; Repr (VStr "c")]).
Proof.
  repeat match goal with |- _ /\ _ => split end; try reflexivity.
  - intros choices default required H. unfold Choice.__init__.
    destruct H as [H|[H|H]].
    + now rewrite H.
    + now rewrite H.
    + destruct choices; try discriminate. simpl.
      now rewrite orb_true_r.
  - intros choices default required n Hl Ht Hd Hin. unfold Choice.__init__.
    rewrite Hl. cbn [Nat.eqb orb].
    assert (G : isinstance choices [str_t] = false)
      by (destruct choices; try reflexivity; contradiction).
    rewrite G. apply is_None_false in Hd. now rewrite Hd, Hin.
  - intros choices default required n Hl Ht Hd. unfold Choice.__init__.
    rewrite Hl. cbn [Nat.eqb orb].
    assert (G : isinstance choices [str_t] = false)
      by (destruct choices; try reflexivity; contradiction).
    rewrite G. destruct Hd as [->|Hd]; [reflexivity|].
    rewrite Hd. now destruct (is_None default).
  - intros self value H. unfold Choice.run_validation. now rewrite H.
  - intros self value H. unfold Choice.run_validation. now rewrite H.
  - intros self value. unfold Choice.run_validation.
    destruct (py_in value (Choice.choices self)) as [[|]|e]; split;
      try congruence; try (intros [e' H]; congruence); intros _; eauto.
Qed.

Lemma C9_choice_witness :
  Choice.__init__ (VStr "ab") VNone false
  = Raise (ValueError [Lit "Expected iterable of choices, got "; Str_ (VStr "ab")]) /\
  Choice.__init__ (VList [VStr "a"; VStr "b"]) (VStr "z") false
  = Raise (ValueError [Repr (VStr "z"); Lit " is not one of ";
                       Repr (VList [VStr "a"; VStr "b"])]) /\
  Choice.run_validation Choice_ab (VBool true)
  = Raise (ValidationError
      [Lit "Expected one of: "; Str_ (VList [VStr "a"; VStr "b"]);
       Lit " but received: "; Repr (VBool true)]).
Proof.
  pose proof C9_choice as (H1 & H2 & _ & _ & H5 & _).
  split; [|split].
  - apply H1. right. right. reflexivity.
  - apply (H2 _ _ _ 1); [reflexivity | discriminate | discriminate | reflexivity].
  - apply (H5 Choice_ab). reflexivity.
Defined.

(* --------------------------------------------------------------------- *)
(** ** Nav *)

(** C10: at the top level [Nav] answers [None] for an empty list, and a
    non-empty list whose items all pass [_validate_nav_item] is answered
    as that list. *)
Theorem C10_nav_top_level :
  (forall warnings,
      Nav.run_validation true (VList []) warnings = (warnings, Return VNone)) /\
  (forall self warnings,
      Nav.validate self (VList []) warnings = (warnings, Return VNone)) /\
  (forall item items warnings warnings',
      for_each Nav._validate_nav_item (item :: items) warnings = (warnings', Return tt) ->
      Nav.run_validation true (VList (item :: items)) warnings
      = (warnings', Return (VList (item :: items)))).
Proof.
  split; [|split].
  - reflexivity.
  - reflexivity.
  - intros item items warnings warnings' H.
    change (Nav.run_validation true (VList (item :: items)) warnings)
      with (bind (for_each Nav._validate_nav_item (item :: items))
                 (fun _ => ret (VList (item :: items))) warnings).
    unfold bind at 1. now rewrite H.
Qed.

Lemma C10_nav_top_level_witness :
  Nav.run_validation true (VList sample_nav) [] = ([], Return (VList sample_nav)).
Proof.
  apply (proj2 (proj2 C10_nav_top_level)). vm_compute. reflexivity.
Defined.

(* --------------------------------------------------------------------- *)
(** ** Prefixes, stripping and substrings *)

Lemma prefix_iff (p s : string) :
  String.prefix p s = true <-> exists t, s = (p ++ t)%string.
Proof.
  revert s. induction p as [|a p IH]; intros s.
  - split; [intros _; now exists s | intros _; now destruct s].
  - destruct s as [|b s]; simpl.
    + split; [discriminate | intros [t H]; discriminate].
    + destruct (ascii_dec a b) as [->|N].
      * rewrite IH. split; intros [t H]; exists t; [now rewrite H | now injection H].
      * split; [discriminate | intros [t H]; injection H; congruence].
Qed.

Lemma prefix_append (s t : string) : String.prefix s (s ++ t) = true.
Proof. apply prefix_iff. now exists t. Qed.

Lemma is_substring_prefix (sub s : string) :
  String.prefix sub s = true -> is_substring sub s = true.
Proof. intros H. destruct s; cbn [is_substring]; now rewrite H. Qed.

Lemma is_substring_append (a s b : string) : is_substring s (a ++ s ++ b) = true.
Proof.
  induction a as [|c a IH].
  - apply is_substring_prefix. exact (prefix_append s b).
  - cbn [append is_substring]. rewrite IH. apply orb_true_r.
Qed.

Lemma is_substring_skip (a s t : string) :
  is_substring s t = true -> is_substring s (a ++ t) = true.
Proof.
  intros H. induction a as [|c a IH]; [exact H|].
  cbn [append is_substring]. rewrite IH. apply orb_true_r.
Qed.

(** Finds a string among the pieces of a concatenation. *)
Ltac find_substring :=
  repeat first [ apply is_substring_prefix; apply prefix_append
               | apply is_substring_skip ].

Lemma append_eq_append (a b c d : string) :
  (a ++ b)%string = (c ++ d)%string ->
  (exists u, c = (a ++ u)%string /\ b = (u ++ d)%string) \/
  (exists u, a = (c ++ u)%string /\ d = (u ++ b)%string).
Proof.
  revert c. induction a as [|x a IH]; intros c H; simpl in H.
  - left. now exists c.
  - destruct c as [|y c]; simpl in H.
    + right. now exists (String x a).
    + injection H as -> H. destruct (IH c H) as [[u [-> ->]]|[u [-> ->]]].
      * left. now exists u.
      * right. now exists u.
Qed.

Lemma repeat_char_split (c : ascii) (n : nat) (u t : string) :
  repeat_char c n = (u ++ t)%string -> u = repeat_char c (String.length u).
Proof.
  revert n. induction u as [|x u IH]; intros n H; simpl in *; [reflexivity|].
  destruct n as [|n]; simpl in H; [discriminate|].
  injection H as <- H. f_equal. eapply IH, H.
Qed.

Lemma endswith_char_cons (x c : ascii) (s : string) :
  s <> EmptyString -> endswith_char (String x s) c = endswith_char s c.
Proof. destruct s; [contradiction | reflexivity]. Qed.

Lemma endswith_char_repeat (r : string) (c : ascii) (k : nat) :
  endswith_char (r ++ repeat_char c (S k)) c = true.
Proof.
  induction r as [|x r IH].
  - induction k as [|k IHk].
    + simpl. apply Ascii.eqb_refl.
    + change (repeat_char c (S (S k))) with (String c (repeat_char c (S k))).
      cbn [append] in *. rewrite endswith_char_cons; [exact IHk | discriminate].
  - cbn [append]. rewrite endswith_char_cons; [exact IH|].
    destruct r; discriminate.
Qed.

Lemma rstrip_no_trailing (c : ascii) (s : string) :
  endswith_char (rstrip c s) c = false.
Proof.
  induction s as [|a s IH]; simpl; [reflexivity|].
  destruct (rstrip c s) as [|b r] eqn:E.
  - destruct (Ascii.eqb a c) eqn:Ea; simpl; [reflexivity | exact Ea].
  - simpl. simpl in IH. exact IH.
Qed.

Lemma rstrip_decomp (c : ascii) (s : string) :
  exists n, s = (rstrip c s ++ repeat_char c n)%string.
Proof.
  induction s as [|a s [n IH]]; simpl.
  - now exists 0.
  - destruct (rstrip c s) as [|b r] eqn:E.
    + destruct (Ascii.eqb_spec a c) as [->|N].
      * exists (S n). simpl in *. now rewrite IH at 1.
      * exists n. simpl in *. now rewrite IH at 1.
    + exists n. simpl in *. now rewrite IH at 1.
Qed.

Lemma repeat_char_snoc (c : ascii) (n : nat) :
  (repeat_char c n ++ String c "")%string = repeat_char c (S n).
Proof. induction n; simpl in *; congruence. Qed.

(** Two directories lie within one another only when they are the same
    up to trailing separators. *)
Lemma within_both_ways (a b : string) :
  SiteDir.within a b = true -> SiteDir.within b a = true ->
  rstrip posixpath.sep a = rstrip posixpath.sep b.
Proof.
  unfold SiteDir.within, startswith. intros H1 H2.
  apply prefix_iff in H1 as [t1 H1]. apply prefix_iff in H2 as [t2 H2].
  destruct (rstrip_decomp posixpath.sep a) as [n Ha].
  destruct (rstrip_decomp posixpath.sep b) as [m Hb].
  set (ra := rstrip posixpath.sep a) in *.
  set (rb := rstrip posixpath.sep b) in *.
  pose proof (rstrip_no_trailing posixpath.sep a) as Na. fold ra in Na.
  pose proof (rstrip_no_trailing posixpath.sep b) as Nb. fold rb in Nb.
  unfold posixpath.sep_str in *.
  rewrite Ha in H1 at 1. rewrite Hb in H2 at 1.
  rewrite !append_assoc in H1, H2. rewrite repeat_char_snoc in H1, H2.
  (* some trailing separators of one cannot be a proper extension of the
     other, which ends without a separator *)
  assert (K : forall r r' k t,
             endswith_char r' posixpath.sep = false ->
             (r ++ repeat_char posixpath.sep (S k))%string
             = (r' ++ String posixpath.sep t)%string ->
             exists u, r = (r' ++ u)%string).
  { intros r r' k t Nr E. apply append_eq_append in E as [[u [-> E]]|[u [-> E]]].
    - apply repeat_char_split in E. destruct u as [|x u].
      + exists EmptyString. now rewrite !append_nil_r.
      + simpl in E. injection E as -> E. rewrite E in Nr.
        change (String posixpath.sep (repeat_char posixpath.sep (String.length u)))
          with (repeat_char posixpath.sep (S (String.length u))) in Nr.
        now rewrite endswith_char_repeat in Nr.
    - now exists u. }
  destruct (K _ _ _ _ Nb H1) as [u Hu].
  destruct (K _ _ _ _ Na H2) as [v Hv].
  rewrite Hv in Hu. rewrite append_assoc in Hu.
  rewrite <- (append_nil_r ra) in Hu at 1.
  apply append_inj_l in Hu.
  destruct v; [|discriminate]. now rewrite append_nil_r in Hv.
Qed.

(* --------------------------------------------------------------------- *)
(** ** SiteDir *)

(** C8: [SiteDir.post_validation] compares [docs_dir] and [site_dir] by
    prefix, each with a trailing separator.  When [docs_dir] lies within
    [site_dir] it raises one message, when [site_dir] lies within
    [docs_dir] the complementary one, and both messages name both paths;
    the two tests overlap only when both name the same directory, which is
    reported by the first message.  Otherwise it passes. *)
Theorem C8_site_dir_containment {St : Type} (key_name : string) (st : St)
    (c : Config) (docs_dir site_dir : string) :
  config_getitem c "docs_dir" = Return (VStr docs_dir) ->
  config_getitem c "site_dir" = Return (VStr site_dir) ->
  (SiteDir.within docs_dir site_dir = true ->
   SiteDir.post_validation key_name (st, c)
   = ((st, c), Raise (ValidationError
                 [Lit (SiteDir.docs_in_site_message site_dir docs_dir)]))) /\
  (SiteDir.within site_dir docs_dir = true ->
   rstrip posixpath.sep site_dir <> rstrip posixpath.sep docs_dir ->
   SiteDir.post_validation key_name (st, c)
   = ((st, c), Raise (ValidationError
                 [Lit (SiteDir.site_in_docs_message site_dir docs_dir)]))) /\
  (SiteDir.within docs_dir site_dir = false ->
   SiteDir.within site_dir docs_dir = false ->
   SiteDir.post_validation key_name (st, c) = ((st, c), Return tt)) /\
  SiteDir.docs_in_site_message site_dir docs_dir
  <> SiteDir.site_in_docs_message site_dir docs_dir /\
  is_substring site_dir (SiteDir.docs_in_site_message site_dir docs_dir) = true /\
  is_substring docs_dir (SiteDir.docs_in_site_message site_dir docs_dir) = true /\
  is_substring site_dir (SiteDir.site_in_docs_message site_dir docs_dir) = true /\
  is_substring docs_dir (SiteDir.site_in_docs_message site_dir docs_dir) = true.
Proof.
  intros Hd Hs.
  assert (E : SiteDir.post_validation key_name (st, c)
              = ((st, c),
                 if SiteDir.within docs_dir site_dir then
                   Raise (ValidationError
                     [Lit (SiteDir.docs_in_site_message site_dir docs_dir)])
                 else if SiteDir.within site_dir docs_dir then
                   Raise (ValidationError
                     [Lit (SiteDir.site_in_docs_message site_dir docs_dir)])
                 else Return tt)).
  { unfold SiteDir.post_validation, SiteDir.super_post_validation,
      BaseConfigOption.post_validation, bind, ret, get, lift, raise.
    cbn [snd fst]. rewrite Hd, Hs.
    destruct (SiteDir.within docs_dir site_dir); [reflexivity|].
    destruct (SiteDir.within site_dir docs_dir); reflexivity. }
  repeat match goal with |- _ /\ _ => split end.
  - intros H. now rewrite E, H.
  - intros H N. rewrite E, H.
    destruct (SiteDir.within docs_dir site_dir) eqn:G; [|reflexivity].
    exfalso. apply N. symmetry. now apply within_both_ways.
  - intros H1 H2. now rewrite E, H1, H2.
  - unfold SiteDir.docs_in_site_message, SiteDir.site_in_docs_message.
    simpl. discriminate.
  - unfold SiteDir.docs_in_site_message. find_substring.
  - unfold SiteDir.docs_in_site_message. find_substring.
  - unfold SiteDir.site_in_docs_message. find_substring.
  - unfold SiteDir.site_in_docs_message. find_substring.
Qed.

Lemma C8_site_dir_containment_witness :
  SiteDir.post_validation "site_dir" (tt, dirs_config "/x" "/x/y")
  = ((tt, dirs_config "/x" "/x/y"),
     Raise (ValidationError [Lit (SiteDir.site_in_docs_message "/x/y" "/x")])) /\
  SiteDir.post_validation "site_dir" (tt, dirs_config "/x/y" "/x")
  = ((tt, dirs_config "/x/y" "/x"),
     Raise (ValidationError [Lit (SiteDir.docs_in_site_message "/x" "/x/y")])) /\
  SiteDir.post_validation "site_dir" (tt, dirs_config "/x/docs" "/x/site")
  = ((tt, dirs_config "/x/docs" "/x/site"), Return tt).
Proof.
  split; [|split].
  - apply (proj1 (proj2 (C8_site_dir_containment "site_dir" tt
             (dirs_config "/x" "/x/y") "/x" "/x/y" eq_refl eq_refl)));
      [reflexivity | vm_compute; discriminate].
  - apply (proj1 (C8_site_dir_containment "site_dir" tt
             (dirs_config "/x/y" "/x") "/x/y" "/x" eq_refl eq_refl)).
    reflexivity.
  - apply (proj1 (proj2 (proj2 (C8_site_dir_containment "site_dir" tt
             (dirs_config "/x/docs" "/x/site") "/x/docs" "/x/site" eq_refl eq_refl))));
      reflexivity.
Defined.

(* --------------------------------------------------------------------- *)
(** ** What validation does to the raw value *)












Section PluginsFacts.
Variables Plugin PluginClass PluginCollection : Type.
Variable collection_setitem : PluginCollection -> string -> Plugin -> PluginCollection.
Variable installed_plugins : list (string * PluginClass).
Variable is_BasePlugin_subclass : PluginClass -> bool.
Variable qualified_name : PluginClass -> string.
Variable BasePlugin_qualified_name : string.
Variable instantiate : PluginClass -> Plugin.
Variable has_startup_or_shutdown : Plugin -> bool.
Variable load_config :
  Plugin -> dict -> option string -> Plugin * (list (string * string) * list string).

End PluginsFacts.




(* --------------------------------------------------------------------- *)
(** ** Deprecated: moving a value along a key path *)

Lemma dict_lookup_set_same (k : string) (v : pyvalue) (d : dict) :
  dict_lookup k (dict_set k v d) = Some v.
Proof.
  induction d as [|[k' v'] d IH]; simpl.
  - now rewrite String.eqb_refl.
  - destruct (String.eqb k k') eqn:E; simpl; now rewrite E.
Qed.

Lemma dict_lookup_set_other (k k' : string) (v : pyvalue) (d : dict) :
  k <> k' -> dict_lookup k (dict_set k' v d) = dict_lookup k d.
Proof.
  intros N. induction d as [|[k0 v0] d IH]; simpl.
  - apply String.eqb_neq in N. now rewrite N.
  - destruct (String.eqb_spec k' k0) as [->|N']; simpl.
    + apply String.eqb_neq in N. now rewrite N.
    + now rewrite IH.
Qed.


Lemma dict_lookup_remove_other (k k' : string) (d : dict) :
  k <> k' -> dict_lookup k (dict_remove k' d) = dict_lookup k d.
Proof.
  intros N. unfold dict_remove. induction d as [|[k0 v0] d IH]; simpl; [reflexivity|].
  destruct (String.eqb_spec k' k0) as [->|N']; simpl.
  - apply String.eqb_neq in N. now rewrite N.
  - now rewrite IH.
Qed.

Lemma dict_at_update_at (root : dict) (target : list string) (f : dict -> dict) (d : dict) :
  Deprecated.dict_at root target = Some d ->
  Deprecated.dict_at (Deprecated.update_at root target f) target = Some (f d).
Proof.
  revert root d. induction target as [|k ks IH]; intros root d H; simpl in *.
  - now injection H as ->.
  - destruct (dict_lookup k root) as [[]|] eqn:E; try discriminate.
    rewrite dict_lookup_set_same. now apply IH.
Qed.

Lemma dict_at_snoc (root : dict) (target : list string) (k : string) (d d' : dict) :
  Deprecated.dict_at root target = Some d ->
  dict_lookup k d = Some (VDict d') ->
  Deprecated.dict_at root (target ++ [k]) = Some d'.
Proof.
  revert root. induction target as [|k0 ks IH]; intros root H G; simpl in *.
  - injection H as ->. now rewrite G.
  - destruct (dict_lookup k0 root) as [[]|] eqn:E; try discriminate.
    now apply IH.
Qed.

Lemma update_at_frame (root : dict) (target : list string) (f : dict -> dict) (k : string) :
  match target with
  | [] => forall d, dict_lookup k (f d) = dict_lookup k d
  | k0 :: _ => k <> k0
  end ->
  dict_lookup k (Deprecated.update_at root target f) = dict_lookup k root.
Proof.
  destruct target as [|k0 ks]; simpl; intros H.
  - apply H.
  - destruct (dict_lookup k0 root) as [[]|]; try reflexivity.
    now apply dict_lookup_set_other.
Qed.

Lemma hd_error_app_cons {A} (l : list A) (x : A) (r : list A) :
  hd_error (l ++ x :: r) = hd_error ((l ++ [x]) ++ r).
Proof. destruct l; reflexivity. Qed.

(** One round of the walk, seen from the mapping [target] refers to. *)
Lemma walk_cons (key : string) (rest target : list string) (root d : dict) :
  Deprecated.dict_at root target = Some d ->
  Deprecated.walk (key :: rest) target root
  = match dict_lookup key d with
    | Some (VDict _) => Deprecated.walk rest (target ++ [key]) root
    | Some VNone | None =>
        Deprecated.walk rest (target ++ [key])
          (Deprecated.update_at root target (dict_set key (VDict [])))
    | Some _ => (root, Return None)
    end.
Proof.
  intros Hd.
  assert (H1 : Deprecated.dict_at
                 (Deprecated.update_at root target (dict_set key (VDict []))) target
               = Some (dict_set key (VDict []) d))
    by now apply dict_at_update_at.
  cbn [Deprecated.walk].
  unfold bind at 1. unfold Deprecated.target_get at 1. rewrite Hd.
  unfold dict_get.
  destruct (dict_lookup key d) as [x|] eqn:El.
  - destruct x; cbn [is_None];
      try (unfold bind, ret, Deprecated.target_getitem; rewrite Hd;
           unfold dict_getitem; rewrite El; reflexivity).
    unfold bind at 1. unfold Deprecated.target_setitem at 1. rewrite Hd.
    unfold bind at 1. unfold Deprecated.target_getitem at 1. rewrite H1.
    unfold dict_getitem. rewrite dict_lookup_set_same. reflexivity.
  - cbn [is_None].
    unfold bind at 1. unfold Deprecated.target_setitem at 1. rewrite Hd.
    unfold bind at 1. unfold Deprecated.target_getitem at 1. rewrite H1.
    unfold dict_getitem. rewrite dict_lookup_set_same. reflexivity.
Qed.

Lemma obstructed_nil (keys : list string) : obstructed [] keys = false.
Proof. destruct keys; reflexivity. Qed.

Lemma value_at_nil (keys : list string) : value_at [] keys = None.
Proof. destruct keys as [|k [|k' ks]]; reflexivity. Qed.

Lemma value_at_cons (k : string) (keys : list string) (k' : string) (d : dict) :
  value_at d (k :: keys ++ [k'])
  = match dict_lookup k d with
    | Some (VDict d') => value_at d' (keys ++ [k'])
    | _ => None
    end.
Proof. cbn [value_at]. destruct (keys ++ [k']) eqn:E; [destruct keys; discriminate|]. reflexivity. Qed.


(** What the walk does: it stops, having changed nothing, at a level that
    is in the way; otherwise it arrives at a mapping at the end of the path,
    which holds what was there under the path before, and has touched
    nothing but the top-level entry the path starts at. *)
Lemma walk_spec (parent_keys : list string) :
  forall (target : list string) (root d : dict),
    Deprecated.dict_at root target = Some d ->
    if obstructed d parent_keys then
      Deprecated.walk parent_keys target root = (root, Return None)
    else
      exists root' d',
        Deprecated.walk parent_keys target root
        = (root', Return (Some (target ++ parent_keys)))
        /\ Deprecated.dict_at root' (target ++ parent_keys) = Some d'
        /\ (forall k, hd_error (target ++ parent_keys) <> Some k ->
                      dict_lookup k root' = dict_lookup k root)
        /\ (forall k, dict_lookup k d' = value_at d (parent_keys ++ [k])).
Proof.
  induction parent_keys as [|key rest IH]; intros target root d Hd.
  - exists root, d. rewrite app_nil_r. auto.
  - rewrite (walk_cons key rest target root d Hd).
    assert (Fresh :
      (dict_lookup key d = None \/ dict_lookup key d = Some VNone) ->
      exists root' d',
        Deprecated.walk rest (target ++ [key])
          (Deprecated.update_at root target (dict_set key (VDict [])))
        = (root', Return (Some (target ++ key :: rest)))
        /\ Deprecated.dict_at root' (target ++ key :: rest) = Some d'
        /\ (forall k, hd_error (target ++ key :: rest) <> Some k ->
                      dict_lookup k root' = dict_lookup k root)
        /\ (forall k, dict_lookup k d' = value_at d ((key :: rest) ++ [k]))).
    { intros Hkey.
      set (root1 := Deprecated.update_at root target (dict_set key (VDict []))).
      specialize (IH (target ++ [key]) root1 []).
      rewrite obstructed_nil in IH.
      destruct IH as (root' & d' & Hw & Hat & Hfr & Hin).
      { apply (dict_at_snoc root1 target key (dict_set key (VDict []) d) []).
        - unfold root1. now apply dict_at_update_at.
        - apply dict_lookup_set_same. }
      exists root', d'. rewrite <- app_assoc in Hw, Hat. simpl in Hw, Hat.
      repeat split; try assumption.
      - intros k Hk. rewrite Hfr by now rewrite <- hd_error_app_cons.
        unfold root1. apply update_at_frame.
        destruct target as [|k0 ks]; simpl in *.
        + intros d0. apply dict_lookup_set_other. congruence.
        + congruence.
      - intros k. rewrite Hin, value_at_nil. cbn [app]. rewrite value_at_cons.
        now destruct Hkey as [-> | ->]. }
    cbn [obstructed]. unfold dict_get.
    destruct (dict_lookup key d) as [x|] eqn:El; [|apply Fresh; now left].
    destruct x; try reflexivity; [apply Fresh; now right|].
    specialize (IH (target ++ [key]) root entries).
    destruct (obstructed entries rest).
    + apply IH. eapply dict_at_snoc; eassumption.
    + destruct IH as (root' & d' & Hw & Hat & Hfr & Hin).
      { eapply dict_at_snoc; eassumption. }
      exists root', d'. rewrite <- app_assoc in Hw, Hat. simpl in Hw, Hat.
      repeat split; try assumption.
      * intros k Hk. apply Hfr. now rewrite <- hd_error_app_cons.
      * intros k. rewrite Hin. cbn [app]. now rewrite value_at_cons, El.
Qed.

Lemma split_nonempty (c : ascii) (s : string) : split c s <> [].
Proof.
  destruct s as [|a s]; simpl; [discriminate|].
  destruct (Ascii.eqb a c); [discriminate|].
  destruct (split c s); discriminate.
Qed.



Section DeprecatedFacts.
Context {St : Type}.
Variable str_format : string -> string -> result string.
Variable option : ConfigOption.t (Deprecated.state St).
Variable self : Deprecated.t.
Variable key_name : string.
Variables s0 s1 : Deprecated.state St * Config.
Variable v : pyvalue.
Hypothesis Hoption : ConfigOption.pre_validation option key_name s0 = (s1, Return tt).
Hypothesis Hv : config_get (snd s1) key_name = v.
Hypothesis Hpresent : v <> VNone.


Variable text : string.
Hypothesis Htext : str_format (Deprecated.message self) key_name = Return text.





End DeprecatedFacts.




(* --------------------------------------------------------------------- *)
(** ** Paths *)

Lemma isabs_iff (s : string) :
  posixpath.isabs s = true <-> exists s', s = String posixpath.sep s'.
Proof.
  unfold posixpath.isabs, startswith. rewrite prefix_iff. reflexivity.
Qed.

Lemma isabs_nonempty (s : string) : posixpath.isabs s = true -> nonempty s = true.
Proof. intros H. apply isabs_iff in H as [s' ->]. reflexivity. Qed.

Lemma isabs_join (d v : string) :
  posixpath.isabs d = true -> posixpath.isabs (posixpath.join d v) = true.
Proof.
  intros H. unfold posixpath.join.
  destruct (startswith v posixpath.sep_str) eqn:E; [exact E|].
  apply isabs_iff in H as [d' ->].
  destruct (_ || _); apply isabs_iff; eexists; reflexivity.
Qed.

Lemma rstrip_empty (c : ascii) (s : string) :
  rstrip c s = EmptyString ->
  s = repeat_char c (String.length s).
Proof.
  induction s as [|a s IH]; simpl; [reflexivity|].
  destruct (rstrip c s) eqn:E; [|discriminate].
  destruct (Ascii.eqb_spec a c) as [->|N]; [|discriminate].
  intros _. f_equal. now apply IH.
Qed.

Lemma all_sep_repeat (n : nat) : posixpath.all_sep (repeat_char posixpath.sep n) = true.
Proof. induction n; simpl; [reflexivity | exact IHn]. Qed.

Lemma isabs_dirname (p : string) :
  posixpath.isabs p = true -> posixpath.isabs (posixpath.dirname p) = true.
Proof.
  intros H. apply isabs_iff in H as [p' ->].
  unfold posixpath.dirname.
  assert (Hh : exists h, posixpath.head_of (String posixpath.sep p') = String posixpath.sep h).
  { simpl. destruct (posixpath.head_of p'); eexists; reflexivity. }
  destruct Hh as [h ->].
  destruct (nonempty _ && negb (posixpath.all_sep (String posixpath.sep h))) eqn:E.
  - apply andb_prop in E as [_ E]. apply negb_true_iff in E.
    simpl. destruct (rstrip posixpath.sep h) eqn:Er.
    + apply rstrip_empty in Er. simpl in E. rewrite Er, all_sep_repeat in E.
      discriminate.
    + reflexivity.
  - apply isabs_iff. eexists. reflexivity.
Qed.

(** *** Splitting and joining at separators *)

Lemma split_cons_sep (s : string) :
  split posixpath.sep (String posixpath.sep s) = EmptyString :: split posixpath.sep s.
Proof. reflexivity. Qed.

Lemma split_single (x : string) :
  has_sep x = false -> split posixpath.sep x = [x].
Proof.
  induction x as [|a x IH]; simpl; [reflexivity|].
  intros H. apply orb_false_elim in H as [Ha Hx].
  rewrite Ha, (IH Hx). reflexivity.
Qed.

Lemma split_append_sep (x rest : string) :
  has_sep x = false ->
  split posixpath.sep (x ++ String posixpath.sep rest)
  = x :: split posixpath.sep rest.
Proof.
  induction x as [|a x IH]; intros H.
  - reflexivity.
  - simpl in H. apply orb_false_elim in H as [Ha Hx].
    cbn [append split]. rewrite Ha, (IH Hx). reflexivity.
Qed.

Lemma split_parts (s : string) :
  Forall (fun c => has_sep c = false) (split posixpath.sep s).
Proof.
  induction s as [|a s IH]; simpl.
  - constructor; [reflexivity | constructor].
  - destruct (Ascii.eqb a posixpath.sep) eqn:Ea.
    + constructor; [reflexivity | exact IH].
    + destruct (split posixpath.sep s) as [|x xs].
      * constructor; [|constructor]. simpl. now rewrite Ea.
      * inversion IH; subst. constructor; [|assumption].
        simpl. now rewrite Ea.
Qed.

Lemma is_clean_no_sep (c : string) : is_clean c = true -> has_sep c = false.
Proof.
  unfold is_clean. intros H. apply andb_prop in H as [_ H].
  now apply negb_true_iff.
Qed.

Lemma split_concat (cs : list string) :
  cs <> [] -> Forall (fun c => is_clean c = true) cs ->
  split posixpath.sep (String.concat "/" cs) = cs.
Proof.
  induction cs as [|x cs IH]; intros Hne H; [contradiction|].
  inversion H as [|? ? Hx Hcs]; subst.
  destruct cs as [|y cs].
  - simpl. apply split_single. now apply is_clean_no_sep.
  - change (String.concat "/" (x :: y :: cs))
      with (x ++ String posixpath.sep (String.concat "/" (y :: cs)))%string.
    rewrite split_append_sep by now apply is_clean_no_sep.
    f_equal. apply IH; [discriminate | assumption].
Qed.

(** *** The loop of normpath *)

Lemma normpath_step_clean (k : nat) (stack : list string) (comp : string) :
  k <> 0 ->
  Forall (fun c => is_clean c = true) stack ->
  has_sep comp = false ->
  Forall (fun c => is_clean c = true) (posixpath.normpath_step k stack comp).
Proof.
  intros Hk Hs Hc. unfold posixpath.normpath_step.
  destruct (String.eqb comp "" || String.eqb comp ".") eqn:E1; [assumption|].
  apply orb_false_elim in E1 as [E1 E2].
  destruct (String.eqb comp "..") eqn:E3; cbn [negb orb].
  - assert (Ek : Nat.eqb k 0 = false) by now apply Nat.eqb_neq.
    rewrite Ek. cbn [andb orb].
    destruct stack as [|c stack]; [constructor|].
    inversion Hs as [|? ? Hcl Hst]; subst.
    assert (Ec : String.eqb c ".." = false).
    { unfold is_clean in Hcl. destruct (String.eqb c ".."); [|reflexivity].
      rewrite andb_false_r in Hcl. simpl in Hcl. discriminate. }
    rewrite Ec. assumption.
  - constructor; [|assumption].
    unfold is_clean. rewrite E2, E3, Hc.
    destruct comp; [discriminate | reflexivity].
Qed.

Lemma normpath_loop_clean (k : nat) (comps stack : list string) :
  k <> 0 ->
  Forall (fun c => is_clean c = true) stack ->
  Forall (fun c => has_sep c = false) comps ->
  Forall (fun c => is_clean c = true)
         (fold_left (posixpath.normpath_step k) comps stack).
Proof.
  intros Hk. revert stack. induction comps as [|c comps IH]; intros stack Hs Hc; simpl.
  - assumption.
  - inversion Hc; subst. apply IH; [|assumption].
    now apply normpath_step_clean.
Qed.

Lemma normpath_step_push (k : nat) (stack : list string) (comp : string) :
  is_clean comp = true -> posixpath.normpath_step k stack comp = comp :: stack.
Proof.
  unfold is_clean, posixpath.normpath_step. intros H.
  apply andb_prop in H as [H _]. apply andb_prop in H as [H H3].
  apply andb_prop in H as [H1 H2].
  apply negb_true_iff in H2, H3. rewrite H2, H3.
  destruct comp; [discriminate | reflexivity].
Qed.

Lemma normpath_loop_push (k : nat) (comps stack : list string) :
  Forall (fun c => is_clean c = true) comps ->
  fold_left (posixpath.normpath_step k) comps stack = List.rev comps ++ stack.
Proof.
  revert stack. induction comps as [|c comps IH]; intros stack H; simpl.
  - reflexivity.
  - inversion H; subst. rewrite normpath_step_push by assumption.
    rewrite IH by assumption. now rewrite <- app_assoc.
Qed.

Lemma initial_slashes_abs (p : string) :
  posixpath.isabs p = true ->
  posixpath.initial_slashes p = 1 \/ posixpath.initial_slashes p = 2.
Proof.
  unfold posixpath.isabs, posixpath.initial_slashes, posixpath.sep_str.
  intros H. change (String posixpath.sep "") with "/" in H. rewrite H.
  destruct (_ && _); auto.
Qed.

(** The shape of a normalized absolute path: one or two separators, then
    clean components joined by separators. *)
Lemma normpath_abs_shape (p : string) :
  posixpath.isabs p = true ->
  exists k cs,
    (k = 1 \/ k = 2) /\ Forall (fun c => is_clean c = true) cs /\
    posixpath.normpath p
    = (repeat_char posixpath.sep k ++ String.concat "/" cs)%string.
Proof.
  intros H. pose proof (initial_slashes_abs p H) as Hk.
  unfold posixpath.normpath. rewrite (isabs_nonempty p H). cbn [negb].
  exists (posixpath.initial_slashes p),
         (List.rev (fold_left (posixpath.normpath_step (posixpath.initial_slashes p))
                      (split posixpath.sep p) [])).
  split; [exact Hk|]. split.
  - apply Forall_rev. apply normpath_loop_clean.
    + destruct Hk as [-> | ->]; discriminate.
    + constructor.
    + apply split_parts.
  - destruct Hk as [-> | ->]; reflexivity.
Qed.

Lemma concat_clean_head (cs : list string) :
  Forall (fun c => is_clean c = true) cs ->
  String.concat "/" cs = EmptyString \/
  exists a t, String.concat "/" cs = String a t /\ Ascii.eqb a posixpath.sep = false.
Proof.
  intros H. destruct cs as [|c cs]; [now left|]. right.
  inversion H as [|? ? Hc _]; subst.
  pose proof (is_clean_no_sep c Hc) as Hs.
  unfold is_clean in Hc. destruct c as [|a c]; [discriminate|].
  simpl in Hs. apply orb_false_elim in Hs as [Ha _].
  destruct cs; simpl; eauto.
Qed.

Lemma prefix_cons_false (p s : string) (a b : ascii) :
  Ascii.eqb b a = false -> String.prefix (String a p) (String b s) = false.
Proof.
  intros H. destruct (String.prefix _ _) eqn:E; [|reflexivity].
  apply prefix_iff in E as [t E]. injection E as E _. subst b.
  now rewrite Ascii.eqb_refl in H.
Qed.

Lemma prefix_cons_same (p s : string) (a : ascii) :
  String.prefix (String a p) (String a s) = String.prefix p s.
Proof. simpl. destruct (ascii_dec a a); [reflexivity | contradiction]. Qed.

Lemma initial_slashes_shape (k : nat) (body : string) :
  k = 1 \/ k = 2 ->
  body = EmptyString \/
  (exists a t, body = String a t /\ Ascii.eqb a posixpath.sep = false) ->
  posixpath.initial_slashes (repeat_char posixpath.sep k ++ body) = k.
Proof.
  intros Hk Hb. unfold posixpath.initial_slashes, startswith.
  destruct Hb as [->|(a & t & -> & Ha)].
  - destruct Hk as [-> | ->]; reflexivity.
  - destruct Hk as [-> | ->]; cbn [repeat_char append].
    + rewrite !prefix_cons_same. rewrite (prefix_cons_false _ _ _ _ Ha).
      reflexivity.
    + rewrite !prefix_cons_same. rewrite (prefix_cons_false _ _ _ _ Ha).
      reflexivity.
Qed.

(** A path of that shape is a fixed point of normpath. *)
Lemma normpath_of_shape (k : nat) (cs : list string) :
  k = 1 \/ k = 2 -> Forall (fun c => is_clean c = true) cs ->
  posixpath.normpath (repeat_char posixpath.sep k ++ String.concat "/" cs)
  = (repeat_char posixpath.sep k ++ String.concat "/" cs)%string.
Proof.
  intros Hk Hcs. unfold posixpath.normpath.
  rewrite (initial_slashes_shape k _ Hk (concat_clean_head cs Hcs)).
  assert (Hne : nonempty (repeat_char posixpath.sep k ++ String.concat "/" cs) = true)
    by (destruct Hk as [-> | ->]; reflexivity).
  rewrite Hne. cbn [negb].
  assert (Hloop :
    fold_left (posixpath.normpath_step k)
      (split posixpath.sep (repeat_char posixpath.sep k ++ String.concat "/" cs)) []
    = List.rev cs).
  { assert (Hbody :
      fold_left (posixpath.normpath_step k)
        (split posixpath.sep (String.concat "/" cs)) [] = List.rev cs).
    { destruct cs as [|c cs'].
      - reflexivity.
      - rewrite split_concat by (assumption || discriminate).
        rewrite normpath_loop_push by assumption. apply app_nil_r. }
    destruct Hk as [-> | ->]; cbn [repeat_char append];
      rewrite !split_cons_sep; exact Hbody. }
  rewrite Hloop, rev_involutive. now rewrite Hne.
Qed.

Lemma normpath_abs_idempotent (p : string) :
  posixpath.isabs p = true ->
  posixpath.normpath (posixpath.normpath p) = posixpath.normpath p.
Proof.
  intros H. destruct (normpath_abs_shape p H) as (k & cs & Hk & Hcs & ->).
  now apply normpath_of_shape.
Qed.

Lemma isabs_normpath (p : string) :
  posixpath.isabs p = true -> posixpath.isabs (posixpath.normpath p) = true.
Proof.
  intros H. destruct (normpath_abs_shape p H) as (k & cs & Hk & Hcs & ->).
  destruct Hk as [-> | ->]; apply isabs_iff; eexists; reflexivity.
Qed.

Lemma isabs_abspath (cwd path : string) :
  posixpath.isabs cwd = true -> posixpath.isabs (posixpath.abspath cwd path) = true.
Proof.
  intros H. unfold posixpath.abspath. apply isabs_normpath.
  destruct (posixpath.isabs path) eqn:E; cbn [negb]; [exact E|].
  now apply isabs_join.
Qed.

Lemma abspath_fixed (cwd path : string) :
  posixpath.isabs cwd = true ->
  posixpath.abspath cwd (posixpath.abspath cwd path) = posixpath.abspath cwd path.
Proof.
  intros H. unfold posixpath.abspath at 1.
  rewrite (isabs_abspath cwd path H). cbn [negb].
  unfold posixpath.abspath. apply normpath_abs_idempotent.
  destruct (posixpath.isabs path) eqn:E; cbn [negb]; [exact E|].
  now apply isabs_join.
Qed.

(* --------------------------------------------------------------------- *)
(** ** FilesystemObject *)

Section FilesystemObjectFacts.
Variable cwd : string.
Hypothesis cwd_abs : posixpath.isabs cwd = true.
Variable existence_test : string -> bool.
Variables (name : string) (exists_ : bool) (default : pyvalue) (required : bool).
Variables (config : Config) (key_name : string).

Local Abbreviation self :=
  (FilesystemObject.pre_validation
     (FilesystemObject.__init__ existence_test name exists_ default required)
     config key_name).

(** What [run_validation] comes to for an option fresh from its
    constructor. *)
Lemma run_validation_str (value : string) :
  FilesystemObject.run_validation cwd self (VStr value)
  = let value :=
      match FilesystemObject.config_dir self with
      | Some d =>
          if nonempty d && negb (posixpath.isabs value)
          then posixpath.join d value else value
      | None => value
      end in
    if exists_ && negb (existence_test value) then
      Raise (ValidationError
        [Lit "The path '"; Lit value; Lit "' isn't an existing ";
         Lit name; Lit "."])
    else Return (VStr (posixpath.abspath cwd value)).
Proof. reflexivity. Qed.

Lemma run_validation_Return (raw p : pyvalue) :
  FilesystemObject.run_validation cwd self raw = Return p ->
  exists value value',
    raw = VStr value /\ p = VStr (posixpath.abspath cwd value') /\
    (exists_ = true -> existence_test value' = true).
Proof.
  destruct raw; try discriminate.
  rewrite run_validation_str. cbv zeta.
  set (value' := match FilesystemObject.config_dir self with
                 | Some d => _ | None => _ end).
  destruct (exists_ && negb (existence_test value')) eqn:E; [discriminate|].
  intros [= <-]. exists s, value'. repeat split.
  intros ->. simpl in E. now apply negb_false_iff in E.
Qed.

Lemma run_validation_absolute (raw p : pyvalue) :
  FilesystemObject.run_validation cwd self raw = Return p ->
  exists s, p = VStr s /\ posixpath.isabs s = true.
Proof.
  intros H. apply run_validation_Return in H as (value & value' & _ & -> & _).
  eexists. split; [reflexivity|]. now apply isabs_abspath.
Qed.

Lemma run_validation_round_trip (raw : pyvalue) (s : string) :
  FilesystemObject.run_validation cwd self raw = Return (VStr s) ->
  (exists_ = true -> existence_test s = true) ->
  FilesystemObject.run_validation cwd self (VStr s) = Return (VStr s).
Proof.
  intros H Hex.
  pose proof (run_validation_absolute _ _ H) as (s' & [= <-] & Habs).
  apply run_validation_Return in H as (value & value' & _ & [= Hs] & _).
  rewrite run_validation_str. cbv zeta. rewrite Habs. cbn [negb].
  assert (G : match FilesystemObject.config_dir self with
              | Some d => if nonempty d && false then posixpath.join d s else s
              | None => s
              end = s).
  { destruct (FilesystemObject.config_dir self); [|reflexivity].
    now rewrite andb_false_r. }
  rewrite G.
  assert (E : exists_ && negb (existence_test s) = false).
  { destruct exists_; [|reflexivity]. now rewrite Hex. }
  rewrite E. rewrite Hs at 1. rewrite abspath_fixed by exact cwd_abs.
  now rewrite <- Hs.
Qed.

Lemma run_validation_relative (config_file value : string) :
  config_file_path config = Some config_file ->
  posixpath.isabs config_file = true ->
  posixpath.isabs value = false ->
  (exists_ = true ->
   existence_test (posixpath.join (posixpath.dirname config_file) value) = true) ->
  FilesystemObject.run_validation cwd self (VStr value)
  = Return (VStr (posixpath.normpath
                    (posixpath.join (posixpath.dirname config_file) value))).
Proof.
  intros Hc Habs Hrel Hex. rewrite run_validation_str.
  unfold FilesystemObject.pre_validation. rewrite Hc.
  rewrite (isabs_nonempty _ Habs). cbn [FilesystemObject.config_dir
    FilesystemObject.set_config_dir]. cbv zeta.
  pose proof (isabs_dirname _ Habs) as Hd.
  rewrite (isabs_nonempty _ Hd), Hrel. cbn [negb andb].
  assert (E : exists_ && negb (existence_test
                (posixpath.join (posixpath.dirname config_file) value)) = false).
  { destruct exists_; [|reflexivity]. now rewrite Hex. }
  rewrite E. unfold posixpath.abspath.
  now rewrite (isabs_join _ value Hd).
Qed.
End FilesystemObjectFacts.

(** C7: for a filesystem-path option bound to a Config loaded from an
    absolute source location, a relative raw path is resolved against the
    directory of that location; whatever [run_validation] answers is an
    absolute path (the working directory being absolute); and feeding the
    answer back in answers it again, as long as it still passes the
    optional existence check.  ["sub/dir"] beside [/a/b/mkdocs.yml] gives
    [/a/b/sub/dir]. *)
Theorem C7_filesystem_paths :
  (forall (cwd : string) (existence_test : string -> bool) (name : string)
          (exists_ : bool) (default : pyvalue) (required : bool)
          (config : Config) (key_name : string),
      posixpath.isabs cwd = true ->
      let self :=
        FilesystemObject.pre_validation
          (FilesystemObject.__init__ existence_test name exists_ default required)
          config key_name in
      (forall config_file value,
          config_file_path config = Some config_file ->
          posixpath.isabs config_file = true ->
          posixpath.isabs value = false ->
          (exists_ = true ->
           existence_test (posixpath.join (posixpath.dirname config_file) value) = true) ->
          FilesystemObject.run_validation cwd self (VStr value)
          = Return (VStr (posixpath.normpath
                            (posixpath.join (posixpath.dirname config_file) value)))) /\
      (forall raw p,
          FilesystemObject.run_validation cwd self raw = Return p ->
          exists s, p = VStr s /\ posixpath.isabs s = true) /\
      (forall raw s,
          FilesystemObject.run_validation cwd self raw = Return (VStr s) ->
          (exists_ = true -> existence_test s = true) ->
          FilesystemObject.run_validation cwd self (VStr s) = Return (VStr s))) /\
  (forall cwd,
      FilesystemObject.run_validation cwd
        (Dir_at (fun _ => false) false "/a/b/mkdocs.yml") (VStr "sub/dir")
      = Return (VStr "/a/b/sub/dir")) /\
  (forall cwd,
      FilesystemObject.run_validation cwd
        (Dir_at (fun _ => false) false "/a/b/mkdocs.yml") (VStr "/a/b/sub/dir")
      = Return (VStr "/a/b/sub/dir")).
Proof.
  split; [|split; intros cwd; reflexivity].
  intros cwd existence_test name exists_ default required config key_name Hcwd self.
  split; [|split].
  - intros config_file value. now apply run_validation_relative.
  - intros raw p. now apply run_validation_absolute.
  - intros raw s. now apply run_validation_round_trip.
Qed.

Lemma C7_filesystem_paths_witness :
  FilesystemObject.run_validation "/home/user"
    (Dir_at (fun p => String.eqb p "/a/b/sub/../docs") true "/a/b/mkdocs.yml")
    (VStr "sub/../docs")
  = Return (VStr "/a/b/docs") /\
  (exists s, VStr "/home/user/docs" = VStr s /\ posixpath.isabs s = true) /\
  FilesystemObject.run_validation "/home/user"
    (Dir_at (fun _ => false) false "/a/b/mkdocs.yml") (VStr "/a/b/sub/dir")
  = Return (VStr "/a/b/sub/dir").
Proof.
  split; [|split].
  - apply (proj1 (proj1 C7_filesystem_paths "/home/user"
             (fun p => String.eqb p "/a/b/sub/../docs") "directory" true VNone false
             {| data := []; config_file_path := Some "/a/b/mkdocs.yml" |} "docs_dir"
             eq_refl) "/a/b/mkdocs.yml" "sub/../docs" eq_refl eq_refl eq_refl).
    intros _. reflexivity.
  - apply (proj1 (proj2 (proj1 C7_filesystem_paths "/home/user"
             (fun _ => false) "directory" false VNone false
             {| data := []; config_file_path := None |} "docs_dir"
             eq_refl)) (VStr "docs")).
    reflexivity.
  - apply (proj2 (proj2 (proj1 C7_filesystem_paths "/home/user"
             (fun _ => false) "directory" false VNone false
             {| data := []; config_file_path := Some "/a/b/mkdocs.yml" |} "docs_dir"
             eq_refl)) (VStr "sub/dir")).
    + reflexivity.
    + discriminate.
Defined.

(* ===================================================================== *)
(** * Further properties *)
(* ===================================================================== *)

(* --------------------------------------------------------------------- *)
(** ** The list-item lifecycle, pass by pass *)

Section ListLifecycle.
Context {St : Type}.
Variable o : ConfigOption.t St.

(** A pass of a hook that leaves the document alone is a plain loop over
    the keys still ahead. *)
Lemma iterate_with_location (body : string -> Py (St * Config) unit)
    (h : option string -> string -> Py St unit) :
  (forall k sc, body k sc = with_location h k sc) ->
  forall (steps pos : nat) (st : St) (c : Config),
    List.length (data c) <= steps + pos ->
    iterate body (List.length (data c)) steps pos (st, c)
    = let '(st', r) :=
        for_each (h (config_file_path c)) (map fst (skipn pos (data c))) st in
      ((st', c), r).
Proof.
  intros Hbody. induction steps as [|steps IH]; intros pos st c Hlen.
  - simpl. unfold bind, check_size. cbn [fst snd]. rewrite Nat.eqb_refl.
    rewrite skipn_all2 by lia. reflexivity.
  - cbn [iterate]. unfold bind at 1. unfold check_size. cbn [fst snd].
    rewrite Nat.eqb_refl. unfold bind at 1. unfold get. cbn [fst snd].
    destruct (nth_error (data c) pos) as [[k v]|] eqn:En.
    + assert (Hs : skipn pos (data c) = (k, v) :: skipn (S pos) (data c)).
      { clear - En. revert pos En. induction (data c) as [|x l IHl]; intros pos En.
        - destruct pos; discriminate.
        - destruct pos as [|pos]; simpl in *.
          + now injection En as ->.
          + now apply IHl. }
      rewrite Hs. cbn [map fst for_each].
      unfold bind. rewrite Hbody. unfold with_location. cbn [fst snd].
      destruct (h (config_file_path c) k st) as [st' [[]|e]]; [|reflexivity].
      apply IH. lia.
    + apply nth_error_None in En. rewrite skipn_all2 by lia. reflexivity.
Qed.

Lemma for_key_in_config_with_location (body : string -> Py (St * Config) unit)
    (h : option string -> string -> Py St unit) (st : St) (c : Config) :
  (forall k sc, body k sc = with_location h k sc) ->
  for_key_in_config body (st, c)
  = let '(st', r) := for_each (h (config_file_path c)) (map fst (data c)) st in
    ((st', c), r).
Proof.
  intros Hbody. unfold for_key_in_config, bind, get. cbn [fst snd].
  rewrite (iterate_with_location body h Hbody) by lia. reflexivity.
Qed.

(** The second pass is [run_validation] mapped over the values still
    ahead; when all succeed the document holds their results. *)
Lemma iterate_run_items (steps : nat) :
  forall (done todo : dict) (st st' : St) (c : Config) (r : result (list pyvalue)),
    data c = done ++ todo ->
    NoDup (map fst (done ++ todo)) ->
    List.length todo <= steps ->
    map_py (ConfigOption.run_validation o) (map snd todo) st = (st', r) ->
    exists c',
      iterate (ListOfItems.run_item o) (List.length (done ++ todo)) steps
        (List.length done) (st, c)
      = ((st', c'), match r with Return _ => Return tt | Raise e => Raise e end)
      /\ (forall vs, r = Return vs ->
            c' = set_data c (done ++ combine (map fst todo) vs)).
Proof.
  induction steps as [|steps IH]; intros done todo st st' c r Hc Hnd Hlen Hmap.
  - destruct todo; [|simpl in Hlen; lia].
    simpl in Hmap. injection Hmap as <- <-.
    exists c. split.
    + simpl. unfold bind, check_size. cbn [fst snd]. now rewrite Hc, Nat.eqb_refl.
    + intros vs [= <-]. simpl. rewrite app_nil_r in *. destruct c; simpl in *.
      now subst.
  - cbn [iterate]. unfold bind at 1. unfold check_size. cbn [fst snd].
    rewrite Hc, Nat.eqb_refl. unfold bind at 1. unfold get. cbn [fst snd]. rewrite Hc.
    destruct todo as [|[k raw] todo].
    + simpl in Hmap. injection Hmap as <- <-.
      rewrite app_nil_r. rewrite (proj2 (nth_error_None done (List.length done))) by lia.
      exists c. split; [reflexivity|].
      intros vs [= <-]. simpl. destruct c; simpl in *. now subst.
    + rewrite nth_error_app2 by lia. rewrite Nat.sub_diag. cbn [nth_error].
      assert (Hk : ~ In k (map fst done)).
      { rewrite map_app in Hnd. simpl in Hnd.
        apply NoDup_remove_2 in Hnd. intros G. apply Hnd.
        apply in_or_app. now left. }
      cbn [map snd map_py] in Hmap. unfold bind at 1 in Hmap.
      unfold bind at 1. unfold ListOfItems.run_item at 1.
      unfold bind at 1. unfold ListOfItems.getitem at 1.
      unfold config_getitem, dict_getitem. cbn [fst snd]. rewrite Hc.
      rewrite dict_lookup_app_notin by exact Hk. cbn [dict_lookup].
      rewrite String.eqb_refl.
      unfold bind at 1. unfold on_fst. cbn [fst snd].
      destruct (ConfigOption.run_validation o raw st) as [st1 [v|e]] eqn:E.
      * unfold ListOfItems.setitem, config_setitem, set_data. cbn [fst snd data].
        rewrite Hc. rewrite dict_set_app_notin by exact Hk. cbn [dict_set].
        rewrite String.eqb_refl.
        unfold bind at 1 in Hmap.
        destruct (map_py (ConfigOption.run_validation o) (map snd todo) st1)
          as [st2 r2] eqn:E2.
        specialize (IH (done ++ [(k, v)]) todo st1 st2
          {| data := (done ++ [(k, v)]) ++ todo;
             config_file_path := config_file_path c |} r2).
        destruct IH as (c' & Hit & Hres).
        { reflexivity. }
        { rewrite <- app_assoc. cbn [app]. rewrite map_app in *. exact Hnd. }
        { simpl in Hlen. lia. }
        { exact E2. }
        exists c'.
        replace (List.length (done ++ (k, raw) :: todo))
          with (List.length ((done ++ [(k, v)]) ++ todo))
          by (rewrite !length_app; simpl; lia).
        replace (S (List.length done)) with (List.length (done ++ [(k, v)]))
          by (rewrite length_app; simpl; lia).
        rewrite <- app_assoc in Hit |- *. cbn [app] in Hit |- *.
        rewrite Hit. destruct r2 as [vs|e]; cbn [ret] in Hmap;
          injection Hmap as <- <-; (split; [reflexivity|]).
        -- intros vs' [= <-]. rewrite (Hres vs eq_refl).
           unfold set_data. cbn [data config_file_path map fst combine].
           now rewrite <- app_assoc.
        -- intros vs' [=].
      * injection Hmap as <- <-. eexists. split; [reflexivity|]. intros vs [=].
Qed.

(** Collecting the items of a document that holds exactly them. *)
Lemma map_py_getitem_combine (keys : list string) :
  forall (vs : list pyvalue) (done : dict) (st : St) (c : Config),
    List.length keys = List.length vs ->
    data c = done ++ combine keys vs ->
    NoDup (map fst done ++ keys) ->
    map_py ListOfItems.getitem keys (st, c) = ((st, c), Return vs).
Proof.
  induction keys as [|k keys IH]; intros vs done st c Hlen Hc Hnd.
  - destruct vs; [reflexivity | discriminate].
  - destruct vs as [|v vs]; [discriminate|].
    cbn [map_py]. unfold bind at 1. unfold ListOfItems.getitem at 1.
    unfold config_getitem, dict_getitem. cbn [fst snd]. rewrite Hc.
    assert (Hk : ~ In k (map fst done)).
    { apply NoDup_remove_2 in Hnd. intros G. apply Hnd. apply in_or_app. now left. }
    rewrite dict_lookup_app_notin by exact Hk. cbn [combine dict_lookup].
    rewrite String.eqb_refl.
    unfold bind at 1.
    rewrite (IH vs (done ++ [(k, v)]) st c).
    + reflexivity.
    + simpl in Hlen. lia.
    + rewrite Hc. now rewrite <- app_assoc.
    + rewrite map_app. cbn [map fst]. rewrite <- app_assoc. exact Hnd.
Qed.
End ListLifecycle.

(* --------------------------------------------------------------------- *)
(** ** The calls of the item option's [run_validation] *)

Section ItemCallsLoops.
Context {St : Type}.

(** A pass of a hook that leaves the document alone is a plain loop over
    the keys still ahead. *)
Lemma iterate_keeping (body : string -> Py (St * Config) unit) :
  (forall k st c, snd (fst (body k (st, c))) = c) ->
  forall (steps pos : nat) (st : St) (c : Config),
    List.length (data c) <= steps + pos ->
    iterate body (List.length (data c)) steps pos (st, c)
    = let '(st', r) := hook_pass body c (map fst (skipn pos (data c))) st in
      ((st', c), r).
Proof.
  intros Hbody. induction steps as [|steps IH]; intros pos st c Hlen.
  - simpl. unfold bind, check_size. cbn [fst snd]. rewrite Nat.eqb_refl.
    rewrite skipn_all2 by lia. reflexivity.
  - cbn [iterate]. unfold bind at 1. unfold check_size. cbn [fst snd].
    rewrite Nat.eqb_refl. unfold bind at 1. unfold get. cbn [fst snd].
    destruct (nth_error (data c) pos) as [[k v]|] eqn:En.
    + assert (Hs : skipn pos (data c) = (k, v) :: skipn (S pos) (data c)).
      { clear - En. revert pos En. induction (data c) as [|x l IHl]; intros pos En.
        - destruct pos; discriminate.
        - destruct pos as [|pos]; simpl in *.
          + now injection En as ->.
          + now apply IHl. }
      rewrite Hs. unfold hook_pass. cbn [map fst for_each].
      unfold bind. specialize (Hbody k st c).
      destruct (body k (st, c)) as [[st' c'] [[]|e]]; cbn [fst snd] in Hbody; subst c'.
      * apply IH. lia.
      * reflexivity.
    + apply nth_error_None in En. rewrite skipn_all2 by lia. reflexivity.
Qed.

Lemma for_key_in_config_keeping (body : string -> Py (St * Config) unit)
    (st : St) (c : Config) :
  (forall k st c, snd (fst (body k (st, c))) = c) ->
  for_key_in_config body (st, c)
  = let '(st', r) := hook_pass body c (map fst (data c)) st in ((st', c), r).
Proof.
  intros Hbody. unfold for_key_in_config, bind, get. cbn [fst snd].
  rewrite (iterate_keeping body Hbody) by lia. reflexivity.
Qed.

Lemma hook_pass_beside_log (h : string -> Py (St * Config) unit) (c : Config)
    (keys : list string) (log : list pyvalue) (st : St) :
  hook_pass (beside_log h) c keys (log, st)
  = let '(st', r) := hook_pass h c keys st in ((log, st'), r).
Proof.
  revert st. induction keys as [|k keys IH]; intros st; [reflexivity|].
  unfold hook_pass in *. cbn [for_each]. unfold bind.
  unfold beside_log at 1. cbn [fst snd].
  destruct (h k (st, c)) as [[st' c'] [[]|e]]; [apply IH | reflexivity].
Qed.

Lemma map_py_logged (f : pyvalue -> Py St pyvalue) (items : list pyvalue)
    (log : list pyvalue) (st : St) :
  map_py (logged f) items (log, st)
  = let '(st', r) := map_py f items st in ((log ++ calls_of f items st, st'), r).
Proof.
  revert log st. induction items as [|x items IH]; intros log st.
  - cbn. now rewrite app_nil_r.
  - cbn [map_py calls_of]. unfold bind at 1 3. unfold logged at 1. cbn [fst snd].
    destruct (f x st) as [st1 [y|e]].
    + unfold bind. rewrite IH.
      destruct (map_py f items st1) as [st2 [ys|e]];
        now rewrite <- app_assoc.
    + reflexivity.
Qed.

Lemma hook_pass_returns (h : string -> Py (St * Config) unit) (c : Config)
    (keys : list string) (st : St) :
  (forall k s, snd (h k s) = Return tt) ->
  exists st', hook_pass h c keys st = (st', Return tt).
Proof.
  intros Hh. revert st. induction keys as [|k keys IH]; intros st.
  - now exists st.
  - unfold hook_pass in *. cbn [for_each]. unfold bind.
    specialize (Hh k (st, c)).
    destruct (h k (st, c)) as [[st' c'] r]. cbn [snd] in Hh. subst r.
    apply IH.
Qed.

Lemma calls_of_reaches (f : pyvalue -> Py St pyvalue) (good : list pyvalue)
    (x : pyvalue) (rest : list pyvalue) (st : St) :
  Forall (fun g => forall st, exists y, snd (f g st) = Return y) good ->
  In x (calls_of f (good ++ x :: rest) st).
Proof.
  intros H. revert st. induction H as [|g good Hg _ IH]; intros st.
  - now left.
  - cbn [app calls_of]. right.
    destruct (Hg st) as [y Hy]. destruct (f g st) as [st' r].
    cbn [snd] in Hy. subst r. apply IH.
Qed.

End ItemCallsLoops.

Section ItemCalls.
Context {St : Type}.
Variable o : ConfigOption.t St.
Hypothesis Hpre : forall k st c, snd (fst (ConfigOption.pre_validation o k (st, c))) = c.

Lemma beside_log_keeps k (s : list pyvalue * St) c :
  snd (fst (beside_log (ConfigOption.pre_validation o) k (s, c))) = c.
Proof.
  unfold beside_log. cbn [fst snd]. specialize (Hpre k (snd s) c).
  now destruct (ConfigOption.pre_validation o k (snd s, c)) as [[st' c'] r].
Qed.

(** The record of calls after the whole of [run_validation]. *)
Lemma run_validation_log (self : ListOfItems.t) (items : list pyvalue)
    (log : list pyvalue) (st : St) :
  fst (fst (ListOfItems.run_validation (logged_option o) self (VList items) (log, st)))
  = log ++
    match hook_pass (ConfigOption.pre_validation o) (synthetic_document self items)
            (fake_keys self (List.length items)) st with
    | (st1, Return _) => calls_of (ConfigOption.run_validation o) items st1
    | (_, Raise _) => []
    end.
Proof.
  unfold ListOfItems.run_validation.
  unfold bind. cbn [is_None ret].
  destruct items as [|x items].
  - cbn. now rewrite app_nil_r.
  - cbn [truthy negb].
    change (set_data _ _) with (synthetic_document self (x :: items)).
    change (map _ (seq 0 (List.length (x :: items))))
      with (fake_keys self (List.length (x :: items))).
    set (keys := fake_keys self (List.length (x :: items))).
    set (c0 := synthetic_document self (x :: items)).
    assert (Hlen : List.length keys = List.length (x :: items)).
    { unfold keys, fake_keys. now rewrite length_map, length_seq. }
    assert (Hnd : NoDup keys) by apply fake_keys_NoDup.
    assert (Hd : data c0 = combine keys (x :: items)).
    { unfold c0, synthetic_document, set_data. cbn [data]. apply dict_of_pairs_NoDup.
      now rewrite map_fst_combine by exact Hlen. }
    assert (Hk : map fst (data c0) = keys)
      by (rewrite Hd; now apply map_fst_combine).
    assert (Hv : map snd (data c0) = x :: items)
      by (rewrite Hd; now apply map_snd_combine).
    unfold ListOfItems.lifecycle.
    unfold bind at 1.
    rewrite (for_key_in_config_keeping
               (ConfigOption.pre_validation (logged_option o)) (log, st) c0)
      by (intros k [l s] c; apply beside_log_keeps).
    cbn [ConfigOption.pre_validation logged_option]. rewrite Hk.
    rewrite hook_pass_beside_log.
    destruct (hook_pass (ConfigOption.pre_validation o) c0 keys st) as [st1 [[]|e]];
      [|cbn [fst]; now rewrite app_nil_r].
    unfold bind at 1. unfold for_key_in_config at 1. unfold bind at 1, get at 1.
    cbn [fst snd].
    pose proof (map_py_logged (ConfigOption.run_validation o) (x :: items) log st1)
      as Hmap.
    destruct (map_py (ConfigOption.run_validation o) (x :: items) st1) as [st2 r2].
    destruct (iterate_run_items (logged_option o) (List.length (data c0)) []
                (data c0) (log, st1)
                (log ++ calls_of (ConfigOption.run_validation o) (x :: items) st1, st2)
                c0 r2 eq_refl) as (c2 & Hit & _).
    { cbn [app]. now rewrite Hk. }
    { lia. }
    { rewrite Hv. exact Hmap. }
    cbn [List.length app] in Hit. rewrite Hit. clear Hit.
    destruct r2 as [vs|e]; [|reflexivity].
    unfold bind at 1. unfold for_key_in_config at 1. unfold bind at 1, get at 1.
    cbn [snd fst].
    pose proof (iterate_beside_log (ConfigOption.post_validation o)
      (List.length (data c2)) (List.length (data c2)) 0
      ((log ++ calls_of (ConfigOption.run_validation o) (x :: items) st1, st2), c2))
      as Hlog.
    cbn [ConfigOption.post_validation logged_option].
    destruct (iterate _ _ _ _ _) as [[[log3 st3] c3] [[]|e]]; cbn [fst snd] in *; subst.
    2: { reflexivity. }
    match goal with
    | |- context [map_py ListOfItems.getitem keys ?s] =>
        pose proof (map_py_getitem_state keys s) as Hs;
        destruct (map_py ListOfItems.getitem keys s) as [[[log4 st4] c4] r4]
    end.
    cbn [fst] in Hs |- *. now injection Hs as -> _ _.
Qed.
End ItemCalls.

(** C2, as the code has it: through [validate] the coercion
    [run_validation] is only ever invoked with a non-[None] raw value; the
    list-item lifecycle of [ListOfItems.run_validation] bypasses
    [validate] and, for an item option whose [pre_validation] leaves the
    synthetic document alone, hands [run_validation] the raw items
    themselves: once the [pre_validation] pass has returned, every item in
    order up to and including the first one on which [run_validation]
    raises, and none when that pass raised.  So an item that no failing
    item precedes reaches [run_validation], [None] or not. *)
Theorem C2_run_validation_arguments {St : Type} (o : ConfigOption.t St) :
  (forall (self : OptionallyRequired.t) (value : pyvalue)
          (log : list pyvalue) (st : St),
      exists calls,
        fst (fst (OptionallyRequired.validate
                    (logged (ConfigOption.run_validation o)) self value (log, st)))
        = log ++ calls
        /\ Forall (fun v => v <> VNone) calls) /\
  ((forall k st c, snd (fst (ConfigOption.pre_validation o k (st, c))) = c) ->
   (forall (self : ListOfItems.t) (items : list pyvalue)
           (log : list pyvalue) (st : St),
       fst (fst (ListOfItems.run_validation (logged_option o) self
                   (VList items) (log, st)))
       = log ++
         match hook_pass (ConfigOption.pre_validation o) (synthetic_document self items)
                 (fake_keys self (List.length items)) st with
         | (st1, Return _) => calls_of (ConfigOption.run_validation o) items st1
         | (_, Raise _) => []
         end) /\
   ((forall k s, snd (ConfigOption.pre_validation o k s) = Return tt) ->
    forall (self : ListOfItems.t) (good : list pyvalue) (x : pyvalue)
           (rest : list pyvalue) (log : list pyvalue) (st : St),
      Forall (fun g => forall st, exists y,
                snd (ConfigOption.run_validation o g st) = Return y) good ->
      In x (fst (fst (ListOfItems.run_validation (logged_option o) self
                        (VList (good ++ x :: rest)) (log, st)))))).
Proof.
  split.
  - intros. apply validate_calls.
  - intros Hpre. split.
    + intros. now apply run_validation_log.
    + intros Hret self good x rest log st Hgood.
      rewrite (run_validation_log o Hpre).
      destruct (hook_pass_returns (ConfigOption.pre_validation o)
                  (synthetic_document self (good ++ x :: rest))
                  (fake_keys self (List.length (good ++ x :: rest))) st Hret)
        as [st1 ->].
      apply in_or_app. right. now apply calls_of_reaches.
Qed.

Lemma C2_run_validation_arguments_witness :
  fst (fst (ListOfItems.run_validation (logged_option (Type_option Type_int))
              (fresh_ListOfItems VNone) (VList [VInt 1; VNone; VInt 3]) ([], tt)))
  = [VInt 1; VNone] /\
  In VNone
    (fst (fst (ListOfItems.run_validation (logged_option (Type_option Type_int))
                 (fresh_ListOfItems VNone) (VList ([VInt 1] ++ VNone :: [VInt 3]))
                 ([], tt)))).
Proof.
  split.
  - rewrite (proj1 (proj2 (C2_run_validation_arguments (Type_option Type_int))
                      (fun k st c => eq_refl))).
    reflexivity.
  - apply (proj2 (proj2 (C2_run_validation_arguments (Type_option Type_int))
                    (fun k st c => eq_refl)) (fun k s => eq_refl)).
    constructor; [|constructor]. intros st. now exists (VInt 1).
Defined.

(** C2 as worded fails on the list-item path: [ListOfItems(Type(int))] on
    [[1, None]] invokes [Type.run_validation] with [None]. *)
Lemma C2_list_item_None :
  ~ Forall (fun v => v <> VNone)
      (fst (fst (ListOfItems.run_validation (logged_option (Type_option Type_int))
                   (fresh_ListOfItems VNone) (VList [VInt 1; VNone]) ([], tt)))).
Proof.
  intros H. vm_compute in H.
  inversion H as [|? ? _ H1]; subst.
  inversion H1 as [|? ? H2 _]; subst.
  now apply H2.
Qed.


Lemma fake_keys_length (self : ListOfItems.t) (n : nat) :
  List.length (fake_keys self n) = n.
Proof. unfold fake_keys. now rewrite length_map, length_seq. Qed.

(** The three passes of the list-item lifecycle, for hooks that leave the
    synthetic document alone. *)
Lemma run_validation_pointwise {St : Type} (o : ConfigOption.t St)
    (hpre hpost : option string -> string -> Py St unit)
    (self : ListOfItems.t) (items : list pyvalue) (st : St) :
  (forall k sc, ConfigOption.pre_validation o k sc = with_location hpre k sc) ->
  (forall k sc, ConfigOption.post_validation o k sc = with_location hpost k sc) ->
  ListOfItems.run_validation o self (VList items) st
  = (for_each (hpre (items_location self)) (fake_keys self (List.length items)) ;;
     let* vs := map_py (ConfigOption.run_validation o) items in
     for_each (hpost (items_location self)) (fake_keys self (List.length items)) ;;
     ret (VList vs)) st.
Proof.
  intros Hpre Hpost. unfold ListOfItems.run_validation.
  unfold bind at 1. cbn [is_None ret].
  destruct items as [|x items]; [reflexivity|].
  cbn [truthy negb].
  fold (fake_keys self (List.length (x :: items))).
  set (keys := fake_keys self (List.length (x :: items))).
  set (c0 := set_data _ _).
  assert (Hlen : List.length keys = List.length (x :: items))
    by apply fake_keys_length.
  assert (Hnd : NoDup keys) by apply fake_keys_NoDup.
  assert (Hd : data c0 = combine keys (x :: items)).
  { unfold c0, set_data. cbn [data]. apply dict_of_pairs_NoDup.
    now rewrite map_fst_combine. }
  assert (Hloc : config_file_path c0 = items_location self).
  { unfold c0, items_location, set_data.
    destruct (ListOfItems._config self); reflexivity. }
  unfold ListOfItems.lifecycle, bind.
  (* first pass *)
  rewrite (for_key_in_config_with_location _ hpre st c0 Hpre).
  rewrite Hd, map_fst_combine, Hloc by exact Hlen.
  destruct (for_each (hpre (items_location self)) keys st) as [st1 [[]|e]];
    [|reflexivity].
  (* second pass *)
  destruct (map_py (ConfigOption.run_validation o) (x :: items) st1)
    as [st2 r] eqn:Emap.
  destruct (iterate_run_items o (List.length (data c0)) [] (data c0) st1 st2 c0 r
              eq_refl) as (c2 & Hit & Hres).
  { cbn [app]. rewrite Hd, map_fst_combine by exact Hlen. exact Hnd. }
  { lia. }
  { now rewrite Hd, map_snd_combine. }
  cbn [app List.length] in Hit.
  unfold for_key_in_config at 1. unfold bind, get. cbn [fst snd].
  rewrite Hit.
  destruct r as [vs|e]; [|reflexivity].
  specialize (Hres vs eq_refl). cbn [app] in Hres.
  rewrite Hd, map_fst_combine in Hres by exact Hlen.
  assert (Hvs : List.length vs = List.length (x :: items))
    by (eapply map_py_length, Emap).
  (* third pass *)
  rewrite (for_key_in_config_with_location _ hpost st2 c2 Hpost).
  assert (Hd2 : data c2 = combine keys vs) by now rewrite Hres.
  assert (Hloc2 : config_file_path c2 = items_location self) by now rewrite Hres.
  rewrite Hd2, map_fst_combine, Hloc2 by lia.
  destruct (for_each (hpost (items_location self)) keys st2) as [st3 [[]|e]];
    [|reflexivity].
  rewrite (map_py_getitem_combine keys vs [] st3 c2); try assumption; try lia.
  reflexivity.
Qed.

(** X1: when the hooks of the item option leave the synthetic document
    alone (they may read its source location and change the option's own
    state), [ListOfItems.run_validation] on a raw list is: the item
    option's [pre_validation] once per item, then its [run_validation] on
    the raw items in order, stopping at the first that raises, then its
    [post_validation] once per item; the answer is the list of results. *)
Theorem X1_list_items_pointwise {St : Type} (o : ConfigOption.t St)
    (hpre hpost : option string -> string -> Py St unit)
    (self : ListOfItems.t) (items : list pyvalue) (st : St) :
  (forall k sc, ConfigOption.pre_validation o k sc = with_location hpre k sc) ->
  (forall k sc, ConfigOption.post_validation o k sc = with_location hpost k sc) ->
  ListOfItems.run_validation o self (VList items) st
  = (for_each (hpre (items_location self)) (fake_keys self (List.length items)) ;;
     let* vs := map_py (ConfigOption.run_validation o) items in
     for_each (hpost (items_location self)) (fake_keys self (List.length items)) ;;
     ret (VList vs)) st.
Proof. apply run_validation_pointwise. Qed.

Lemma X1_list_items_pointwise_witness :
  ListOfItems.run_validation (Type_option Type_int) (fresh_ListOfItems VNone)
    (VList [VInt 1; VStr "a"; VInt 3]) tt
  = (for_each (fun _ : string => ret tt) (fake_keys (fresh_ListOfItems VNone) 3) ;;
     let* vs := map_py (ConfigOption.run_validation (Type_option Type_int))
                  [VInt 1; VStr "a"; VInt 3] in
     for_each (fun _ : string => ret tt) (fake_keys (fresh_ListOfItems VNone) 3) ;;
     ret (VList vs)) tt.
Proof.
  apply (X1_list_items_pointwise (Type_option Type_int)
           (fun _ _ => ret tt) (fun _ _ => ret tt)).
  - intros k [st c]. reflexivity.
  - intros k [st c]. reflexivity.
Defined.

(* --------------------------------------------------------------------- *)
(** ** Lists of typed items, lists of paths *)

Lemma for_each_nothing {St A} (xs : list A) (st : St) :
  for_each (fun _ : A => ret tt) xs st = (st, Return tt).
Proof. induction xs as [|x xs IH]; simpl; [reflexivity|]. unfold bind. simpl. exact IH. Qed.

Lemma map_py_lift_all {St} (f : pyvalue -> result pyvalue) (g : pyvalue -> pyvalue)
    (items : list pyvalue) (st : St) :
  Forall (fun x => f x = Return (g x)) items ->
  map_py (fun v => lift (f v)) items st = (st, Return (map g items)).
Proof.
  induction 1 as [|x items Hx _ IH]; simpl; [reflexivity|].
  unfold bind at 1. unfold lift at 1. rewrite Hx.
  unfold bind. now rewrite IH.
Qed.

Lemma map_py_lift_failure {St} (f : pyvalue -> result pyvalue)
    (good : list pyvalue) (bad : pyvalue) (rest : list pyvalue) (e : exn) (st : St) :
  Forall (fun x => exists y, f x = Return y) good ->
  f bad = Raise e ->
  map_py (fun v => lift (f v)) (good ++ bad :: rest) st = (st, Raise e).
Proof.
  intros Hgood Hbad. induction Hgood as [|x good [y Hx] _ IH]; simpl.
  - unfold bind, lift. now rewrite Hbad.
  - unfold bind at 1. unfold lift at 1. rewrite Hx.
    unfold bind. now rewrite IH.
Qed.

Lemma Type_run_validation_Return (self : Type_.t) (value r : pyvalue) :
  Type_.run_validation self value = Return r -> r = value.
Proof.
  unfold Type_.run_validation.
  destruct (negb _); [discriminate|].
  destruct (Type_.length self); [|now intros [= <-]].
  destruct (py_len value); [|discriminate].
  destruct (negb _); [discriminate | now intros [= <-]].
Qed.

Lemma Type_option_hooks {St} (self : Type_.t) :
  (forall k (sc : St * Config),
      ConfigOption.pre_validation (Type_option self) k sc
      = with_location (fun _ _ => ret tt) k sc) /\
  (forall k (sc : St * Config),
      ConfigOption.post_validation (Type_option self) k sc
      = with_location (fun _ _ => ret tt) k sc).
Proof. split; intros k [st c]; reflexivity. Qed.

(** X2: [ListOfItems(Type(...))] answers a raw list unchanged when every
    item passes the type check, and otherwise raises the error of the
    first item that does not; in both cases it leaves the state alone. *)
Theorem X2_list_of_typed_items {St : Type} (type_ : Type_.t) (self : ListOfItems.t)
    (st : St) :
  (forall items,
      Forall (fun x => exists y, Type_.run_validation type_ x = Return y) items ->
      ListOfItems.run_validation (Type_option type_) self (VList items) st
      = (st, Return (VList items))) /\
  (forall good bad rest e,
      Forall (fun x => exists y, Type_.run_validation type_ x = Return y) good ->
      Type_.run_validation type_ bad = Raise e ->
      ListOfItems.run_validation (Type_option type_) self
        (VList (good ++ bad :: rest)) st
      = (st, Raise e)).
Proof.
  pose proof (@Type_option_hooks St type_) as [Hpre Hpost].
  split.
  - intros items Hall.
    rewrite (run_validation_pointwise _ _ _ self items st Hpre Hpost).
    unfold bind. rewrite for_each_nothing.
    cbn [ConfigOption.run_validation Type_option].
    rewrite (map_py_lift_all _ (fun x => x)).
    + rewrite for_each_nothing, map_id. reflexivity.
    + eapply Forall_impl; [|exact Hall]. intros x [y Hy].
      now rewrite Hy, (Type_run_validation_Return _ _ _ Hy).
  - intros good bad rest e Hgood Hbad.
    rewrite (run_validation_pointwise _ _ _ self _ st Hpre Hpost).
    unfold bind. rewrite for_each_nothing.
    cbn [ConfigOption.run_validation Type_option].
    now rewrite (map_py_lift_failure _ good bad rest e).
Qed.

Lemma X2_list_of_typed_items_witness :
  ListOfItems.run_validation (Type_option Type_int) (fresh_ListOfItems VNone)
    (VList [VInt 1; VBool true]) tt
  = (tt, Return (VList [VInt 1; VBool true])) /\
  ListOfItems.run_validation (Type_option Type_int) (fresh_ListOfItems VNone)
    (VList ([VInt 1] ++ VNone :: [VStr "a"])) tt
  = (tt, Raise (ValidationError
       [Lit "Expected type: "; Lit "<class 'int'>";
        Lit " but received: "; Lit "<class 'NoneType'>"])).
Proof.
  split.
  - apply (proj1 (X2_list_of_typed_items Type_int (fresh_ListOfItems VNone) tt)).
    repeat constructor; eexists; reflexivity.
  - apply (proj2 (X2_list_of_typed_items Type_int (fresh_ListOfItems VNone) tt)).
    + repeat constructor; eexists; reflexivity.
    + reflexivity.
Defined.

Lemma FilesystemObject_option_hooks (cwd : string) :
  (forall k sc,
      ConfigOption.pre_validation (FilesystemObject_option cwd) k sc
      = with_location
          (fun location _ self =>
             (FilesystemObject.set_config_dir self
                match location with
                | Some p => if nonempty p then Some (posixpath.dirname p) else None
                | None => None
                end, Return tt)) k sc) /\
  (forall k sc,
      ConfigOption.post_validation (FilesystemObject_option cwd) k sc
      = with_location (fun _ _ => ret tt) k sc).
Proof. split; intros k [st c]; reflexivity. Qed.

Lemma for_each_set_config_dir (d : option string) (keys : list string)
    (self : FilesystemObject.t) :
  for_each (fun (_ : string) self =>
              (FilesystemObject.set_config_dir self d, Return tt)) keys self
  = (match keys with
     | [] => self
     | _ :: _ => FilesystemObject.set_config_dir self d
     end, Return tt).
Proof.
  revert self. induction keys as [|k keys IH]; intros self; [reflexivity|].
  cbn [for_each]. unfold bind. rewrite IH. destruct keys; reflexivity.
Qed.

Lemma map_py_relative_paths (cwd : string)
    (existence_test : string -> bool) (name : string) (exists_ : bool)
    (default : pyvalue) (required : bool) (config_file : string)
    (items : list string) :
  posixpath.isabs config_file = true ->
  Forall (fun v =>
            posixpath.isabs v = false /\
            (exists_ = true ->
             existence_test (posixpath.join (posixpath.dirname config_file) v) = true))
         items ->
  let self :=
    FilesystemObject.set_config_dir
      (FilesystemObject.__init__ existence_test name exists_ default required)
      (Some (posixpath.dirname config_file)) in
  map_py (ConfigOption.run_validation (FilesystemObject_option cwd))
    (map VStr items) self
  = (self, Return (map (fun v => VStr (posixpath.normpath
                          (posixpath.join (posixpath.dirname config_file) v)))
                       items)).
Proof.
  intros Habs Hitems self.
  induction Hitems as [|w ws [Hrel Hex] _ IH]; [reflexivity|].
  cbn [map map_py]. unfold bind at 1.
  cbn [ConfigOption.run_validation FilesystemObject_option].
  assert (E : FilesystemObject.run_validation cwd self (VStr w)
              = Return (VStr (posixpath.normpath
                   (posixpath.join (posixpath.dirname config_file) w)))).
  { pose proof (run_validation_relative cwd existence_test name exists_ default
                  required {| data := []; config_file_path := Some config_file |}
                  "" config_file w eq_refl Habs Hrel Hex) as R.
    unfold FilesystemObject.pre_validation in R. cbn [config_file_path] in R.
    rewrite (isabs_nonempty _ Habs) in R. exact R. }
  rewrite E. unfold bind.
  cbn [ConfigOption.run_validation FilesystemObject_option] in IH.
  rewrite IH. reflexivity.
Qed.

(** X3: the items of a list of paths share the source location of the
    Config the list belongs to: after [ListOfItems.pre_validation] on a
    Config loaded from an absolute location, relative items that pass the
    optional existence check validate to their normalized joins with the
    directory of that location. *)
Theorem X3_list_of_paths_resolved (cwd : string)
    (existence_test : string -> bool) (name : string) (exists_ : bool)
    (default : pyvalue) (required : bool)
    (list_self : ListOfItems.t) (config : Config) (key_name config_file : string)
    (items : list string) :
  config_file_path config = Some config_file ->
  posixpath.isabs config_file = true ->
  Forall (fun v =>
            posixpath.isabs v = false /\
            (exists_ = true ->
             existence_test (posixpath.join (posixpath.dirname config_file) v) = true))
         items ->
  snd (ListOfItems.run_validation (FilesystemObject_option cwd)
         (ListOfItems.pre_validation list_self config key_name)
         (VList (map VStr items))
         (FilesystemObject.__init__ existence_test name exists_ default required))
  = Return (VList (map (fun v => VStr (posixpath.normpath
                                         (posixpath.join (posixpath.dirname config_file) v)))
                       items)).
Proof.
  intros Hc Habs Hitems.
  pose proof (FilesystemObject_option_hooks cwd) as [Hpre Hpost].
  rewrite (run_validation_pointwise _ _ _ _ _ _ Hpre Hpost).
  unfold items_location. cbn [ListOfItems.pre_validation ListOfItems._config].
  rewrite Hc, (isabs_nonempty _ Habs).
  unfold bind. rewrite for_each_set_config_dir.
  destruct items as [|v items]; [reflexivity|].
  rewrite length_map.
  unfold fake_keys at 1. cbn [List.length seq map].
  pose proof (map_py_relative_paths cwd existence_test name exists_ default required
                config_file (v :: items) Habs Hitems) as Hmap.
  cbv zeta in Hmap. cbn [map] in Hmap |- *. rewrite Hmap.
  rewrite for_each_nothing. reflexivity.
Qed.

Lemma X3_list_of_paths_resolved_witness :
  snd (ListOfItems.run_validation (FilesystemObject_option "/home/user")
         (ListOfItems.pre_validation (fresh_ListOfItems (VList []))
            {| data := []; config_file_path := Some "/a/b/mkdocs.yml" |} "watch")
         (VList (map VStr ["docs"; "../shared"]))
         (FilesystemObject.__init__ (fun _ => true) "file or directory" true VNone false))
  = Return (VList (map (fun v => VStr (posixpath.normpath
                                         (posixpath.join (posixpath.dirname "/a/b/mkdocs.yml") v)))
                       ["docs"; "../shared"])).
Proof.
  apply (X3_list_of_paths_resolved "/home/user" (fun _ => true) "file or directory"
           true VNone false (fresh_ListOfItems (VList []))
           {| data := []; config_file_path := Some "/a/b/mkdocs.yml" |} "watch"
           "/a/b/mkdocs.yml" ["docs"; "../shared"] eq_refl eq_refl).
  repeat constructor.
Defined.

(* --------------------------------------------------------------------- *)
(** ** Choice and Type *)

(** X4: a [Choice] that its constructor accepted with a default validates
    an absent ([None]) value to that default: the membership check of the
    constructor is the one [run_validation] repeats. *)
Theorem X4_choice_default_accepted {St : Type} (choices default : pyvalue)
    (required : bool) (self : Choice.t) (st : St) :
  Choice.__init__ choices default required = Return self ->
  default <> VNone ->
  Choice.validate self VNone st = (st, Return default).
Proof.
  unfold Choice.__init__. intros H Hd.
  destruct (_ || _); [discriminate|].
  apply is_None_false in Hd as Hd'. rewrite Hd' in H.
  destruct (py_in default choices) as [[|]|e] eqn:Hin; try discriminate.
  injection H as <-.
  unfold Choice.validate. rewrite validate_default by exact Hd.
  cbn [Choice.base OptionallyRequired.default].
  unfold lift, Choice.run_validation. cbn [Choice.choices]. now rewrite Hin.
Qed.

Lemma X4_choice_default_accepted_witness :
  Choice.validate Choice_ab VNone tt = (tt, Return (VStr "a")).
Proof.
  apply (X4_choice_default_accepted (VList [VStr "a"; VStr "b"]) (VStr "a") false).
  - reflexivity.
  - discriminate.
Defined.

(** X5: [Type.run_validation] never changes a value: it answers the value
    itself, and does so exactly when the value is an instance of the
    expected type(s) and, if a length is asked for, has that length (a
    text its number of characters). *)
Theorem X5_type_accepts (self : Type_.t) (value r : pyvalue) :
  Type_.run_validation self value = Return r <->
  r = value /\
  isinstance value (Type_.classes (Type_._type self)) = true /\
  match Type_.length self with
  | None => True
  | Some n => py_len value = Some n
  end.
Proof.
  unfold Type_.run_validation.
  destruct (isinstance value _) eqn:Ei; cbn [negb].
  - destruct (Type_.length self) as [n|].
    + destruct (py_len value) as [k|].
      * destruct (Nat.eqb_spec k n) as [->|N]; cbn [negb].
        -- split; [intros [= <-]; auto | intros (-> & _); reflexivity].
        -- split; [discriminate | intros (_ & _ & [= E]); contradiction].
      * split; [discriminate | intros (_ & _ & E); discriminate].
    + split; [intros [= <-]; auto | intros (-> & _); reflexivity].
  - split; [discriminate | intros (_ & E & _); discriminate].
Qed.

Lemma X5_type_accepts_witness :
  Type_.run_validation Type_int (VBool true) = Return (VBool true) /\
  Type_.run_validation
    {| Type_.base := {| OptionallyRequired.default := VNone;
                        OptionallyRequired.required := false |};
       Type_._type := Type_.Class str_t;
       Type_.length := Some 2 |}
    (VStr (String (Ascii.ascii_of_nat 195) (String (Ascii.ascii_of_nat 169) "!")))
  = Return (VStr (String (Ascii.ascii_of_nat 195) (String (Ascii.ascii_of_nat 169) "!"))).
Proof.
  split.
  - apply (proj2 (X5_type_accepts Type_int (VBool true) (VBool true))).
    now repeat split.
  - apply (proj2 (X5_type_accepts _ _ _)). now repeat split.
Defined.

(* --------------------------------------------------------------------- *)
(** ** Deprecated *)

(** X6: for a key that is unset (absent or [None]) once the wrapped
    option's hook has run, [Deprecated.pre_validation] does nothing of its
    own: no warning, no error even when the option is marked removed, no
    move. *)
Theorem X6_deprecated_unset_key {St : Type}
    (str_format : string -> string -> result string)
    (option : ConfigOption.t (Deprecated.state St)) (self : Deprecated.t)
    (key_name : string) (s0 s1 : Deprecated.state St * Config) :
  ConfigOption.pre_validation option key_name s0 = (s1, Return tt) ->
  config_get (snd s1) key_name = VNone ->
  Deprecated.pre_validation str_format option self key_name s0 = (s1, Return tt).
Proof.
  intros H Hv. unfold Deprecated.pre_validation.
  unfold bind at 1. rewrite H. unfold bind, get. cbn [snd]. now rewrite Hv.
Qed.

Lemma X6_deprecated_unset_key_witness :
  Deprecated.pre_validation format_plain Deprecated.plain_option
    (Deprecated.__init__ (Some "new.key") None true) "old_key"
    (no_warnings, {| data := [("other", VInt 1); ("old_key", VNone)];
                     config_file_path := None |})
  = ((no_warnings, {| data := [("other", VInt 1); ("old_key", VNone)];
                      config_file_path := None |}), Return tt).
Proof.
  apply (X6_deprecated_unset_key format_plain Deprecated.plain_option); reflexivity.
Defined.

Lemma walk_frame (parent_keys target : list string) (root d : dict) (k : string) :
  Deprecated.dict_at root target = Some d ->
  hd_error (target ++ parent_keys) <> Some k ->
  dict_lookup k (fst (Deprecated.walk parent_keys target root)) = dict_lookup k root.
Proof.
  intros Hd Hk. pose proof (walk_spec parent_keys target root d Hd) as W.
  destruct (obstructed d parent_keys).
  - now rewrite W.
  - destruct W as (root' & d' & -> & _ & Hfr). now apply Hfr.
Qed.

Lemma walk_target (parent_keys target : list string) (root d : dict)
    (root' : dict) (t : list string) :
  Deprecated.dict_at root target = Some d ->
  Deprecated.walk parent_keys target root = (root', Return (Some t)) ->
  t = target ++ parent_keys.
Proof.
  intros Hd H. pose proof (walk_spec parent_keys target root d Hd) as W.
  destruct (obstructed d parent_keys).
  - rewrite W in H. discriminate.
  - destruct W as (r & d' & E & _). rewrite E in H. now injection H as _ <-.
Qed.

Lemma move_frame (target : list string) (target_key key_name : string)
    (root : dict) (k : string) :
  k <> key_name ->
  hd_error (target ++ [target_key]) <> Some k ->
  dict_lookup k (fst (Deprecated.move target target_key key_name root))
  = dict_lookup k root.
Proof.
  intros Hk Hhd. unfold Deprecated.move, bind, Deprecated.pop.
  destruct (dict_lookup key_name root) as [v|]; [|reflexivity].
  destruct target as [|k0 ks].
  - unfold Deprecated.target_setitem. cbn [Deprecated.dict_at Deprecated.update_at fst].
    rewrite dict_lookup_set_other by (simpl in Hhd; congruence).
    now apply dict_lookup_remove_other.
  - destruct (String.eqb k0 key_name).
    + cbn [ret fst]. now apply dict_lookup_remove_other.
    + unfold Deprecated.target_setitem.
      destruct (Deprecated.dict_at _ _); cbn [fst].
      * rewrite update_at_frame by (simpl in Hhd |- *; congruence).
        now apply dict_lookup_remove_other.
      * now apply dict_lookup_remove_other.
Qed.

Lemma pre_validation_frame {St : Type}
    (str_format : string -> string -> result string)
    (option : ConfigOption.t (Deprecated.state St)) (self : Deprecated.t)
    (key_name : string) (s0 s1 : Deprecated.state St * Config) (k : string) :
  ConfigOption.pre_validation option key_name s0 = (s1, Return tt) ->
  k <> key_name ->
  (forall p, Deprecated.moved_to self = Some p -> hd_error (split "." p) <> Some k) ->
  dict_lookup k
    (data (snd (fst (Deprecated.pre_validation str_format option self key_name s0))))
  = dict_lookup k (data (snd s1)) /\
  config_file_path
    (snd (fst (Deprecated.pre_validation str_format option self key_name s0)))
  = config_file_path (snd s1).
Proof.
  intros H Hk Hp. destruct s1 as [st1 c1].
  destruct (Deprecated.pre_validation str_format option self key_name s0)
    as [[st' c'] r] eqn:E.
  cbn [fst snd].
  unfold Deprecated.pre_validation in E.
  unfold bind at 1 in E. rewrite H in E.
  unfold bind at 1 in E. unfold get at 1 in E. cbn [snd] in E.
  destruct (negb (is_None (config_get c1 key_name)));
    [|injection E as _ <- _; auto].
  unfold bind at 1 in E. unfold lift at 1 in E.
  destruct (str_format _ _) as [text|e]; [|injection E as _ <- _; auto].
  destruct (Deprecated.removed self); [injection E as _ <- _; auto|].
  unfold bind at 1 in E. unfold Deprecated.append_warning, modify in E.
  cbn [fst snd] in *.
  destruct (Deprecated.moved_to self) as [p|] eqn:Ep;
    [|injection E as _ <- _; auto].
  specialize (Hp p eq_refl).
  pose proof (split_nonempty "." p) as Hne.
  pose proof (app_removelast_last "" Hne) as Hkeys.
  set (parents := removelast (split "." p)) in *.
  set (tk := last (split "." p) "") in *.
  rewrite Hkeys in Hp.
  unfold bind, Deprecated.on_data in E. cbn [fst snd] in E.
  pose proof (walk_frame parents [] (data c1) (data c1) k eq_refl) as Wf.
  pose proof (walk_target parents [] (data c1) (data c1)) as Wt.
  assert (Hhd : hd_error ([] ++ parents) <> Some k)
    by (destruct parents; simpl in *; congruence).
  specialize (Wf Hhd).
  destruct (Deprecated.walk parents [] (data c1)) as [root' [[t|]|e]];
    cbn [fst snd set_data data config_file_path] in *.
  - specialize (Wt root' t eq_refl eq_refl). cbn [app] in Wt. subst t.
    pose proof (move_frame parents tk key_name root' k Hk Hp) as Mf.
    destruct (Deprecated.move parents tk key_name root') as [root'' r'].
    cbn [fst snd data config_file_path] in *. injection E as _ <- _.
    cbn [set_data data config_file_path]. split; [|reflexivity]. now rewrite Mf.
  - injection E as _ <- _. cbn [set_data data config_file_path]. auto.
  - injection E as _ <- _. cbn [set_data data config_file_path]. auto.
Qed.

(** X7: whatever it does, [Deprecated.pre_validation] never changes the
    source location, adds no top-level key other than the one the
    replacement path starts at and removes none other than the deprecated
    key; and a top-level entry other than these two that holds [None], a
    truth value, a number or a text keeps it.  (An entry that holds a
    mapping may be the very mapping the value is moved into.) *)
Theorem X7_deprecated_frame {St : Type}
    (str_format : string -> string -> result string)
    (option : ConfigOption.t (Deprecated.state St)) (self : Deprecated.t)
    (key_name : string) (s0 s1 : Deprecated.state St * Config) (k : string) :
  ConfigOption.pre_validation option key_name s0 = (s1, Return tt) ->
  k <> key_name ->
  (forall p, Deprecated.moved_to self = Some p -> hd_error (split "." p) <> Some k) ->
  let c' := snd (fst (Deprecated.pre_validation str_format option self key_name s0)) in
  (dict_lookup k (data c') = None <-> dict_lookup k (data (snd s1)) = None) /\
  (forall v, scalar v = true ->
     dict_lookup k (data (snd s1)) = Some v -> dict_lookup k (data c') = Some v) /\
  config_file_path c' = config_file_path (snd s1).
Proof.
  intros H Hk Hp. cbv zeta.
  destruct (pre_validation_frame str_format option self key_name s0 s1 k H Hk Hp)
    as [-> ->].
  split; [reflexivity|]. split; [|reflexivity]. auto.
Qed.

Lemma X7_deprecated_frame_witness :
  dict_lookup "site_name"
    (data (snd (fst (Deprecated.pre_validation format_plain Deprecated.plain_option
                       Deprecated_moved "old_key"
                       (no_warnings,
                        {| data := [("site_name", VStr "x"); ("old_key", VInt 5)];
                           config_file_path := Some "/a/mkdocs.yml" |})))))
  = Some (VStr "x").
Proof.
  apply (proj1 (proj2 (X7_deprecated_frame format_plain Deprecated.plain_option
                  Deprecated_moved "old_key"
                  (no_warnings,
                   {| data := [("site_name", VStr "x"); ("old_key", VInt 5)];
                      config_file_path := Some "/a/mkdocs.yml" |})
                  (no_warnings,
                   {| data := [("site_name", VStr "x"); ("old_key", VInt 5)];
                      config_file_path := Some "/a/mkdocs.yml" |})
                  "site_name" eq_refl ltac:(discriminate)
                  ltac:(intros p [= <-]; discriminate)))); reflexivity.
Defined.

Lemma contains_char_append (c : ascii) (a b : string) :
  contains_char c (a ++ b) = contains_char c a || contains_char c b.
Proof.
  induction a as [|x a IH]; [reflexivity|].
  cbn [append contains_char]. now rewrite IH, orb_assoc.
Qed.

Lemma brace_free_append (a b : string) :
  brace_free (a ++ b) = brace_free a && brace_free b.
Proof.
  unfold brace_free. rewrite !contains_char_append.
  destruct (contains_char "{" a), (contains_char "{" b),
    (contains_char "}" a), (contains_char "}" b); reflexivity.
Qed.

(** Text without braces is copied as it is. *)
Lemma format_plain_from_text (used : bool) (a rest arg : string) :
  brace_free a = true ->
  format_plain_from used (a ++ rest) arg
  = match format_plain_from used rest arg with
    | Return t => Return (a ++ t)%string
    | Raise e => Raise e
    end.
Proof.
  induction a as [|c a IH]; intros H.
  - cbn [append]. now destruct (format_plain_from used rest arg).
  - unfold brace_free in H. cbn [contains_char] in H.
    apply andb_true_iff in H as [H1 H2].
    apply negb_true_iff in H1, H2.
    apply orb_false_elim in H1 as [Ho H1]. apply orb_false_elim in H2 as [Hc H2].
    cbn [append format_plain_from]. rewrite Ho, Hc. rewrite IH.
    + now destruct (format_plain_from used rest arg).
    + unfold brace_free. now rewrite H1, H2.
Qed.

Lemma format_plain_one_field (a b arg : string) :
  brace_free a = true -> brace_free b = true ->
  format_plain (a ++ "{}" ++ b) arg = Return (a ++ arg ++ b)%string.
Proof.
  intros Ha Hb. unfold format_plain. rewrite (format_plain_from_text false a _ arg Ha).
  cbn [append format_plain_from Ascii.eqb Bool.eqb].
  rewrite <- (append_nil_r b) at 1.
  rewrite (format_plain_from_text true b _ arg Hb).
  cbn [format_plain_from]. now rewrite append_nil_r.
Qed.

(** The default message: one [{}] between two texts, the second of which
    holds [moved_to]. *)
Lemma default_message_shape (moved_to : option string) (removed : bool) :
  exists b,
    Deprecated.message (Deprecated.__init__ moved_to None removed)
    = ("The configuration option '" ++ "{}" ++ b)%string
    /\ ((forall p, moved_to = Some p -> brace_free p = true) -> brace_free b = true)
    /\ (forall p, moved_to = Some p -> nonempty p = true -> is_substring p b = true).
Proof.
  unfold Deprecated.__init__. cbn [Deprecated.message negb].
  destruct removed, moved_to as [p|]; try destruct (nonempty p) eqn:Ep.
  1, 4:
    (eexists (_ ++ " Use '" ++ p ++ "' instead.")%string; split; [reflexivity|]; split;
     [ intros Hp; rewrite !brace_free_append, (Hp p eq_refl); reflexivity
     | intros q [= <-] _; find_substring ]).
  all: (eexists; split; [reflexivity|]; split;
        [ intros _; reflexivity | intros q Hq Hn; try discriminate; congruence ]).
Qed.

(** X8: the message a [Deprecated] option builds when none is given
    formats with the key name as long as [moved_to], which is spliced into
    it, holds no brace; the formatted text names the key, and names the
    replacement when one is configured. *)
Theorem X8_deprecated_default_message (moved_to : option string) (removed : bool)
    (key_name : string) :
  (forall p, moved_to = Some p -> brace_free p = true) ->
  exists text,
    format_plain (Deprecated.message (Deprecated.__init__ moved_to None removed))
      key_name
    = Return text
    /\ is_substring key_name text = true
    /\ (forall p, moved_to = Some p -> nonempty p = true -> is_substring p text = true).
Proof.
  intros Hfree.
  destruct (default_message_shape moved_to removed) as (b & -> & Hb & Hin).
  rewrite format_plain_one_field by (reflexivity || now apply Hb).
  eexists. split; [reflexivity|]. split.
  - apply is_substring_append.
  - intros p Hp Hn. apply is_substring_skip, is_substring_skip. now apply Hin.
Qed.

Lemma X8_deprecated_default_message_witness :
  exists text,
    format_plain (Deprecated.message Deprecated_moved) "old_key" = Return text
    /\ is_substring "old_key" text = true
    /\ (forall p, Some "new.key" = Some p -> nonempty p = true ->
                  is_substring p text = true).
Proof.
  apply (X8_deprecated_default_message (Some "new.key") false "old_key").
  intros p [= <-]. reflexivity.
Defined.

(* --------------------------------------------------------------------- *)
(** ** SiteDir *)

Lemma within_refl (d : string) : SiteDir.within d d = true.
Proof.
  unfold SiteDir.within, startswith. apply prefix_iff.
  destruct (rstrip_decomp posixpath.sep d) as [n Hn].
  exists (repeat_char posixpath.sep n).
  rewrite Hn at 1. rewrite !append_assoc. f_equal.
  unfold posixpath.sep_str. rewrite repeat_char_snoc.
  clear. induction n; simpl in *; congruence.
Qed.

(** X9: when [docs_dir] and [site_dir] are the same directory,
    [SiteDir.post_validation] always fails, with the message for a
    [docs_dir] within the [site_dir]. *)
Theorem X9_same_directory_rejected {St : Type} (key_name : string) (st : St)
    (c : Config) (dir : string) :
  config_getitem c "docs_dir" = Return (VStr dir) ->
  config_getitem c "site_dir" = Return (VStr dir) ->
  SiteDir.post_validation key_name (st, c)
  = ((st, c), Raise (ValidationError [Lit (SiteDir.docs_in_site_message dir dir)])).
Proof.
  intros Hd Hs.
  unfold SiteDir.post_validation, SiteDir.super_post_validation,
    BaseConfigOption.post_validation, bind, ret, get, lift, raise.
  cbn [snd fst]. now rewrite Hd, Hs, within_refl.
Qed.

Lemma X9_same_directory_rejected_witness :
  SiteDir.post_validation "site_dir" (tt, dirs_config "/x/site" "/x/site")
  = ((tt, dirs_config "/x/site" "/x/site"),
     Raise (ValidationError [Lit (SiteDir.docs_in_site_message "/x/site" "/x/site")])).
Proof.
  apply (X9_same_directory_rejected "site_dir" tt (dirs_config "/x/site" "/x/site"));
    reflexivity.
Defined.

(* --------------------------------------------------------------------- *)
(** ** Filesystem paths: what the answer depends on *)

Section FilesystemObjectMore.
Variable existence_test : string -> bool.
Variables (name : string) (exists_ : bool) (default : pyvalue) (required : bool).
Variables (config : Config) (key_name : string).

Local Abbreviation self :=
  (FilesystemObject.pre_validation
     (FilesystemObject.__init__ existence_test name exists_ default required)
     config key_name).

(** The path the existence test and [abspath] are given. *)
Lemma resolved_absolute (config_file value : string) :
  config_file_path config = Some config_file ->
  posixpath.isabs config_file = true ->
  posixpath.isabs
    match FilesystemObject.config_dir self with
    | Some d =>
        if nonempty d && negb (posixpath.isabs value)
        then posixpath.join d value else value
    | None => value
    end = true.
Proof.
  intros Hc Habs. unfold FilesystemObject.pre_validation. rewrite Hc.
  rewrite (isabs_nonempty _ Habs).
  cbn [FilesystemObject.config_dir FilesystemObject.set_config_dir].
  pose proof (isabs_dirname _ Habs) as Hd. rewrite (isabs_nonempty _ Hd).
  destruct (posixpath.isabs value) eqn:E; cbn [negb andb]; [exact E|].
  now apply isabs_join.
Qed.

Lemma run_validation_any_cwd (cwd cwd' config_file : string) (raw : pyvalue) :
  config_file_path config = Some config_file ->
  posixpath.isabs config_file = true ->
  FilesystemObject.run_validation cwd self raw
  = FilesystemObject.run_validation cwd' self raw.
Proof.
  intros Hc Habs. destruct raw; try reflexivity.
  rewrite !run_validation_str. cbv zeta.
  pose proof (resolved_absolute config_file s Hc Habs) as R.
  destruct (exists_ && _); [reflexivity|].
  unfold posixpath.abspath. now rewrite R.
Qed.

Lemma run_validation_missing (cwd : string) (value : string) :
  exists_ = true ->
  existence_test
    match FilesystemObject.config_dir self with
    | Some d =>
        if nonempty d && negb (posixpath.isabs value)
        then posixpath.join d value else value
    | None => value
    end = false ->
  exists path,
    FilesystemObject.run_validation cwd self (VStr value)
    = Raise (ValidationError
        [Lit "The path '"; Lit path; Lit "' isn't an existing "; Lit name; Lit "."])
    /\ (posixpath.isabs value = true -> path = value).
Proof.
  intros -> Hmiss. rewrite run_validation_str. cbv zeta. rewrite Hmiss.
  eexists. split; [reflexivity|].
  intros Hv. rewrite Hv. cbn [negb].
  destruct (FilesystemObject.config_dir _); [now rewrite andb_false_r | reflexivity].
Qed.
End FilesystemObjectMore.

(** X10: once the option is bound to a Config loaded from an absolute
    source location, what [run_validation] answers (a path or an error)
    does not depend on the working directory of the process. *)
Theorem X10_working_directory_irrelevant (cwd cwd' : string)
    (existence_test : string -> bool) (name : string) (exists_ : bool)
    (default : pyvalue) (required : bool) (config : Config)
    (key_name config_file : string) (raw : pyvalue) :
  config_file_path config = Some config_file ->
  posixpath.isabs config_file = true ->
  FilesystemObject.run_validation cwd
    (FilesystemObject.pre_validation
       (FilesystemObject.__init__ existence_test name exists_ default required)
       config key_name) raw
  = FilesystemObject.run_validation cwd'
      (FilesystemObject.pre_validation
         (FilesystemObject.__init__ existence_test name exists_ default required)
         config key_name) raw.
Proof. apply run_validation_any_cwd. Qed.

Lemma X10_working_directory_irrelevant_witness :
  FilesystemObject.run_validation "/home/user"
    (Dir_at (fun _ => true) true "/a/b/mkdocs.yml") (VStr "docs")
  = FilesystemObject.run_validation "/tmp"
      (Dir_at (fun _ => true) true "/a/b/mkdocs.yml") (VStr "docs").
Proof.
  apply (X10_working_directory_irrelevant "/home/user" "/tmp" (fun _ => true)
           "directory" true VNone false
           {| data := []; config_file_path := Some "/a/b/mkdocs.yml" |} "docs_dir"
           "/a/b/mkdocs.yml" (VStr "docs") eq_refl eq_refl).
Defined.

(** X11: with [exists=True], a path whose resolved form fails the
    existence test of the option's kind is rejected with an error naming
    that path and that kind; for an absolute raw path the path named is the
    raw path itself. *)
Theorem X11_missing_path_rejected (cwd : string)
    (existence_test : string -> bool) (name : string)
    (default : pyvalue) (required : bool) (config : Config)
    (key_name value : string) :
  posixpath.isabs value = true ->
  existence_test value = false ->
  FilesystemObject.run_validation cwd
    (FilesystemObject.pre_validation
       (FilesystemObject.__init__ existence_test name true default required)
       config key_name) (VStr value)
  = Raise (ValidationError
      [Lit "The path '"; Lit value; Lit "' isn't an existing "; Lit name; Lit "."]).
Proof.
  intros Habs Hmiss.
  destruct (run_validation_missing existence_test name true default required
              config key_name cwd value eq_refl) as (path & E & Hp).
  - rewrite Habs. cbn [negb].
    destruct (FilesystemObject.config_dir _); [rewrite andb_false_r|]; exact Hmiss.
  - rewrite E, (Hp Habs). reflexivity.
Qed.

Lemma X11_missing_path_rejected_witness :
  FilesystemObject.run_validation "/home/user"
    (Dir_at (fun _ => false) true "/a/b/mkdocs.yml") (VStr "/srv/docs")
  = Raise (ValidationError
      [Lit "The path '"; Lit "/srv/docs"; Lit "' isn't an existing ";
       Lit "directory"; Lit "."]).
Proof.
  apply (X11_missing_path_rejected "/home/user" (fun _ => false) "directory" VNone
           false {| data := []; config_file_path := Some "/a/b/mkdocs.yml" |}
           "docs_dir" "/srv/docs"); reflexivity.
Defined.

(** X12: the parent-directory check of [DocsDir.post_validation] compares
    the directory of the source location, as written, with the validated
    [docs_dir], which is absolute and normalized.  So it can only fire when
    that directory is itself absolute and in normal form. *)
Theorem X12_parent_directory_check {St : Type} (cwd : string) (self : FilesystemObject.t)
    (raw : pyvalue) (docs_dir : pyvalue) (key_name config_file : string)
    (st : St) (c : Config) (s' : St * Config) (e : exn) :
  posixpath.isabs cwd = true ->
  FilesystemObject.run_validation cwd self raw = Return docs_dir ->
  config_file_path c = Some config_file ->
  config_getitem c key_name = Return docs_dir ->
  DocsDir.post_validation key_name (st, c) = (s', Raise e) ->
  e = ValidationError [Lit (DocsDir.parent_directory_message key_name)]
  /\ docs_dir = VStr (posixpath.dirname config_file)
  /\ posixpath.isabs (posixpath.dirname config_file) = true
  /\ posixpath.normpath (posixpath.dirname config_file) = posixpath.dirname config_file.
Proof.
  intros Hcwd Hrun Hc Hget Hpost.
  unfold DocsDir.post_validation, bind, get, lift in Hpost. cbn [fst snd] in Hpost.
  rewrite Hc, Hget in Hpost.
  assert (Hout : exists x, docs_dir = VStr (posixpath.abspath cwd x)).
  { unfold FilesystemObject.run_validation in Hrun.
    destruct (Type_.run_validation _ _) as [[]|]; try discriminate.
    destruct (_ && _); [discriminate|]. injection Hrun as <-. eauto. }
  destruct Hout as [x ->].
  cbn [py_eq] in Hpost.
  destruct (String.eqb_spec (posixpath.dirname config_file) (posixpath.abspath cwd x))
    as [Heq|]; [|discriminate].
  injection Hpost as _ <-. rewrite Heq.
  repeat split.
  - now apply isabs_abspath.
  - pose proof (abspath_fixed cwd x Hcwd) as F. unfold posixpath.abspath at 1 in F.
    now rewrite (isabs_abspath cwd x Hcwd) in F.
Qed.

Lemma X12_parent_directory_check_witness :
  ValidationError [Lit (DocsDir.parent_directory_message "docs_dir")]
  = ValidationError [Lit (DocsDir.parent_directory_message "docs_dir")]
  /\ VStr "/a/b" = VStr (posixpath.dirname "/a/b/mkdocs.yml")
  /\ posixpath.isabs (posixpath.dirname "/a/b/mkdocs.yml") = true
  /\ posixpath.normpath (posixpath.dirname "/a/b/mkdocs.yml")
     = posixpath.dirname "/a/b/mkdocs.yml".
Proof.
  apply (X12_parent_directory_check (St := unit) "/home/user"
           (Dir_at (fun _ => true) false "/a/b/mkdocs.yml") (VStr ".") (VStr "/a/b")
           "docs_dir" "/a/b/mkdocs.yml" tt
           {| data := [("docs_dir", VStr "/a/b")];
              config_file_path := Some "/a/b/mkdocs.yml" |}
           (tt, {| data := [("docs_dir", VStr "/a/b")];
                   config_file_path := Some "/a/b/mkdocs.yml" |}));
    reflexivity.
Defined.

(* --------------------------------------------------------------------- *)
(** ** Theme *)

(** X13: the short forms of a theme are the mapping form: a theme given as
    the string [s] validates exactly as the mapping [{'name': s}] does, and
    an absent theme with a default [d] exactly as [{'name': d}] does. *)
Theorem X13_theme_short_forms (is_installed : pyvalue -> result bool)
    (installed_names : string) (self : Theme.t) :
  (forall s,
      Theme.run_validation is_installed installed_names self (VStr s)
      = Theme.run_validation is_installed installed_names self
          (VDict [("name", VStr s)])) /\
  (Theme.default self <> VNone ->
   Theme.run_validation is_installed installed_names self VNone
   = Theme.run_validation is_installed installed_names self
       (VDict [("name", Theme.default self)])).
Proof.
  split.
  - intros s. reflexivity.
  - intros H. apply is_None_false in H. unfold Theme.run_validation.
    cbn [is_None andb]. rewrite H. reflexivity.
Qed.

Lemma X13_theme_short_forms_witness :
  Theme.run_validation (fun v => Return (py_eq v (VStr "mkdocs"))) "mkdocs"
    {| Theme.default := VStr "mkdocs" |} VNone
  = Theme.run_validation (fun v => Return (py_eq v (VStr "mkdocs"))) "mkdocs"
      {| Theme.default := VStr "mkdocs" |} (VDict [("name", VStr "mkdocs")]).
Proof.
  apply (proj2 (X13_theme_short_forms (fun v => Return (py_eq v (VStr "mkdocs")))
                  "mkdocs" {| Theme.default := VStr "mkdocs" |})).
  discriminate.
Defined.

(** X14: whatever [Theme.run_validation] accepts, it answers a mapping
    that has a ['name'] entry, and that name is [None] or an installed
    theme. *)
Theorem X14_theme_answer (is_installed : pyvalue -> result bool)
    (installed_names : string) (self : Theme.t) (value r : pyvalue) :
  Theme.run_validation is_installed installed_names self value = Return r ->
  exists entries name,
    r = VDict entries /\ dict_lookup "name" entries = Some name /\
    (name = VNone \/ is_installed name = Return true).
Proof.
  unfold Theme.run_validation.
  set (v1 := if _ && _ then _ else value).
  set (v2 := if isinstance v1 [str_t] then _ else v1).
  destruct v2 as [| | | | | |entries]; try discriminate.
  destruct (dict_lookup "name" entries) as [name|] eqn:El; [|discriminate].
  destruct (is_None name) eqn:En.
  - intros [= <-]. exists entries, name. repeat split; [exact El|].
    left. now apply is_None_true.
  - destruct (is_installed name) as [[|]|e] eqn:Ei; try discriminate.
    intros [= <-]. exists entries, name. auto.
Qed.

Lemma X14_theme_answer_witness :
  exists entries name,
    VDict [("name", VStr "mkdocs")] = VDict entries /\
    dict_lookup "name" entries = Some name /\
    (name = VNone \/ (fun v => Return (py_eq v (VStr "mkdocs"))) name = Return true).
Proof.
  apply (X14_theme_answer (fun v => Return (py_eq v (VStr "mkdocs"))) "mkdocs"
           {| Theme.default := VNone |} (VStr "mkdocs")).
  reflexivity.
Defined.

(* --------------------------------------------------------------------- *)
(** ** EditURI *)

Lemma endswith_char_snoc (s : string) (c : ascii) :
  endswith_char (s ++ String c "") c = true.
Proof. exact (endswith_char_repeat s c 0). Qed.

Lemma ensure_trailing_slash_well_formed (v r : pyvalue) :
  ensure_trailing_slash v = Return r -> well_formed_edit_uri r.
Proof.
  unfold ensure_trailing_slash, well_formed_edit_uri.
  destruct (truthy v) eqn:Et.
  - destruct v; try discriminate.
    destruct (endswith_char s "/") eqn:Ee; cbn [negb]; intros [= <-]; right.
    + now exists s.
    + exists (s ++ "/")%string. split; [reflexivity | apply endswith_char_snoc].
  - intros [= <-]. now left.
Qed.

Lemma ensure_trailing_slash_fixed (v : pyvalue) :
  well_formed_edit_uri v -> ensure_trailing_slash v = Return v.
Proof.
  unfold ensure_trailing_slash. intros [H|(s & -> & H)].
  - now rewrite H.
  - destruct (truthy (VStr s)); [|reflexivity]. now rewrite H.
Qed.

Lemma dict_set_twice (k : string) (v : pyvalue) (d : dict) :
  dict_set k v (dict_set k v d) = dict_set k v d.
Proof.
  induction d as [|[k' v'] d IH]; simpl.
  - now rewrite String.eqb_refl.
  - destruct (String.eqb k k') eqn:E; simpl; rewrite E; [reflexivity | now rewrite IH].
Qed.

Section EditURIFacts.
Context {St : Type}.
Variable repo_host_of : pyvalue -> result pyvalue.
Variables repo_url_key key_name : string.

(** A successful run stores a well-formed value under the key and changes
    nothing else. *)
Lemma EditURI_post_validation_Return (st : St) (c : Config) (s' : St * Config) :
  EditURI_post_validation repo_host_of repo_url_key key_name (st, c) = (s', Return tt) ->
  exists v,
    s' = (st, config_setitem c key_name v) /\ well_formed_edit_uri v /\
    (config_get c key_name <> VNone -> ensure_trailing_slash (config_get c key_name) = Return v) /\
    (config_get c key_name = VNone -> v = VNone ->
     EditURI_post_validation repo_host_of repo_url_key key_name
       (st, config_setitem c key_name VNone)
     = ((st, config_setitem c key_name VNone), Return tt)).
Proof.
  unfold EditURI_post_validation.
  unfold bind at 1. unfold get at 1. cbn [fst snd].
  unfold bind at 1.
  set (derive := if is_None (config_get c key_name) && _ then _ else _).
  destruct (derive (st, c)) as [s1 [v0|e]] eqn:Ed; [|discriminate].
  assert (Hs1 : s1 = (st, c)).
  { unfold derive in Ed. destruct (_ && _).
    - unfold bind, lift in Ed. destruct (repo_host_of _); [|discriminate].
      destruct (_ || _); [now injection Ed as <- _|].
      destruct (py_eq _ _); now injection Ed as <- _.
    - now injection Ed as <- _. }
  subst s1.
  unfold bind at 1. unfold lift at 1.
  destruct (ensure_trailing_slash v0) as [v|e] eqn:Ee; [|discriminate].
  unfold modify. cbn [fst snd]. intros [= <-].
  exists v. split; [reflexivity|]. split; [eapply ensure_trailing_slash_well_formed, Ee|].
  split.
  - intros Hn. apply is_None_false in Hn. unfold derive in Ed. rewrite Hn in Ed.
    cbn [andb] in Ed. injection Ed as <-. exact Ee.
  - intros Hn -> .
    (* the value stays None: the derivation found nothing, and finds
       nothing again *)
    unfold bind at 1. unfold get at 1. cbn [fst snd].
    assert (Hk : config_get (config_setitem c key_name VNone) key_name = VNone).
    { unfold config_get, config_setitem, set_data, dict_get. cbn [data].
      now rewrite dict_lookup_set_same. }
    rewrite Hk. cbn [is_None andb].
    assert (Hv0 : v0 = VNone).
    { unfold ensure_trailing_slash in Ee. destruct (truthy v0) eqn:Et.
      - destruct v0; try discriminate. destruct (endswith_char s "/"); discriminate.
      - now injection Ee as ->. }
    subst v0.
    assert (Hset : config_setitem (config_setitem c key_name VNone) key_name VNone
                   = config_setitem c key_name VNone).
    { unfold config_setitem, set_data. cbn [data config_file_path].
      now rewrite dict_set_twice. }
    destruct (String.eqb_spec repo_url_key key_name) as [->|Hne].
    + rewrite Hk. cbn [is_None negb].
      unfold bind, ret, lift, modify. cbn [ensure_trailing_slash truthy fst snd].
      now rewrite Hset.
    + assert (Hr : config_get (config_setitem c key_name VNone) repo_url_key
                   = config_get c repo_url_key).
      { unfold config_get, config_setitem, set_data, dict_get. cbn [data].
        now rewrite dict_lookup_set_other. }
      rewrite Hr. unfold derive in Ed. rewrite Hn in Ed. cbn [is_None andb] in Ed.
      destruct (negb (is_None (config_get c repo_url_key))).
      * unfold bind, lift in Ed |- *.
        destruct (repo_host_of (config_get c repo_url_key)) as [h|e]; [|discriminate].
        destruct (py_eq h (VStr "github.com") || py_eq h (VStr "gitlab.com"));
          [discriminate|].
        destruct (py_eq h (VStr "bitbucket.org")); [discriminate|].
        unfold bind, ret, lift, modify. cbn [ensure_trailing_slash truthy fst snd].
        now rewrite Hset.
      * unfold bind, ret, lift, modify. cbn [ensure_trailing_slash truthy fst snd].
        now rewrite Hset.
Qed.
End EditURIFacts.

Lemma config_get_setitem_same (c : Config) (k : string) (v : pyvalue) :
  config_get (config_setitem c k v) k = v.
Proof.
  unfold config_get, config_setitem, set_data, dict_get. cbn [data].
  now rewrite dict_lookup_set_same.
Qed.

Lemma config_get_setitem_other (c : Config) (k k' : string) (v : pyvalue) :
  k <> k' -> config_get (config_setitem c k' v) k = config_get c k.
Proof.
  intros H. unfold config_get, config_setitem, set_data, dict_get. cbn [data].
  now rewrite dict_lookup_set_other.
Qed.

(** X15: when [EditURI.post_validation] succeeds, the value it leaves
    under its key is empty ([None] or [''], or another falsy value) or a
    text that ends with a slash; the option's state, the other entries
    and the source location are as before. *)
Theorem X15_edit_uri_well_formed {St : Type} (repo_host_of : pyvalue -> result pyvalue)
    (repo_url_key key_name : string) (st : St) (c : Config) (s' : St * Config) :
  EditURI_post_validation repo_host_of repo_url_key key_name (st, c) = (s', Return tt) ->
  well_formed_edit_uri (config_get (snd s') key_name) /\
  fst s' = st /\
  (forall k, k <> key_name -> config_get (snd s') k = config_get c k) /\
  config_file_path (snd s') = config_file_path c.
Proof.
  intros H. apply EditURI_post_validation_Return in H as (v & -> & Hv & _).
  cbn [fst snd]. rewrite config_get_setitem_same.
  repeat split; try assumption.
  intros k Hk. now apply config_get_setitem_other.
Qed.

Lemma X15_edit_uri_well_formed_witness :
  well_formed_edit_uri
    (config_get
       {| data := [("repo_url", VStr "https://github.com/org/repo");
                   ("edit_uri", VStr "edit/master/docs/")];
          config_file_path := None |} "edit_uri").
Proof.
  apply (proj1 (X15_edit_uri_well_formed (St := unit)
                  (fun _ => Return (VStr "github.com")) "repo_url" "edit_uri" tt
                  {| data := [("repo_url", VStr "https://github.com/org/repo")];
                     config_file_path := None |}
                  (tt, {| data := [("repo_url", VStr "https://github.com/org/repo");
                                   ("edit_uri", VStr "edit/master/docs/")];
                          config_file_path := None |})
                  eq_refl)).
Defined.

(** X16: [EditURI.post_validation] is idempotent: run again on the
    document a successful run has left, it succeeds and changes nothing. *)
Theorem X16_edit_uri_idempotent {St : Type} (repo_host_of : pyvalue -> result pyvalue)
    (repo_url_key key_name : string) (st : St) (c : Config) (s' : St * Config) :
  EditURI_post_validation repo_host_of repo_url_key key_name (st, c) = (s', Return tt) ->
  EditURI_post_validation repo_host_of repo_url_key key_name s' = (s', Return tt).
Proof.
  intros H. apply EditURI_post_validation_Return in H as (v & -> & Hv & Hset & Hnone).
  destruct (is_None v) eqn:En.
  - apply is_None_true in En. subst v.
    destruct (is_None (config_get c key_name)) eqn:Ec.
    + apply is_None_true in Ec. now apply Hnone.
    + apply is_None_false in Ec. specialize (Hset Ec).
      unfold ensure_trailing_slash in Hset.
      destruct (truthy (config_get c key_name)).
      * destruct (config_get c key_name); try discriminate.
        destruct (negb _); discriminate.
      * injection Hset as Hset. contradiction.
  - unfold EditURI_post_validation, bind, get. cbn [fst snd].
    rewrite config_get_setitem_same, En. cbn [andb ret].
    unfold lift. rewrite (ensure_trailing_slash_fixed v Hv).
    unfold modify. cbn [fst snd].
    unfold config_setitem, set_data. cbn [data config_file_path].
    now rewrite dict_set_twice.
Qed.

Lemma X16_edit_uri_idempotent_witness :
  EditURI_post_validation (fun _ => Return (VStr "example.org")) "repo_url" "edit_uri"
    (tt, {| data := [("repo_url", VStr "https://example.org/x");
                     ("edit_uri", VStr "blob/main/docs/")];
            config_file_path := None |})
  = ((tt, {| data := [("repo_url", VStr "https://example.org/x");
                      ("edit_uri", VStr "blob/main/docs/")];
             config_file_path := None |}), Return tt).
Proof.
  apply (X16_edit_uri_idempotent (fun _ => Return (VStr "example.org"))
           "repo_url" "edit_uri" tt
           {| data := [("repo_url", VStr "https://example.org/x");
                       ("edit_uri", VStr "blob/main/docs")];
              config_file_path := None |}).
  reflexivity.
Defined.

(* --------------------------------------------------------------------- *)
(** ** IpAddress *)

Lemma rsplit1_without (c : ascii) (s : string) :
  contains_char c s = false -> IpAddress.rsplit1 c s = [s].
Proof.
  induction s as [|a s IH]; simpl; [reflexivity|].
  intros H. apply orb_false_elim in H as [Ha Hs].
  now rewrite (IH Hs), Ha.
Qed.

Lemma rsplit1_with (c : ascii) (s : string) :
  contains_char c s = true ->
  exists host port,
    IpAddress.rsplit1 c s = [host; port]
    /\ s = (host ++ String c port)%string
    /\ contains_char c port = false.
Proof.
  induction s as [|a s IH]; simpl; [discriminate|].
  destruct (contains_char c s) eqn:Es.
  - intros _. destruct (IH eq_refl) as (host & port & -> & -> & Hp).
    exists (String a host), port. auto.
  - rewrite orb_false_r. intros Ha. rewrite (rsplit1_without c s Es), Ha.
    apply Ascii.eqb_eq in Ha as ->. exists EmptyString, s. auto.
Qed.

(** The shape of what [IpAddress.run_validation] takes and answers. *)
Lemma ip_address_shape (ip_address : string -> string + message)
    (int_of : string -> option Z) :
  (forall value,
      (forall s, value = VStr s -> contains_char ":" s = false) ->
      IpAddress.run_validation ip_address int_of value = Raise IpAddress.format_message) /\
  (forall s r,
      IpAddress.run_validation ip_address int_of (VStr s) = Return r ->
      exists host port h n,
        s = (host ++ String ":" port)%string /\
        contains_char ":" port = false /\
        int_of port = Some n /\
        r = VTuple [VStr h; VInt n] /\
        (host = "localhost" -> h = "localhost")).
Proof.
  split.
  - intros value H. destruct value; try reflexivity.
    unfold IpAddress.run_validation. now rewrite (rsplit1_without _ _ (H s eq_refl)).
  - intros s r. unfold IpAddress.run_validation.
    destruct (contains_char ":" s) eqn:Ec.
    + destruct (rsplit1_with ":" s Ec) as (host & port & -> & Hs & Hp).
      intros H. exists host, port.
      destruct (String.eqb_spec host "localhost") as [->|Hne]; cbn [negb] in H.
      * destruct (int_of port) as [n|]; [|discriminate]. injection H as <-.
        exists "localhost", n. auto.
      * destruct (ip_address _) as [h|e]; [|discriminate].
        destruct (int_of port) as [n|]; [|discriminate]. injection H as <-.
        exists h, n. repeat split; try assumption. intros; contradiction.
    + rewrite (rsplit1_without _ _ Ec). discriminate.
Qed.

Lemma rsplit1_join (c : ascii) (host port : string) :
  contains_char c port = false ->
  IpAddress.rsplit1 c (host ++ String c port) = [host; port].
Proof.
  intros H. induction host as [|a host IH].
  - cbn [append IpAddress.rsplit1]. rewrite (rsplit1_without c port H).
    now rewrite Ascii.eqb_refl.
  - cbn [append IpAddress.rsplit1]. now rewrite IH.
Qed.

(** X17: [IpAddress.run_validation] splits its text at the last colon.  A
    value that is not a text or holds no colon is rejected with the
    'IP:PORT' format error.  A text [host:port] with no colon in the port
    part (every text with a colon is one, and the host may hold colons) is
    answered with the pair of the host and the port as a number, where the
    host ['localhost'] is taken as it is and any other host is what
    [ipaddress.ip_address] makes of it, a pair of enclosing square brackets
    taken off first; the error of [ip_address] comes before that of the
    port. *)
Theorem X17_ip_address_shape (ip_address : string -> string + message)
    (int_of : string -> option Z) :
  (forall value,
      (forall s, value = VStr s -> contains_char ":" s = false) ->
      IpAddress.run_validation ip_address int_of value = Raise IpAddress.format_message) /\
  (forall host port,
      contains_char ":" port = false ->
      IpAddress.run_validation ip_address int_of (VStr (host ++ String ":" port))
      = match (if String.eqb host "localhost" then inl host
               else ip_address
                      (if startswith host "[" && endswith_char host "]"
                       then IpAddress.strip_ends host else host)) with
        | inr e => Raise (ValidationError e)
        | inl h =>
            match int_of port with
            | Some n => Return (VTuple [VStr h; VInt n])
            | None =>
                Raise (ValidationError [Lit "'"; Lit port; Lit "' is not a valid port"])
            end
        end) /\
  (forall s,
      contains_char ":" s = true ->
      exists host port,
        s = (host ++ String ":" port)%string /\ contains_char ":" port = false).
Proof.
  split; [|split].
  - apply ip_address_shape.
  - intros host port H. unfold IpAddress.run_validation.
    rewrite (rsplit1_join ":" host port H).
    destruct (String.eqb host "localhost"); cbn [negb]; [reflexivity|].
    now destruct (ip_address _).
  - intros s H. destruct (rsplit1_with ":" s H) as (host & port & _ & Hs & Hp).
    eauto.
Qed.

Lemma X17_ip_address_shape_witness :
  IpAddress.run_validation (fun h => inl h) (fun _ => Some 8000%Z) (VStr "localhost")
  = Raise IpAddress.format_message /\
  IpAddress.run_validation (fun h => inl h) (fun _ => Some 8000%Z) (VStr "[::1]:8000")
  = Return (VTuple [VStr "::1"; VInt 8000]) /\
  exists host port,
    "::1:8000" = (host ++ String ":" port)%string /\ contains_char ":" port = false.
Proof.
  split; [|split].
  - apply (proj1 (X17_ip_address_shape (fun h => inl h) (fun _ => Some 8000%Z))).
    intros s [= <-]. reflexivity.
  - apply (proj1 (proj2 (X17_ip_address_shape (fun h => inl h) (fun _ => Some 8000%Z)))
             "[::1]" "8000").
    reflexivity.
  - apply (proj2 (proj2 (X17_ip_address_shape (fun h => inl h) (fun _ => Some 8000%Z)))).
    reflexivity.
Defined.

(** X18: on a value [IpAddress.run_validation] answered,
    [IpAddress.post_validation] never fails and never touches the
    document; it adds at most one warning, and adds none unless the key
    is ['dev_addr']. *)
Theorem X18_ip_address_post_validation (ip_address : string -> string + message)
    (int_of : string -> option Z) (raw r : pyvalue) (key_name : string)
    (warnings : list string) (c : Config) :
  IpAddress.run_validation ip_address int_of raw = Return r ->
  config_getitem c key_name = Return r ->
  exists added,
    IpAddress.post_validation key_name (warnings, c)
    = ((warnings ++ added, c), Return tt)
    /\ List.length added <= 1
    /\ (key_name <> "dev_addr" -> added = []).
Proof.
  intros Hrun Hget.
  assert (Hr : exists h n, r = VTuple [VStr h; VInt n]).
  { destruct raw; try discriminate.
    destruct (proj2 (ip_address_shape ip_address int_of) s r Hrun)
      as (host & port & h & n & _ & _ & _ & -> & _). eauto. }
  destruct Hr as (h & n & ->).
  unfold IpAddress.post_validation, bind, get, lift. cbn [fst snd]. rewrite Hget.
  destruct (String.eqb_spec key_name "dev_addr") as [->|Hne]; cbn [andb].
  - destruct (_ || _).
    + eexists. split; [reflexivity|]. split; [simpl; lia | congruence].
    + exists []. rewrite app_nil_r. split; [reflexivity|]. split; [simpl; lia | auto].
  - exists []. rewrite app_nil_r. split; [reflexivity|]. split; [simpl; lia | auto].
Qed.

Lemma X18_ip_address_post_validation_witness :
  exists added,
    IpAddress.post_validation "dev_addr"
      ([], {| data := [("dev_addr", VTuple [VStr "0.0.0.0"; VInt 8000])];
              config_file_path := None |})
    = (([] ++ added, {| data := [("dev_addr", VTuple [VStr "0.0.0.0"; VInt 8000])];
                        config_file_path := None |}), Return tt)
    /\ List.length added <= 1
    /\ ("dev_addr" <> "dev_addr" -> added = []).
Proof.
  apply (X18_ip_address_post_validation (fun h => inl h) (fun _ => Some 8000%Z)
           (VStr "0.0.0.0:8000") (VTuple [VStr "0.0.0.0"; VInt 8000])).
  - reflexivity.
  - reflexivity.
Defined.

(* --------------------------------------------------------------------- *)
(** ** Nav, below the top level *)

Lemma for_each_grows {A W : Type} (body : A -> Py (list W) unit) (xs : list A) :
  Forall (fun x => forall w w' r, body x w = (w', r) -> exists added, w' = w ++ added) xs ->
  forall w w' r, for_each body xs w = (w', r) -> exists added, w' = w ++ added.
Proof.
  induction 1 as [|x xs Hx _ IH]; intros w w' r H.
  - injection H as <- _. exists []. now rewrite app_nil_r.
  - cbn [for_each] in H. unfold bind in H.
    destruct (body x w) as [w1 [[]|e]] eqn:E.
    + destruct (Hx _ _ _ E) as [a1 ->]. destruct (IH _ _ _ H) as [a2 ->].
      exists (a1 ++ a2). now rewrite app_assoc.
    + injection H as <- _. eapply Hx, E.
Qed.

Lemma Nav_grows (value : pyvalue) :
  (forall top w w' r,
      Nav.run_validation top value w = (w', r) -> exists added, w' = w ++ added) /\
  (forall w w' r,
      Nav._validate_nav_item value w = (w', r) -> exists added, w' = w ++ added).
Proof.
  assert (Hsame : forall (w w' : list message), w = w' -> exists added, w' = w ++ added).
  { intros w w' <-. exists []. now rewrite app_nil_r. }
  induction value as [| | | |items IH|items IH|entries IH] using pyvalue_nested_ind;
    (split; [intros top w w' r H | intros w w' r H]);
    try (destruct top; injection H as <- _; now apply Hsame);
    try (injection H as <- _; now apply Hsame).
  - cbn [Nav.run_validation] in H. unfold bind in H.
    destruct (for_each Nav._validate_nav_item items w) as [w1 [[]|?]] eqn:E.
    + apply for_each_grows in E.
      * destruct E as [a ->]. destruct (top && _); injection H as <- _; eauto.
      * eapply Forall_impl; [|exact IH]. intros x [_ Hx]. exact Hx.
    + injection H as <- _. apply for_each_grows in E; [assumption|].
      eapply Forall_impl; [|exact IH]. intros x [_ Hx]. exact Hx.
  - cbn [Nav.run_validation] in H.
    destruct (truthy (VDict entries) && negb top).
    + unfold bind at 1 in H. unfold modify at 1 in H. unfold bind in H.
      match type of H with
      | context [for_each ?b entries ?s] =>
          destruct (for_each b entries s) as [w1 [[]|?]] eqn:E
      end.
      * apply for_each_grows in E.
        -- destruct E as [a ->]. injection H as <- _. rewrite <- app_assoc. eauto.
        -- eapply Forall_impl; [|exact IH]. intros [k x] [Hx _] w0 w0' r0 H0.
           cbn [snd] in Hx. unfold bind in H0.
           destruct (Nav.run_validation false x w0) as [w2 [?|?]] eqn:E2;
             injection H0 as <- _; eapply Hx, E2.
      * injection H as <- _. apply for_each_grows in E.
        -- destruct E as [a ->]. rewrite <- app_assoc. eauto.
        -- eapply Forall_impl; [|exact IH]. intros [k x] [Hx _] w0 w0' r0 H0.
           cbn [snd] in Hx. unfold bind in H0.
           destruct (Nav.run_validation false x w0) as [w2 [?|?]] eqn:E2;
             injection H0 as <- _; eapply Hx, E2.
    + injection H as <- _. now apply Hsame.
  - cbn [Nav._validate_nav_item] in H.
    destruct (negb _).
    + injection H as <- _. now apply Hsame.
    + apply for_each_grows in H; [assumption|].
      eapply Forall_impl; [|exact IH]. intros [k x] [Hx _] w0 w0' r0 H0.
      cbn [snd] in Hx. unfold bind in H0.
      destruct (Nav.run_validation false x w0) as [w2 [?|?]] eqn:E2;
        injection H0 as <- _; eapply Hx, E2.
Qed.

Lemma for_each_silent {A W : Type} (body : A -> Py (list W) unit) (xs : list A) (w : list W) :
  Forall (fun x => forall w w' r, body x w = (w', r) -> exists added, w' = w ++ added) xs ->
  for_each body xs w = (w, Return tt) ->
  Forall (fun x => body x w = (w, Return tt)) xs.
Proof.
  induction 1 as [|x xs Hx Hxs IH]; intros H; [constructor|].
  cbn [for_each] in H. unfold bind in H.
  destruct (body x w) as [w1 [[]|?]] eqn:E; [|discriminate].
  destruct (Hx _ _ _ E) as [a1 ->].
  destruct (for_each_grows body xs Hxs _ _ _ H) as [a2 Ha].
  rewrite <- app_assoc in Ha. rewrite <- (app_nil_r w) in Ha at 1.
  apply app_inv_head in Ha. symmetry in Ha. apply app_eq_nil in Ha as [-> _].
  rewrite app_nil_r in *. constructor; [assumption | now apply IH].
Qed.

Lemma for_each_all {A S : Type} (body : A -> Py S unit) (xs : list A) (s : S) :
  Forall (fun x => body x s = (s, Return tt)) xs ->
  for_each body xs s = (s, Return tt).
Proof.
  induction 1 as [|x xs Hx _ IH]; [reflexivity|].
  cbn [for_each]. unfold bind. now rewrite Hx.
Qed.

Lemma Nav_plain (value : pyvalue) :
  (forall w, plain_nav value = true ->
             Nav.run_validation false value w = (w, Return value)) /\
  (forall w, plain_nav_item value = true ->
             Nav._validate_nav_item value w = (w, Return tt)).
Proof.
  induction value as [| | | |items IH|items IH|entries IH] using pyvalue_nested_ind;
    (split; intros w H); try discriminate; try reflexivity.
  - cbn [plain_nav] in H. cbn [Nav.run_validation]. unfold bind.
    rewrite for_each_all; [reflexivity|].
    rewrite forallb_forall in H. rewrite Forall_forall in IH |- *.
    intros x Hx. now apply (IH x Hx), H.
  - cbn [plain_nav_item] in H.
    destruct entries as [|[k sub] [|? ?]]; try discriminate.
    apply Forall_inv in IH. cbn [snd] in IH.
    cbn [Nav._validate_nav_item List.length Nat.eqb negb for_each]. unfold bind.
    now rewrite (proj1 IH w H).
Qed.

Lemma Nav_silent (value : pyvalue) :
  (forall w r, Nav.run_validation false value w = (w, Return r) ->
               plain_nav value = true) /\
  (forall w, Nav._validate_nav_item value w = (w, Return tt) ->
             plain_nav_item value = true).
Proof.
  induction value as [| | | |items IH|items IH|entries IH] using pyvalue_nested_ind;
    split; try (intros w r H); try (intros w H); try discriminate; try reflexivity.
  - cbn [Nav.run_validation] in H. unfold bind in H.
    destruct (for_each Nav._validate_nav_item items w) as [w1 [[]|?]] eqn:E;
      [|discriminate].
    cbn [andb] in H. injection H as -> _.
    apply for_each_silent in E.
    + cbn [plain_nav]. rewrite forallb_forall. rewrite Forall_forall in IH, E.
      intros x Hx. apply (IH x Hx) with (w := w). now apply E.
    + rewrite Forall_forall. intros x _. apply (proj2 (Nav_grows x)).
  - cbn [Nav.run_validation] in H. rewrite andb_true_r in H.
    destruct (truthy (VDict entries)); [|discriminate].
    exfalso.
    unfold bind at 1 in H. unfold modify at 1 in H. unfold bind in H.
    match type of H with
    | context [for_each ?b entries ?s] =>
        destruct (for_each b entries s) as [w1 [[]|?]] eqn:E
    end; [|discriminate].
    injection H as ->.
    apply for_each_grows in E.
    + destruct E as [a Ha]. rewrite <- app_assoc in Ha.
      rewrite <- (app_nil_r w) in Ha at 1. apply app_inv_head in Ha. discriminate.
    + rewrite Forall_forall. intros [k x] _ w0 w0' r0 H0. unfold bind in H0.
      destruct (Nav.run_validation false x w0) as [w2 [?|?]] eqn:E2;
        injection H0 as <- _; eapply (proj1 (Nav_grows _)), E2.
  - cbn [Nav._validate_nav_item] in H.
    destruct entries as [|[k sub] [|? ?]]; try discriminate.
    apply Forall_inv in IH. cbn [snd] in IH.
    cbn [List.length Nat.eqb negb for_each] in H. unfold bind in H.
    destruct (Nav.run_validation false sub w) as [w1 [v|?]] eqn:E; [|discriminate].
    injection H as ->. cbn [plain_nav_item]. eapply IH, E.
Qed.

(** X19: whatever [Nav.run_validation] does, it only appends to the
    warnings; when it answers, the answer is the value it was given, or
    [None] in place of an empty list at the top level; and at the top
    level it answers for lists only. *)
Theorem X19_nav_answer (top : bool) (value : pyvalue) (w w' : list message)
    (r : result pyvalue) :
  Nav.run_validation top value w = (w', r) ->
  (exists added, w' = w ++ added) /\
  (forall v, r = Return v ->
     (v = value \/ (top = true /\ value = VList [] /\ v = VNone)) /\
     (top = true -> exists items, value = VList items)).
Proof.
  intros H. split; [eapply (proj1 (Nav_grows _)), H|].
  intros v ->. destruct value; cbn [Nav.run_validation] in H.
  1-3, 6: discriminate.
  - destruct top; [discriminate|]. injection H as _ <-. split; [auto | discriminate].
  - unfold bind in H. destruct (for_each _ _ _) as [w1 [[]|?]]; [|discriminate].
    split; [|eauto].
    destruct top, items; cbn in H; injection H as _ <-; auto.
  - destruct (truthy (VDict entries) && negb top) eqn:Et; [|discriminate].
    apply andb_true_iff in Et as [_ Et]. destruct top; [discriminate|].
    split; [|discriminate].
    unfold bind at 1 in H. unfold modify at 1 in H. unfold bind in H.
    destruct (for_each _ _ _) as [w1 [[]|?]]; [|discriminate].
    injection H as _ <-. auto.
Qed.

Lemma X19_nav_answer_witness :
  (exists added, [[Lit "earlier"]] = [[Lit "earlier"]] ++ added) /\
  (forall v, Return VNone = Return v ->
     (v = VList [] \/ (true = true /\ VList [] = VList [] /\ v = VNone)) /\
     (true = true -> exists items, VList [] = VList items)).
Proof.
  apply (X19_nav_answer true (VList []) [[Lit "earlier"]] [[Lit "earlier"]] (Return VNone)).
  reflexivity.
Defined.

(** X20: [Nav.run_validation] accepts a value at the top level without
    adding a warning exactly when the value is a list whose items are
    texts or one-entry mappings, each mapping leading to a text or to
    such a list again. *)
Theorem X20_nav_silent_acceptance (value : pyvalue) (w : list message) :
  (exists r, Nav.run_validation true value w = (w, Return r)) <->
  (exists items, value = VList items /\ forallb plain_nav_item items = true).
Proof.
  split.
  - intros [r H]. destruct value; try discriminate.
    + exists items. split; [reflexivity|].
      cbn [Nav.run_validation] in H. unfold bind in H.
      destruct (for_each Nav._validate_nav_item items w) as [w1 [[]|?]] eqn:E;
        [|discriminate].
      assert (w1 = w) as -> by (destruct (true && _); now injection H).
      apply for_each_silent in E.
      * rewrite forallb_forall. rewrite Forall_forall in E.
        intros x Hx. eapply (proj2 (Nav_silent _)), E, Hx.
      * rewrite Forall_forall. intros x _. apply (proj2 (Nav_grows x)).
    + cbn [Nav.run_validation] in H. rewrite andb_false_r in H. discriminate.
  - intros (items & -> & H).
    cbn [Nav.run_validation]. unfold bind.
    rewrite for_each_all.
    + destruct (true && _); eexists; reflexivity.
    + rewrite forallb_forall in H. rewrite Forall_forall.
      intros x Hx. now apply (proj2 (Nav_plain _)), H.
Qed.

(* --------------------------------------------------------------------- *)
(** ** Plugins: what loading a plugin touches *)

Lemma lookup_store_other {V} (k k' : string) (v : V) (l : list (string * V)) :
  k <> k' -> Plugins.lookup k (Plugins.store k' v l) = Plugins.lookup k l.
Proof.
  intros H. induction l as [|[k0 v0] l IH]; cbn [Plugins.store Plugins.lookup].
  - now rewrite (proj2 (String.eqb_neq k k') H).
  - destruct (String.eqb_spec k' k0) as [->|N]; cbn [Plugins.lookup].
    + now rewrite (proj2 (String.eqb_neq k k0) H).
    + now rewrite IH.
Qed.

Lemma lookup_store_same {V} (k : string) (v : V) (l : list (string * V)) :
  Plugins.lookup k (Plugins.store k v l) = Some v.
Proof.
  induction l as [|[k0 v0] l IH]; cbn [Plugins.store Plugins.lookup].
  - now rewrite String.eqb_refl.
  - destruct (String.eqb_spec k k0) as [->|N]; cbn [Plugins.lookup].
    + now rewrite String.eqb_refl.
    + now rewrite (proj2 (String.eqb_neq k k0) N).
Qed.

Section PluginsMore.
Variables Plugin PluginClass PluginCollection : Type.
Variable installed_plugins : list (string * PluginClass).
Variable is_BasePlugin_subclass : PluginClass -> bool.
Variable qualified_name : PluginClass -> string.
Variable BasePlugin_qualified_name : string.
Variable instantiate : PluginClass -> Plugin.
Variable has_startup_or_shutdown : Plugin -> bool.
Variable load_config :
  Plugin -> dict -> option string -> Plugin * (list (string * string) * list string).

Local Abbreviation state := (Plugins.state Plugin PluginCollection).
Local Abbreviation load_plugin :=
  (Plugins.load_plugin Plugin PluginClass PluginCollection installed_plugins
     is_BasePlugin_subclass qualified_name BasePlugin_qualified_name instantiate
     has_startup_or_shutdown load_config).
Lemma load_plugin_frame (name config : pyvalue) (st st' : state) (r : result Plugin) :
  load_plugin name config st = (st', r) ->
  Plugins.config_file_path _ _ st' = Plugins.config_file_path _ _ st /\
  Plugins.plugins _ _ st' = Plugins.plugins _ _ st /\
  (exists added, Plugins.warnings _ _ st' = Plugins.warnings _ _ st ++ added) /\
  (forall k, VStr k <> name ->
     Plugins.lookup k (Plugins.plugin_cache _ _ st')
     = Plugins.lookup k (Plugins.plugin_cache _ _ st)) /\
  (forall k, Plugins.lookup k (Plugins.plugin_cache _ _ st) <> None ->
             Plugins.lookup k (Plugins.plugin_cache _ _ st') <> None).
Proof.
  assert (Hsame : forall s s' : state, s = s' ->
            Plugins.config_file_path _ _ s' = Plugins.config_file_path _ _ s /\
            Plugins.plugins _ _ s' = Plugins.plugins _ _ s /\
            (exists added, Plugins.warnings _ _ s' = Plugins.warnings _ _ s ++ added) /\
            (forall k, VStr k <> name ->
               Plugins.lookup k (Plugins.plugin_cache _ _ s')
               = Plugins.lookup k (Plugins.plugin_cache _ _ s)) /\
            (forall k, Plugins.lookup k (Plugins.plugin_cache _ _ s) <> None ->
                       Plugins.lookup k (Plugins.plugin_cache _ _ s') <> None)).
  { intros s s' <-. repeat split; auto. exists []. now rewrite app_nil_r. }
  unfold Plugins.load_plugin. intros H.
  destruct name as [| | |name_| | |]; try (injection H as <- _; now apply Hsame).
  destruct (Plugins.lookup name_ installed_plugins) as [Plugin_|];
    [|injection H as <- _; now apply Hsame].
  destruct (if truthy config then config else VDict []) as [| | | | | |config_];
    try (injection H as <- _; now apply Hsame).
  unfold bind, get, modify, ret, raise in H.
  destruct (Plugins.lookup name_ (Plugins.plugin_cache _ _ st)) as [cached|] eqn:Ec.
  - destruct (load_config cached config_ _) as [plugin [errors warnings_]].
    rewrite Ec in H.
    assert (st' = Plugins.extend_warnings _ _
                    (Plugins.set_plugin_cache _ _ st
                       (Plugins.store name_ plugin (Plugins.plugin_cache _ _ st)))
                    warnings_) as ->
      by (destruct (nonempty _); now injection H).
    cbn [Plugins.extend_warnings Plugins.set_plugin_cache Plugins.config_file_path
         Plugins.plugins Plugins.warnings Plugins.plugin_cache].
    repeat split; eauto.
    + intros k Hk. apply lookup_store_other. congruence.
    + intros k Hk. destruct (String.eqb_spec k name_) as [->|N].
      * now rewrite lookup_store_same.
      * now rewrite lookup_store_other.
  - destruct (negb (is_BasePlugin_subclass Plugin_));
      [injection H as <- _; now apply Hsame|].
    destruct (has_startup_or_shutdown (instantiate Plugin_)).
    + destruct (load_config (instantiate Plugin_) config_ _)
        as [plugin [errors warnings_]].
      unfold Plugins.set_plugin_cache in H at 1 2 3.
      cbn [Plugins.plugin_cache] in H.
      rewrite lookup_store_same in H.
      match type of H with
      | (if _ then _ else _) ?s = _ => assert (st' = s) as ->
          by (destruct (nonempty _); now injection H)
      end.
      cbn [Plugins.extend_warnings Plugins.set_plugin_cache Plugins.config_file_path
           Plugins.plugins Plugins.warnings Plugins.plugin_cache].
      repeat split; eauto.
      * intros k Hk. rewrite !lookup_store_other by congruence. reflexivity.
      * intros k Hk. destruct (String.eqb_spec k name_) as [->|N].
        -- now rewrite lookup_store_same.
        -- now rewrite !lookup_store_other.
    + destruct (load_config (instantiate Plugin_) config_ _)
        as [plugin [errors warnings_]].
      rewrite Ec in H.
      assert (st' = Plugins.extend_warnings _ _ st warnings_) as ->
        by (destruct (nonempty _); now injection H).
      cbn [Plugins.extend_warnings Plugins.config_file_path
           Plugins.plugins Plugins.warnings Plugins.plugin_cache].
      repeat split; eauto.
Qed.
End PluginsMore.

(** X23: [Plugins.load_plugin], however it ends, leaves the option's
    [config_file_path] and the collection [plugins] alone, only appends
    to the warnings, and in the plugin cache touches no other name and
    drops none. *)
Theorem X23_load_plugin_frame (Plugin PluginClass PluginCollection : Type)
    (installed_plugins : list (string * PluginClass))
    (is_BasePlugin_subclass : PluginClass -> bool)
    (qualified_name : PluginClass -> string) (BasePlugin_qualified_name : string)
    (instantiate : PluginClass -> Plugin) (has_startup_or_shutdown : Plugin -> bool)
    (load_config : Plugin -> dict -> option string ->
                   Plugin * (list (string * string) * list string))
    (name config : pyvalue) (st st' : Plugins.state Plugin PluginCollection)
    (r : result Plugin) :
  Plugins.load_plugin Plugin PluginClass PluginCollection installed_plugins
    is_BasePlugin_subclass qualified_name BasePlugin_qualified_name instantiate
    has_startup_or_shutdown load_config name config st = (st', r) ->
  Plugins.config_file_path _ _ st' = Plugins.config_file_path _ _ st /\
  Plugins.plugins _ _ st' = Plugins.plugins _ _ st /\
  (exists added, Plugins.warnings _ _ st' = Plugins.warnings _ _ st ++ added) /\
  (forall k, VStr k <> name ->
     Plugins.lookup k (Plugins.plugin_cache _ _ st')
     = Plugins.lookup k (Plugins.plugin_cache _ _ st)) /\
  (forall k, Plugins.lookup k (Plugins.plugin_cache _ _ st) <> None ->
             Plugins.lookup k (Plugins.plugin_cache _ _ st') <> None).
Proof. apply load_plugin_frame. Qed.

Lemma X23_load_plugin_frame_witness :
  Plugins.config_file_path _ _ (fresh_Plugins ["earlier"; "note"])
  = Plugins.config_file_path _ _ (fresh_Plugins ["earlier"]) /\
  Plugins.plugins _ _ (fresh_Plugins ["earlier"; "note"])
  = Plugins.plugins _ _ (fresh_Plugins ["earlier"]) /\
  (exists added,
     Plugins.warnings _ _ (fresh_Plugins ["earlier"; "note"])
     = Plugins.warnings _ _ (fresh_Plugins ["earlier"]) ++ added) /\
  (forall k, VStr k <> VStr "search" ->
     Plugins.lookup k (Plugins.plugin_cache _ _ (fresh_Plugins ["earlier"; "note"]))
     = Plugins.lookup k (Plugins.plugin_cache _ _ (fresh_Plugins ["earlier"]))) /\
  (forall k,
     Plugins.lookup k (Plugins.plugin_cache _ _ (fresh_Plugins ["earlier"])) <> None ->
     Plugins.lookup k (Plugins.plugin_cache _ _ (fresh_Plugins ["earlier"; "note"]))
     <> None).
Proof.
  apply (X23_load_plugin_frame string string (list string)
           [("search", "SearchPlugin")] (fun _ => true) (fun c => c) "BasePlugin"
           (fun c => c) (fun _ => false) (fun p _ _ => (p, ([], ["note"])))
           (VStr "search") VNone (fresh_Plugins ["earlier"])
           (fresh_Plugins ["earlier"; "note"]) (Return "SearchPlugin")).
  reflexivity.
Defined.
